(** * The data-analysis engine of the dashboard generator

    A shallow embedding of [src/lib/dataAnalysis.ts] (class
    [DataAnalysisEngine]): column profiling, type inference, descriptive
    statistics, correlations, data-quality metrics, chart recommendation and
    insight generation.

    Conventions of the embedding.
    - A JavaScript [number] is a value of [num]: [NaN], the two infinities, or
      a finite number.  Finite numbers are exact rationals: rounding, overflow
      and the sign of zero are not part of the model, the special values and
      the IEEE rules that create them (division by zero, 0/0, Inf - Inf) are.
      A statement that would depend on them is made for numbers in a range
      where doubles agree with it ([moderate], [spreadBound], [exactSums]).
    - A cell is a [Value]; a row is an association list in key order
      ([Object.keys]).  Rows come from [XLSX.utils.sheet_to_json], so cells
      are numbers, strings and booleans; [null] and a missing field
      ([undefined]) are kept because the engine's input type is [any].
    - Built-ins whose result is implementation defined or a large grammar
      ([Number] on a string, [Date.parse], the decimal rendering of a number)
      are variables of the engine's section: every theorem holds for any
      behaviour of them.
    - Exceptions are values of [result]; the engine's cached profile is state
      passed explicitly.
    - Display strings that embed formatted numbers (chart titles, insight
      descriptions, bin labels) are left out of the records; the fields that
      drive control flow and selection are all there. *)

From Stdlib Require Import List Bool Arith ZArith QArith Qround Qabs Lia.
From Stdlib Require Import String Ascii DecimalString Permutation Sorted.
Import ListNotations.

Set Implicit Arguments.
Close Scope Q_scope.
Open Scope string_scope.
Open Scope list_scope.
Open Scope nat_scope.

(* ------------------------------------------------------------------ *)
(** ** JavaScript numbers *)

Module JSNum.
#[local] Open Scope Q_scope.

Inductive num : Type :=
| NaN
| PInf
| NInf
| Fin (q : Q).

(** Finite results are kept in lowest terms, so that computed numbers are
    equal exactly when they are equal as numbers. *)
Definition fin (q : Q) : num := Fin (Qred q).

Definition of_Z (z : Z) : num := Fin (inject_Z z).
Definition of_nat (n : nat) : num := of_Z (Z.of_nat n).

Definition Qlt_bool (a b : Q) : bool := negb (Qle_bool b a).

Definition isNaN (x : num) : bool :=
  match x with NaN => true | _ => false end.

Definition isFinite (x : num) : bool :=
  match x with Fin _ => true | _ => false end.

Definition nneg (x : num) : num :=
  match x with
  | NaN => NaN
  | PInf => NInf
  | NInf => PInf
  | Fin a => fin (- a)
  end.

Definition nadd (x y : num) : num :=
  match x, y with
  | NaN, _ | _, NaN => NaN
  | PInf, NInf | NInf, PInf => NaN
  | PInf, _ | _, PInf => PInf
  | NInf, _ | _, NInf => NInf
  | Fin a, Fin b => fin (a + b)
  end.

Definition nsub (x y : num) : num := nadd x (nneg y).

(** The infinity of the sign of [q] (zero counts as positive zero). *)
Definition inf_of_sign (positive : bool) : num :=
  if positive then PInf else NInf.

Definition nmul (x y : num) : num :=
  match x, y with
  | NaN, _ | _, NaN => NaN
  | Fin a, Fin b => fin (a * b)
  | Fin a, PInf | PInf, Fin a =>
      if Qeq_bool a 0 then NaN else inf_of_sign (Qlt_bool 0 a)
  | Fin a, NInf | NInf, Fin a =>
      if Qeq_bool a 0 then NaN else inf_of_sign (Qlt_bool a 0)
  | PInf, PInf | NInf, NInf => PInf
  | PInf, NInf | NInf, PInf => NInf
  end.

Definition ndiv (x y : num) : num :=
  match x, y with
  | NaN, _ | _, NaN => NaN
  | Fin a, Fin b =>
      if Qeq_bool b 0 then
        if Qeq_bool a 0 then NaN else inf_of_sign (Qlt_bool 0 a)
      else fin (a / b)
  | Fin _, PInf | Fin _, NInf => Fin 0
  | PInf, Fin b => inf_of_sign (Qle_bool 0 b)
  | NInf, Fin b => inf_of_sign (Qlt_bool b 0)
  | _, _ => NaN
  end.

(** [x < y], [x === y] and the comparisons derived from them; every
    comparison with [NaN] is false. *)
Definition nlt (x y : num) : bool :=
  match x, y with
  | NaN, _ | _, NaN => false
  | Fin a, Fin b => Qlt_bool a b
  | NInf, NInf | PInf, _ | _, NInf => false
  | NInf, _ | _, PInf => true
  end.

Definition strictEq (x y : num) : bool :=
  match x, y with
  | Fin a, Fin b => Qeq_bool a b
  | PInf, PInf | NInf, NInf => true
  | _, _ => false
  end.

Definition ngt (x y : num) : bool := nlt y x.
Definition nle (x y : num) : bool := nlt x y || strictEq x y.
Definition nge (x y : num) : bool := nle y x.

(** SameValueZero, the equality of [Set] and [Map] keys: as [===] but
    [NaN] equals itself. *)
Definition sameValueZero (x y : num) : bool :=
  match x, y with
  | NaN, NaN => true
  | _, _ => strictEq x y
  end.

Definition Math_abs (x : num) : num :=
  match x with
  | NaN => NaN
  | PInf | NInf => PInf
  | Fin a => fin (Qabs a)
  end.

Definition Math_floor (x : num) : num :=
  match x with
  | Fin a => of_Z (Qfloor a)
  | _ => x
  end.

Definition Math_ceil (x : num) : num :=
  match x with
  | Fin a => of_Z (Qceiling a)
  | _ => x
  end.

(** [Math.min] and [Math.max] of two numbers: [NaN] wins. *)
Definition min2 (x y : num) : num :=
  match x, y with
  | NaN, _ | _, NaN => NaN
  | _, _ => if nlt y x then y else x
  end.

Definition max2 (x y : num) : num :=
  match x, y with
  | NaN, _ | _, NaN => NaN
  | _, _ => if nlt x y then y else x
  end.

(** [Math.min(...l)] and [Math.max(...l)]; of no argument they are
    [Infinity] and [-Infinity]. *)
Definition Math_min (l : list num) : num := fold_left min2 l PInf.
Definition Math_max (l : list num) : num := fold_left max2 l NInf.

(** Square root of a non-negative rational: exact when the root is
    rational, otherwise cut after 64 binary digits. *)
Definition Qsqrt (q : Q) : Q :=
  let k := (2 ^ 64)%Z in
  let d := Zpos (Qden q) in
  match (d * k)%Z with
  | Zpos p => Z.sqrt (Qnum q * d * (k * k)) # p
  | _ => 0
  end.

Definition Math_sqrt (x : num) : num :=
  match x with
  | NaN | NInf => NaN
  | PInf => PInf
  | Fin a => if Qlt_bool a 0 then NaN else fin (Qsqrt a)
  end.

(** [Math.pow(x, n)] for the literal exponents of the source (2 and 3). *)
Fixpoint Math_pow (x : num) (n : nat) : num :=
  match n with
  | O => Fin 1
  | S O => x
  | S m => nmul x (Math_pow x m)
  end.

(** An array index or length: a number that is a non-negative integer.
    Any other number used as [a[i]] names no element. *)
Definition toIndex (x : num) : option nat :=
  match x with
  | Fin a =>
      if Qeq_bool a (inject_Z (Qfloor a)) && Qle_bool 0 a
      then Some (Z.to_nat (Qfloor a)) else None
  | _ => None
  end.

End JSNum.
Import JSNum.

Declare Scope num_scope.
Delimit Scope num_scope with num.
Bind Scope num_scope with num.
Infix "+" := nadd : num_scope.
Infix "-" := nsub : num_scope.
Infix "*" := nmul : num_scope.
Infix "/" := ndiv : num_scope.
Infix "<?" := nlt : num_scope.
Infix ">?" := ngt : num_scope.
Infix "<=?" := nle : num_scope.
Infix "===" := strictEq (at level 70) : num_scope.

Infix ">=?" := nge : num_scope.

(** Literals of the source. *)
Definition zero : num := Fin 0.
Definition dec (n d : Z) : num := fin (Qmake n (Z.to_pos d)).

(* ------------------------------------------------------------------ *)
(** ** Values, rows and exceptions *)

Inductive Value : Type :=
| VUndefined
| VNull
| VBool (b : bool)
| VNum (n : num)
| VStr (s : string).

(** A row of the dataset: its own properties in [Object.keys] order. *)
Definition Row : Type := list (string * Value).

Definition Object_keys (row : Row) : list string := map fst row.

(** [row[k]]: the value of the first property named [k], [undefined] when
    there is none. *)
Definition getField (row : Row) (k : string) : Value :=
  match find (fun kv => String.eqb (fst kv) k) row with
  | Some kv => snd kv
  | None => VUndefined
  end.

(** [v === w] on values. *)
Definition strictEqV (v w : Value) : bool :=
  match v, w with
  | VUndefined, VUndefined | VNull, VNull => true
  | VBool a, VBool b => Bool.eqb a b
  | VNum a, VNum b => (a === b)%num
  | VStr a, VStr b => String.eqb a b
  | _, _ => false
  end.

(** The equality of [Set] members. *)
Definition sameValueZeroV (v w : Value) : bool :=
  match v, w with
  | VNum a, VNum b => sameValueZero a b
  | _, _ => strictEqV v w
  end.

(** Truthiness, as [&&], [||] and [if] test it. *)
Definition truthy (v : Value) : bool :=
  match v with
  | VUndefined | VNull => false
  | VBool b => b
  | VNum NaN => false
  | VNum (Fin q) => negb (Qeq_bool q 0)
  | VNum _ => true
  | VStr s => negb (String.eqb s EmptyString)
  end.

(** [new Set(values)] keeps the first of each class of equal members, in
    insertion order; [.size] is the length of that list. *)
Fixpoint Set_of (values : list Value) (seen : list Value) : list Value :=
  match values with
  | [] => seen
  | v :: rest =>
      if existsb (sameValueZeroV v) seen then Set_of rest seen
      else Set_of rest (seen ++ [v])
  end.

Definition Set_size (values : list Value) : nat := List.length (Set_of values []).

Inductive JSError : Type :=
| Error (msg : string)
| TypeError (msg : string)
| RangeError (msg : string).

Inductive result (A : Type) : Type :=
| Ok (a : A)
| Throw (e : JSError).
Arguments Ok {A} a.
Arguments Throw {A} e.

Definition bind {A B} (r : result A) (k : A -> result B) : result B :=
  match r with
  | Ok a => k a
  | Throw e => Throw e
  end.

Notation "x <- r ;; k" := (bind r (fun x => k))
  (at level 61, r at next level, right associativity).

(** [for (const x of l) { body }] over a loop that may throw: the
    accumulator is threaded, the first exception ends the loop. *)
Fixpoint forEachM {A S} (body : S -> A -> result S) (l : list A) (s : S)
  : result S :=
  match l with
  | [] => Ok s
  | x :: rest => s' <- body s x ;; forEachM body rest s'
  end.

(* ------------------------------------------------------------------ *)
(** ** Arrays *)

(** [a[i]] for a numeric [i]: [undefined] (here [None]) unless [i] is an
    index of [a]. *)
Definition Array_get {A} (a : list A) (i : num) : option A :=
  match toIndex i with
  | Some k => nth_error a k
  | None => None
  end.

(** A number read from a slot that may hold [undefined]: arithmetic on
    [undefined] is arithmetic on [NaN]. *)
Definition numOf (o : option num) : num :=
  match o with
  | Some x => x
  | None => NaN
  end.

(** [a.sort(cmp)]: the stable sort; [cmp y x < 0] keeps [y] before [x],
    any other answer ([NaN] too) lets the earlier element stay first. *)
Section ArraySort.
Context {A : Type} (cmp : A -> A -> num).

Fixpoint sort_insert (x : A) (l : list A) : list A :=
  match l with
  | [] => [x]
  | y :: rest =>
      if (cmp y x <? zero)%num then y :: sort_insert x rest
      else x :: l
  end.

Fixpoint Array_sort (l : list A) : list A :=
  match l with
  | [] => []
  | x :: rest => sort_insert x (Array_sort rest)
  end.

End ArraySort.

(** [a.reduce((acc, x, i) => f(acc, x, i), init)]. *)
Fixpoint reduce_from {A B} (f : B -> A -> nat -> B) (l : list A) (i : nat)
  (acc : B) : B :=
  match l with
  | [] => acc
  | x :: rest => reduce_from f rest (S i) (f acc x i)
  end.

Definition Array_reduce_i {A B} (f : B -> A -> nat -> B) (l : list A)
  (init : B) : B := reduce_from f l 0 init.

(** [a.slice(0, n)] is [firstn n a]; the sum [a.reduce((x, y) => x + y, 0)]: *)
Definition sumNum (l : list num) : num := fold_left nadd l zero.

(** [l[i] = x] for an index inside [l]. *)
Fixpoint list_update {A} (l : list A) (i : nat) (x : A) : list A :=
  match l, i with
  | [], _ => []
  | _ :: rest, O => x :: rest
  | y :: rest, S j => y :: list_update rest j x
  end.

(** The pairs [(l[i], l[j])], [i < j], in the order of the double loop
    [for i … for j = i + 1 …]. *)
Fixpoint pairs {A} (l : list A) : list (A * A) :=
  match l with
  | [] => []
  | x :: rest => map (pair x) rest ++ pairs rest
  end.

(* ------------------------------------------------------------------ *)
(** ** The data model of the engine *)

Inductive ColumnType : Type :=
| Numeric | Categorical | Datetime | Boolean | Text.

Definition ColumnType_eqb (a b : ColumnType) : bool :=
  match a, b with
  | Numeric, Numeric | Categorical, Categorical | Datetime, Datetime
  | Boolean, Boolean | Text, Text => true
  | _, _ => false
  end.

(** [DataColumn['stats']]; a slot read past the end of the sorted values
    would hold [undefined]. *)
Record Stats : Type := mkStats {
  stat_min : option num;
  stat_max : option num;
  stat_mean : num;
  stat_median : option num;
  stat_std : num;
  stat_q1 : option num;
  stat_q3 : option num
}.

Record DataColumn : Type := mkColumn {
  name : string;
  type : ColumnType;
  uniqueValues : nat;
  nullCount : nat;
  sampleValues : list Value;
  stats : option Stats;
  distribution : option (list (string * nat))
}.

Inductive Strength : Type := Weak | Moderate | Strong.

Record Correlation : Type := mkCorrelation {
  col1 : string;
  col2 : string;
  correlation : num;
  strength : Strength
}.

Record DataQuality : Type := mkQuality {
  completeness : num;
  duplicateRows : nat;
  outliers : nat
}.

Record DataProfile : Type := mkProfile {
  totalRows : nat;
  totalColumns : nat;
  columns : list DataColumn;
  dataQuality : DataQuality;
  correlations : list Correlation
}.

(** The text that [JSON.stringify(row)] prints, as the tree it prints: the
    properties in key order, a property holding [undefined] left out, a
    number that is [NaN] or infinite printed as [null].  Two rows print
    the same text exactly when these trees are equal. *)
Inductive JSONScalar : Type :=
| JNull
| JBool (b : bool)
| JNum (q : Q)
| JStr (s : string).

Definition JSON_value (v : Value) : option JSONScalar :=
  match v with
  | VUndefined => None
  | VNull => Some JNull
  | VBool b => Some (JBool b)
  | VNum (Fin q) => Some (JNum (Qred q))
  | VNum _ => Some JNull
  | VStr s => Some (JStr s)
  end.

Definition JSON_stringify (row : Row) : list (string * JSONScalar) :=
  flat_map (fun kv =>
    match JSON_value (snd kv) with
    | Some j => [(fst kv, j)]
    | None => []
    end) row.

Definition JSONScalar_eqb (a b : JSONScalar) : bool :=
  match a, b with
  | JNull, JNull => true
  | JBool x, JBool y => Bool.eqb x y
  | JNum x, JNum y => Qeq_bool x y
  | JStr x, JStr y => String.eqb x y
  | _, _ => false
  end.

Fixpoint JSON_eqb (a b : list (string * JSONScalar)) : bool :=
  match a, b with
  | [], [] => true
  | (k, x) :: a', (k', y) :: b' =>
      String.eqb k k' && JSONScalar_eqb x y && JSON_eqb a' b'
  | _, _ => false
  end.

(* ------------------------------------------------------------------ *)
(** ** Strings and the two patterns of the narrative parser

    Strings are lists of 8-bit characters; the character classes are the
    ASCII part of [\d], [\w], [\s] and of the line terminators. *)

Definition isDigit (c : ascii) : bool :=
  let n := nat_of_ascii c in Nat.leb 48 n && Nat.leb n 57.

Definition isWordChar (c : ascii) : bool :=
  let n := nat_of_ascii c in
  isDigit c || (Nat.leb 65 n && Nat.leb n 90)
  || (Nat.leb 97 n && Nat.leb n 122) || Nat.eqb n 95.

Definition isLineTerminator (c : ascii) : bool :=
  let n := nat_of_ascii c in Nat.eqb n 10 || Nat.eqb n 13.

Definition isSpace (c : ascii) : bool :=
  let n := nat_of_ascii c in
  (Nat.leb 9 n && Nat.leb n 13) || Nat.eqb n 32.

Definition isChar (k : nat) (c : ascii) : bool := Nat.eqb (nat_of_ascii c) k.

(** The longest prefix whose characters satisfy [p], and the rest. *)
Fixpoint span (p : ascii -> bool) (l : list ascii) : list ascii * list ascii :=
  match l with
  | [] => ([], [])
  | c :: rest =>
      if p c then let (a, b) := span p rest in (c :: a, b)
      else ([], l)
  end.

Definition dropWhile (p : ascii -> bool) (l : list ascii) : list ascii :=
  snd (span p l).

(** [s.trim()] *)
Definition trim (l : list ascii) : list ascii :=
  rev (dropWhile isSpace (rev (dropWhile isSpace l))).

(** [s.split('\n')] *)
Fixpoint split_lines (l : list ascii) (cur : list ascii) : list (list ascii) :=
  match l with
  | [] => [rev cur]
  | c :: rest =>
      if isChar 10 c then rev cur :: split_lines rest []
      else split_lines rest (c :: cur)
  end.

(** [s.indexOf(c)]: the index of the first [c], [None] for [-1]. *)
Fixpoint indexOf (k : nat) (l : list ascii) : option nat :=
  match l with
  | [] => None
  | c :: rest =>
      if isChar k c then Some 0
      else match indexOf k rest with
           | Some i => Some (S i)
           | None => None
           end
  end.

(** [s.substring(a, b)]: both ends are clamped to the length and swapped
    when [a > b]. *)
Definition substring (a b : nat) (l : list ascii) : list ascii :=
  let a' := Nat.min a (List.length l) in
  let b' := Nat.min b (List.length l) in
  let lo := Nat.min a' b' in
  let hi := Nat.max a' b' in
  firstn (hi - lo) (skipn lo l).

(** [/^\d+\./] *)
Definition matchesNumbered (line : list ascii) : bool :=
  let (digits, rest) := span isDigit line in
  match digits, rest with
  | _ :: _, c :: _ => isChar 46 c
  | _, _ => false
  end.

(** [\s*(.+)] at the text after the colon: does it match?  Greedy
    white space gives back the last character that is no line terminator
    when nothing else is left for [.+]. *)
Definition matchesDescription (r : list ascii) : bool :=
  let (ws, rest) := span isSpace r in
  match rest with
  | _ :: _ => true
  | [] => existsb (fun c => negb (isLineTerminator c)) ws
  end.

(** [\s*([^:]+):\s*(.+)] at the text after the closing bracket: the
    second group, the title. *)
Definition matchAfterBracket (r : list ascii) : option (list ascii) :=
  let (ws, r1) := span isSpace r in
  let (t, r2) := span (fun c => negb (isChar 58 c)) r1 in
  match r2 with
  | _ :: r3 =>
      if matchesDescription r3 then
        match t with
        | _ :: _ => Some t
        | [] => match rev ws with
                | c :: _ => Some [c]
                | [] => None
                end
        end
      else None
  | [] => None
  end.

(** [(\w+)\]] then the rest, at the text after an opening bracket. *)
Definition matchAtBracket (r : list ascii) : option (list ascii) :=
  let (w, r0) := span isWordChar r in
  match w, r0 with
  | _ :: _, c :: r1 => if isChar 93 c then matchAfterBracket r1 else None
  | _, _ => None
  end.

(** [line.match(/\[(\w+)\]\s*([^:]+):\s*(.+)/)]: the title group of the
    leftmost match. *)
Fixpoint matchBracket (line : list ascii) : option (list ascii) :=
  match line with
  | [] => None
  | c :: rest =>
      if isChar 91 c then
        match matchAtBracket rest with
        | Some t => Some t
        | None => matchBracket rest
        end
      else matchBracket rest
  end.

(* ------------------------------------------------------------------ *)
(** ** Sample built-ins and sample rows

    Stand-ins for the three built-ins the engine is parametric in, used to
    run it on the sample rows below.  [sample_StringToNumber] reads a string
    of decimal digits with an optional minus sign, takes the empty string
    to 0 and any other string to [NaN]; [sample_NumberToString] prints an
    integer in decimal; [sample_Date_parse] knows no date. *)

Definition sample_StringToNumber (s : string) : num :=
  match s with
  | EmptyString => zero
  | _ => match NilZero.int_of_string s with
         | Some i => of_Z (Z.of_int i)
         | None => NaN
         end
  end.

Definition sample_NumberToString (n : num) : string :=
  match n with
  | NaN => "NaN"
  | PInf => "Infinity"
  | NInf => "-Infinity"
  | Fin q => NilZero.string_of_int (Z.to_int (Qfloor q))
  end.

Definition sample_Date_parse (s : string) : num := NaN.

Definition vint (z : Z) : Value := VNum (of_Z z).

(** One numeric column whose three cells are all 5. *)
Definition rows_constant : list Row :=
  [ [("a", vint 5)]; [("a", vint 5)]; [("a", vint 5)] ].

(** One numeric column, 1 to 4 and a [null] cell. *)
Definition rows_with_null : list Row :=
  [ [("a", vint 1)]; [("a", vint 2)]; [("a", vint 3)]; [("a", vint 4)];
    [("a", VNull)] ].

(** Two numeric columns; the first cell of [a] is [null]. *)
Definition rows_null_pair : list Row :=
  [ [("a", VNull); ("b", vint 1)];
    [("a", vint 2); ("b", vint 2)];
    [("a", vint 3); ("b", vint 4)] ].

(** A numeric column [n] and a categorical column [c]. *)
Definition rows_mixed : list Row :=
  [ [("n", vint 1); ("c", VStr "x")]; [("n", vint 2); ("c", VStr "y")];
    [("n", vint 3); ("c", VStr "x")]; [("n", vint 4); ("c", VStr "y")];
    [("n", vint 5); ("c", VStr "x")]; [("n", vint 7); ("c", VStr "y")] ].

(** A dataset in which only the second record has the field [extra],
    and the same dataset without that field. *)
Definition rows_later_field : list Row :=
  [ [("a", vint 1)]; [("a", vint 2); ("extra", vint 9)]; [("a", vint 3)] ].

Definition rows_without_later_field : list Row :=
  [ [("a", vint 1)]; [("a", vint 2)]; [("a", vint 3)] ].

(** Five values, four of them 0 or 1. *)
Definition values_80_percent : list Value :=
  [vint 0; vint 1; vint 0; vint 1; vint 7].

(** The same mapping written in two key orders. *)
Definition rows_reordered : list Row :=
  [ [("a", vint 1); ("b", vint 2)]; [("b", vint 2); ("a", vint 1)] ].

(** Scenario D: ten rows, five of them identical. *)
Definition rows_scenario_D : list Row :=
  [ [("a", vint 7)]; [("a", vint 1)]; [("a", vint 7)]; [("a", vint 2)];
    [("a", vint 7)]; [("a", vint 3)]; [("a", vint 7)]; [("a", vint 4)];
    [("a", vint 7)]; [("a", vint 5)] ].

(** One column whose two cells are the two infinities. *)
Definition rows_infinite : list Row :=
  [ [("a", VNum NInf)]; [("a", VNum PInf)] ].

(** Three rows with a time stamp [t], out of order, and a value [v]. *)
Definition rows_dated : list Row :=
  [ [("t", vint 3); ("v", vint 30)]; [("t", vint 1); ("v", vint 10)];
    [("t", vint 2); ("v", vint 20)] ].

(* ------------------------------------------------------------------ *)
(** ** The engine *)

Record Engine : Type := mkEngine {
  data : list Row;
  profile : option DataProfile
}.

(** [new DataAnalysisEngine(data)] *)
Definition newEngine (rows : list Row) : Engine := mkEngine rows None.

Section DataAnalysisEngine.

(** [Number(s)] and [String(n)] for a string [s] and a number [n], and
    [Date.parse]. *)
Variable StringToNumber : string -> num.
Variable NumberToString : num -> string.
Variable Date_parse : string -> num.

Definition ToNumber (v : Value) : num :=
  match v with
  | VUndefined => NaN
  | VNull => zero
  | VBool true => Fin 1
  | VBool false => zero
  | VNum n => n
  | VStr s => StringToNumber s
  end.

Definition ToString (v : Value) : string :=
  match v with
  | VUndefined => "undefined"
  | VNull => "null"
  | VBool true => "true"
  | VBool false => "false"
  | VNum n => NumberToString n
  | VStr s => s
  end.

(** [this.data.map(row => Number(row[columnName])).filter(v => !isNaN(v))],
    the numbers that five methods read a column through. *)
Definition numbersOf (rows : list Row) (columnName : string) : list num :=
  filter (fun v => negb (isNaN v))
    (map (fun row => ToNumber (getField row columnName)) rows).

(** *** Type inference *)

Definition isBooleanLike (v : Value) : bool :=
  match v with
  | VBool _ => true
  | _ => strictEqV v (VStr "true") || strictEqV v (VStr "false")
         || strictEqV v (VNum zero) || strictEqV v (VNum (Fin 1))
  end.

Definition isNumericLike (v : Value) : bool :=
  negb (isNaN (ToNumber v)) && negb (strictEqV v (VStr ""))
  && negb (strictEqV v VNull).

Definition isDateLike (v : Value) : bool :=
  negb (isNaN (Date_parse (ToString v))).

Definition detectColumnType (values : list Value) : ColumnType :=
  if Nat.eqb (List.length values) 0 then Text else
  let threshold := (of_nat (List.length values) * dec 8 10)%num in
  let booleanValues := filter isBooleanLike values in
  if (of_nat (List.length booleanValues) >? threshold)%num then Boolean else
  let numericValues := filter isNumericLike values in
  if (of_nat (List.length numericValues) >? threshold)%num then Numeric else
  let dateValues := filter isDateLike values in
  if (of_nat (List.length dateValues) >? threshold)%num then Datetime else
  let uniqueValues := Set_size values in
  if (of_nat uniqueValues
      <=? min2 (of_nat 50) (of_nat (List.length values) * dec 5 10))%num
  then Categorical else Text.

(** *** Descriptive statistics *)

Definition calculateStatistics (values : list num) : Stats :=
  let sorted := Array_sort (fun a b => a - b)%num values in
  let n := List.length sorted in
  let mean := (sumNum values / of_nat n)%num in
  let variance :=
    (fold_left (fun acc val => acc + Math_pow (val - mean) 2) values zero
     / of_nat n)%num in
  {| stat_min := Array_get sorted zero;
     stat_max := Array_get sorted (of_nat n - Fin 1)%num;
     stat_mean := mean;
     stat_median :=
       if Nat.eqb (n mod 2) 0
       then Some ((numOf (Array_get sorted (of_nat n / Fin 2 - Fin 1))
                   + numOf (Array_get sorted (of_nat n / Fin 2))) / Fin 2)%num
       else Array_get sorted (Math_floor (of_nat n / Fin 2))%num;
     stat_std := Math_sqrt variance;
     stat_q1 := Array_get sorted (Math_floor (of_nat n * dec 25 100))%num;
     stat_q3 := Array_get sorted (Math_floor (of_nat n * dec 75 100))%num |}.

(** [distribution[key] = (distribution[key] || 0) + 1]; the object is the
    list of its entries in insertion order. *)
Fixpoint distribution_incr (key : string) (d : list (string * nat))
  : list (string * nat) :=
  match d with
  | [] => [(key, 1)]
  | (k, c) :: rest =>
      if String.eqb k key then (k, S c) :: rest
      else (k, c) :: distribution_incr key rest
  end.

Definition calculateDistribution (values : list Value) : list (string * nat) :=
  fold_left (fun d value => distribution_incr (ToString value) d) values [].

(** *** Correlation *)

Definition pearsonCorrelation (x y : list num) : num :=
  let n := Nat.min (List.length x) (List.length y) in
  if Nat.eqb n 0 then zero else
  let sumX := sumNum (firstn n x) in
  let sumY := sumNum (firstn n y) in
  let sumXY :=
    Array_reduce_i (fun acc xi i => acc + xi * numOf (nth_error y i))%num
      (firstn n x) zero in
  let sumX2 := fold_left (fun acc xi => acc + xi * xi)%num (firstn n x) zero in
  let sumY2 := fold_left (fun acc yi => acc + yi * yi)%num (firstn n y) zero in
  let numerator := (of_nat n * sumXY - sumX * sumY)%num in
  let denominator :=
    Math_sqrt ((of_nat n * sumX2 - sumX * sumX)
               * (of_nat n * sumY2 - sumY * sumY))%num in
  if (denominator === zero)%num then zero else (numerator / denominator)%num.

Definition strengthOf (absCorr : num) : Strength :=
  if (absCorr >? dec 7 10)%num then Strong
  else if (absCorr >? dec 3 10)%num then Moderate
  else Weak.

Definition calculateCorrelations (rows : list Row)
  (numericColumns : list DataColumn) : list Correlation :=
  flat_map (fun cc =>
    let values1 := numbersOf rows (name (fst cc)) in
    let values2 := numbersOf rows (name (snd cc)) in
    if Nat.ltb 1 (List.length values1) && Nat.ltb 1 (List.length values2) then
      let correlation := pearsonCorrelation values1 values2 in
      let absCorr := Math_abs correlation in
      [ {| col1 := name (fst cc); col2 := name (snd cc);
           correlation := correlation; strength := strengthOf absCorr |} ]
    else [])
    (pairs numericColumns).

(** *** Data quality *)

(** [seen] holds the texts of the rows met so far. *)
Fixpoint findDuplicateRows_from (rows : list Row)
  (seen : list (list (string * JSONScalar))) (duplicates : nat) : nat :=
  match rows with
  | [] => duplicates
  | row :: rest =>
      let key := JSON_stringify row in
      if existsb (JSON_eqb key) seen
      then findDuplicateRows_from rest seen (S duplicates)
      else findDuplicateRows_from rest (key :: seen) duplicates
  end.

Definition findDuplicateRows (rows : list Row) : nat :=
  findDuplicateRows_from rows [] 0.

Definition detectOutliers (rows : list Row) (numericColumns : list DataColumn)
  : nat :=
  fold_left (fun totalOutliers col =>
    match stats col with
    | Some s =>
        let q1 := numOf (stat_q1 s) in
        let q3 := numOf (stat_q3 s) in
        let iqr := (q3 - q1)%num in
        let lowerBound := (q1 - dec 15 10 * iqr)%num in
        let upperBound := (q3 + dec 15 10 * iqr)%num in
        let outliers := List.length (filter (fun row =>
          let value := ToNumber (getField row (name col)) in
          negb (isNaN value)
          && ((value <? lowerBound) || (value >? upperBound))%num) rows) in
        totalOutliers + outliers
    | None => totalOutliers
    end) numericColumns 0.

Definition calculateCompleteness (rows : list Row) (cols : list DataColumn)
  : num :=
  let totalCells := List.length rows * List.length cols in
  let nullCells := fold_left (fun acc col => acc + nullCount col) cols 0 in
  ((of_nat totalCells - of_nat nullCells) / of_nat totalCells)%num.

(** *** Profiling *)

Definition isPresent (v : Value) : bool :=
  negb (strictEqV v VNull) && negb (strictEqV v VUndefined)
  && negb (strictEqV v (VStr "")).

(** The body of the loop [for (const colName of columns)]. *)
Definition profileColumn (rows : list Row) (colName : string) : DataColumn :=
  let values := filter isPresent (map (fun row => getField row colName) rows) in
  let nullCount := List.length rows - List.length values in
  let uniqueValues := Set_size values in
  let type := detectColumnType values in
  let stats :=
    match type with
    | Numeric =>
        let numericValues :=
          filter (fun v => negb (isNaN v)) (map ToNumber values) in
        if Nat.ltb 0 (List.length numericValues)
        then Some (calculateStatistics numericValues) else None
    | _ => None
    end in
  let distribution :=
    match type with
    | Categorical =>
        if Nat.leb uniqueValues 20
        then Some (calculateDistribution values) else None
    | _ => None
    end in
  {| name := colName; type := type; uniqueValues := uniqueValues;
     nullCount := nullCount; sampleValues := firstn 10 values;
     stats := stats; distribution := distribution |}.

Definition isNumericColumn (col : DataColumn) : bool :=
  ColumnType_eqb (type col) Numeric.

(** [profileData()]: the profile, and the engine with the profile cached. *)
Definition profileData (e : Engine) : result DataProfile * Engine :=
  match data e with
  | [] => (Throw (Error "No data to analyze"), e)
  | row0 :: _ =>
      let cols := Object_keys row0 in
      let profiledColumns := map (profileColumn (data e)) cols in
      let numericColumns := filter isNumericColumn profiledColumns in
      let correlations := calculateCorrelations (data e) numericColumns in
      let duplicateRows := findDuplicateRows (data e) in
      let outliers := detectOutliers (data e) numericColumns in
      let completeness := calculateCompleteness (data e) profiledColumns in
      let p := {| totalRows := List.length (data e);
                  totalColumns := List.length cols;
                  columns := profiledColumns;
                  dataQuality := {| completeness := completeness;
                                    duplicateRows := duplicateRows;
                                    outliers := outliers |};
                  correlations := correlations |} in
      (Ok p, {| data := data e; profile := Some p |})
  end.

(** [if (!this.profile) await this.profileData()], then [this.profile!]. *)
Definition ensureProfile (e : Engine) : result DataProfile * Engine :=
  match profile e with
  | Some p => (Ok p, e)
  | None => profileData e
  end.

(** *** Chart data *)

Inductive ChartType : Type :=
| Bar | Line | Pie | Scatter | Heatmap | Histogram | Box | Area | Treemap.

(** A histogram bin [{range, count, min, max}]; the label [range] prints
    [min] and [max]. *)
Record HistogramBin : Type := mkBin {
  bin_min : num;
  bin_max : num;
  bin_count : nat
}.

(** [{value, date}] of a time series, [date] as its time value. *)
Record TimePoint : Type := mkTimePoint {
  point_value : num;
  point_date : num
}.

Record HeatmapCell : Type := mkCell {
  cell_category : string;
  cell_average : num;
  cell_count : nat;
  cell_min : num;
  cell_max : num
}.

Record BoxStats : Type := mkBox {
  box_category : string;
  box_min : option num;
  box_q1 : option num;
  box_median : option num;
  box_q3 : option num;
  box_max : option num;
  box_outliers : list num
}.

Inductive ChartData : Type :=
| HistogramData (bins : list HistogramBin)
| CategoryData (entries : list (string * nat))
| LineData (points : list TimePoint)
| ScatterData (points : list (num * num))
| HeatmapData (cells : list HeatmapCell)
| BoxData (boxes : list BoxStats).

Record ChartRecommendation : Type := mkChart {
  id : string;
  chart_type : ChartType;
  chart_data : ChartData;
  priority : nat;
  chart_columns : list string
}.

(** [Array(n).fill(0).map((_, i) => f(i))] *)
Definition Array_init {A} (n : num) (f : nat -> A) : result (list A) :=
  match toIndex n with
  | Some k => Ok (map f (seq 0 k))
  | None => Throw (RangeError "Invalid array length")
  end.

(** [bins[binIndex].count++] *)
Definition incrementBin (bins : list HistogramBin) (binIndex : num)
  : result (list HistogramBin) :=
  match toIndex binIndex with
  | Some k =>
      match nth_error bins k with
      | Some b =>
          Ok (list_update bins k
                {| bin_min := bin_min b; bin_max := bin_max b;
                   bin_count := S (bin_count b) |})
      | None => Throw (TypeError "Cannot read properties of undefined")
      end
  | None => Throw (TypeError "Cannot read properties of undefined")
  end.

Definition createHistogram (rows : list Row) (columnName : string)
  : result (list HistogramBin) :=
  let values := numbersOf rows columnName in
  let min := Math_min values in
  let max := Math_max values in
  let binCount :=
    min2 (of_nat 20) (Math_ceil (Math_sqrt (of_nat (List.length values)))) in
  let binWidth := ((max - min) / binCount)%num in
  bins <- Array_init binCount (fun i =>
            {| bin_min := (min + of_nat i * binWidth)%num;
               bin_max := (min + (of_nat i + Fin 1) * binWidth)%num;
               bin_count := 0 |}) ;;
  forEachM (fun bins value =>
    let binIndex :=
      min2 (Math_floor ((value - min) / binWidth)) (binCount - Fin 1)%num in
    incrementBin bins binIndex) values bins.

(** [Number(v) || 0] *)
Definition numberOrZero (v : Value) : num :=
  let n := ToNumber v in
  if truthy (VNum n) then n else zero.

(** The time value of [new Date(v)]. *)
Definition TimeClip (t : num) : num :=
  match t with
  | Fin q =>
      if Qle_bool (Qabs q) (inject_Z 8640000000000000)
      then of_Z (if Qle_bool 0 q then Qfloor q else Qceiling q)
      else NaN
  | _ => NaN
  end.

Definition Date_getTime (v : Value) : num :=
  match v with
  | VStr s => Date_parse s
  | VUndefined => NaN
  | _ => TimeClip (ToNumber v)
  end.

Definition createTimeSeries (rows : list Row) (dateColumn valueColumn : string)
  : list TimePoint :=
  firstn 100
    (Array_sort (fun a b => point_date a - point_date b)%num
       (map (fun row =>
               {| point_value := numberOrZero (getField row valueColumn);
                  point_date := Date_getTime (getField row dateColumn) |})
          (filter (fun row => truthy (getField row dateColumn)
                              && truthy (getField row valueColumn)) rows))).

Definition createScatterPlot (rows : list Row) (c1 c2 : string)
  : list (num * num) :=
  firstn 500
    (map (fun row => (numberOrZero (getField row c1),
                      numberOrZero (getField row c2)))
       (filter (fun row => truthy (getField row c1)
                           && truthy (getField row c2)) rows)).

(** [if (!acc[category]) acc[category] = []; acc[category].push(value)];
    the object is the list of its entries in insertion order. *)
Fixpoint group_push (category : string) (value : num)
  (acc : list (string * list num)) : list (string * list num) :=
  match acc with
  | [] => [(category, [value])]
  | (k, vs) :: rest =>
      if String.eqb k category then (k, vs ++ [value]) :: rest
      else (k, vs) :: group_push category value rest
  end.

(** [String(row[categoryColumn] || 'Unknown')] *)
Definition categoryOf (row : Row) (categoryColumn : string) : string :=
  let v := getField row categoryColumn in
  ToString (if truthy v then v else VStr "Unknown").

Definition createHeatmap (rows : list Row) (categoryColumn valueColumn : string)
  : list HeatmapCell :=
  let grouped :=
    fold_left (fun acc row =>
      group_push (categoryOf row categoryColumn)
        (numberOrZero (getField row valueColumn)) acc) rows [] in
  map (fun entry =>
    let values := snd entry in
    {| cell_category := fst entry;
       cell_average := (sumNum values / of_nat (List.length values))%num;
       cell_count := List.length values;
       cell_min := Math_min values;
       cell_max := Math_max values |}) grouped.

Definition createBoxPlot (rows : list Row) (categoryColumn valueColumn : string)
  : list BoxStats :=
  let grouped :=
    fold_left (fun acc row =>
      let value := ToNumber (getField row valueColumn) in
      if negb (isNaN value)
      then group_push (categoryOf row categoryColumn) value acc
      else acc) rows [] in
  map (fun entry =>
    let sorted := Array_sort (fun a b => a - b)%num (snd entry) in
    let n := List.length sorted in
    let q1 := Array_get sorted (Math_floor (of_nat n * dec 25 100))%num in
    let q3 := Array_get sorted (Math_floor (of_nat n * dec 75 100))%num in
    {| box_category := fst entry;
       box_min := Array_get sorted zero;
       box_q1 := q1;
       box_median :=
         if Nat.eqb (n mod 2) 0
         then Some ((numOf (Array_get sorted (of_nat n / Fin 2 - Fin 1))
                     + numOf (Array_get sorted (of_nat n / Fin 2))) / Fin 2)%num
         else Array_get sorted (Math_floor (of_nat n / Fin 2))%num;
       box_q3 := q3;
       box_max := Array_get sorted (of_nat n - Fin 1)%num;
       box_outliers :=
         filter (fun v =>
           let iqr := (numOf q3 - numOf q1)%num in
           ((v <? numOf q1 - dec 15 10 * iqr)
            || (v >? numOf q3 + dec 15 10 * iqr))%num) sorted |}) grouped.

(** *** Chart recommendations *)

Definition isCategoricalColumn (col : DataColumn) : bool :=
  ColumnType_eqb (type col) Categorical && Nat.leb (uniqueValues col) 20.

Definition isDatetimeColumn (col : DataColumn) : bool :=
  ColumnType_eqb (type col) Datetime.

(** 1. Distribution analysis: a histogram per numeric column with stats. *)
Definition histogramCharts (rows : list Row) (numericCols : list DataColumn)
  (recommendations : list ChartRecommendation)
  : result (list ChartRecommendation) :=
  forEachM (fun recs col =>
    match stats col with
    | Some _ =>
        histogramData <- createHistogram rows (name col) ;;
        Ok (recs ++ [ {| id := "histogram-" ++ name col;
                         chart_type := Histogram;
                         chart_data := HistogramData histogramData;
                         priority := 7;
                         chart_columns := [name col] |} ])
    | None => Ok recs
    end) numericCols recommendations.

(** 2. Categorical analysis: a bar chart, and a pie chart for few values. *)
Definition categoricalCharts (categoricalCols : list DataColumn)
  : list ChartRecommendation :=
  flat_map (fun col =>
    match distribution col with
    | Some d =>
        let barData :=
          firstn 15
            (Array_sort (fun a b => of_nat (snd b) - of_nat (snd a))%num d) in
        {| id := "bar-" ++ name col; chart_type := Bar;
           chart_data := CategoryData barData; priority := 8;
           chart_columns := [name col] |}
        :: (if Nat.leb (uniqueValues col) 8
            then [ {| id := "pie-" ++ name col; chart_type := Pie;
                      chart_data := CategoryData (firstn 6 barData);
                      priority := 6; chart_columns := [name col] |} ]
            else [])
    | None => []
    end) categoricalCols.

(** 3. Time series: a line per datetime and numeric column. *)
Definition timeSeriesCharts (rows : list Row)
  (datetimeCols numericCols : list DataColumn) : list ChartRecommendation :=
  flat_map (fun dateCol =>
    flat_map (fun numCol =>
      let timeSeriesData := createTimeSeries rows (name dateCol) (name numCol) in
      if Nat.ltb 1 (List.length timeSeriesData)
      then [ {| id := "line-" ++ name dateCol ++ "-" ++ name numCol;
                chart_type := Line; chart_data := LineData timeSeriesData;
                priority := 9;
                chart_columns := [name dateCol; name numCol] |} ]
      else []) numericCols) datetimeCols.

(** 4. Correlation analysis: a scatter plot per correlated pair. *)
Definition findCorrelation (p : DataProfile) (c1 c2 : DataColumn)
  : option Correlation :=
  find (fun corr =>
    (String.eqb (col1 corr) (name c1) && String.eqb (col2 corr) (name c2))
    || (String.eqb (col1 corr) (name c2) && String.eqb (col2 corr) (name c1)))
    (correlations p).

Definition scatterCharts (rows : list Row) (p : DataProfile)
  (numericCols : list DataColumn) : list ChartRecommendation :=
  flat_map (fun cc =>
    match findCorrelation p (fst cc) (snd cc) with
    | Some corr =>
        if (Math_abs (correlation corr) >? dec 3 10)%num
        then [ {| id := "scatter-" ++ name (fst cc) ++ "-" ++ name (snd cc);
                  chart_type := Scatter;
                  chart_data :=
                    ScatterData
                      (createScatterPlot rows (name (fst cc)) (name (snd cc)));
                  priority := match strength corr with Strong => 8 | _ => 6 end;
                  chart_columns := [name (fst cc); name (snd cc)] |} ]
        else []
    | None => []
    end) (pairs numericCols).

(** 5. Cross-tabulation: heatmaps of the first two columns of each kind. *)
Definition heatmapCharts (rows : list Row)
  (categoricalCols numericCols : list DataColumn) : list ChartRecommendation :=
  flat_map (fun catCol =>
    flat_map (fun numCol =>
      let heatmapData := createHeatmap rows (name catCol) (name numCol) in
      if Nat.ltb 0 (List.length heatmapData)
      then [ {| id := "heatmap-" ++ name catCol ++ "-" ++ name numCol;
                chart_type := Heatmap; chart_data := HeatmapData heatmapData;
                priority := 5;
                chart_columns := [name catCol; name numCol] |} ]
      else []) (firstn 2 numericCols)) (firstn 2 categoricalCols).

(** 6. Box plots of the same columns, for at most ten categories. *)
Definition boxCharts (rows : list Row)
  (categoricalCols numericCols : list DataColumn) : list ChartRecommendation :=
  flat_map (fun catCol =>
    flat_map (fun numCol =>
      if Nat.leb (uniqueValues catCol) 10
      then [ {| id := "box-" ++ name catCol ++ "-" ++ name numCol;
                chart_type := Box;
                chart_data :=
                  BoxData (createBoxPlot rows (name catCol) (name numCol));
                priority := 6;
                chart_columns := [name catCol; name numCol] |} ]
      else []) (firstn 2 numericCols)) (firstn 2 categoricalCols).

(** The array [recommendations] when the six loops are done. *)
Definition chartCandidates (rows : list Row) (p : DataProfile)
  : result (list ChartRecommendation) :=
  let numericCols := filter isNumericColumn (columns p) in
  let categoricalCols := filter isCategoricalColumn (columns p) in
  let datetimeCols := filter isDatetimeColumn (columns p) in
  recommendations <- histogramCharts rows numericCols [] ;;
  Ok (recommendations
      ++ categoricalCharts categoricalCols
      ++ timeSeriesCharts rows datetimeCols numericCols
      ++ scatterCharts rows p numericCols
      ++ heatmapCharts rows categoricalCols numericCols
      ++ boxCharts rows categoricalCols numericCols).

(** [recommendations.sort((a, b) => b.priority - a.priority).slice(0, 8)] *)
Definition topRecommendations (recommendations : list ChartRecommendation)
  : list ChartRecommendation :=
  firstn 8
    (Array_sort (fun a b => of_nat (priority b) - of_nat (priority a))%num
       recommendations).

Definition generateChartRecommendations (e : Engine)
  : result (list ChartRecommendation) * Engine :=
  let (r, e') := ensureProfile e in
  (p <- r ;;
   recommendations <- chartCandidates (data e') p ;;
   Ok (topRecommendations recommendations),
   e').

(** *** Insights *)

Inductive InsightType : Type :=
| TrendInsight | AnomalyInsight | CorrelationInsight | DistributionInsight
| QualityInsight | BusinessInsight.

Inductive Severity : Type := Low | Medium | High.

(** An [AIInsight] without its prose ([description], [recommendation]) and
    its attached [data]. *)
Record AIInsight : Type := mkInsight {
  insight_type : InsightType;
  title : string;
  severity : Severity;
  actionable : bool
}.

Definition severityOrder (s : Severity) : num :=
  match s with High => of_nat 3 | Medium => of_nat 2 | Low => of_nat 1 end.

Definition calculateSkewness (rows : list Row) (columnName : string) : num :=
  let values := numbersOf rows columnName in
  let n := of_nat (List.length values) in
  let mean := (sumNum values / n)%num in
  let std :=
    Math_sqrt (fold_left (fun acc val => acc + Math_pow (val - mean) 2)
                 values zero / n)%num in
  let skewness :=
    (fold_left (fun acc val => acc + Math_pow ((val - mean) / std) 3)
       values zero / n)%num in
  skewness.

(** What the awaited call [blink.ai.generateText] came to: a text, or an
    exception (a rejected promise, or a reply from which [text] cannot be
    read and split). *)
Inductive Narrative : Type :=
| NarrativeFails
| NarrativeText (text : string).

(** The body of the loop over the lines of the reply. *)
Definition parseNarrativeLine (line : list ascii) : list AIInsight :=
  if matchesNumbered line then
    match matchBracket line with
    | Some t =>
        [ {| insight_type := BusinessInsight;
             title := string_of_list_ascii (trim t);
             severity := Medium; actionable := true |} ]
    | None =>
        match indexOf 58 line with
        | Some colonIndex =>
            if Nat.ltb 0 colonIndex then
              let start :=
                match indexOf 32 line with Some i => S i | None => 0 end in
              [ {| insight_type := BusinessInsight;
                   title :=
                     string_of_list_ascii (trim (substring start colonIndex line));
                   severity := Medium; actionable := true |} ]
            else []
        | None => []
        end
    end
  else [].

(** The two insights of the [catch] block. *)
Definition performanceInsight : AIInsight :=
  {| insight_type := BusinessInsight;
     title := "Performance Metrics Available";
     severity := Low; actionable := true |}.

Definition segmentationInsight : AIInsight :=
  {| insight_type := BusinessInsight;
     title := "Segmentation Opportunities";
     severity := Low; actionable := true |}.

Definition fallbackInsights (p : DataProfile) : list AIInsight :=
  let numericCols := filter isNumericColumn (columns p) in
  let categoricalCols :=
    filter (fun col => ColumnType_eqb (type col) Categorical) (columns p) in
  (if Nat.ltb 0 (List.length numericCols) then [performanceInsight] else [])
  ++ (if Nat.ltb 0 (List.length categoricalCols)
      then [segmentationInsight] else []).

Definition generateBusinessInsights (p : DataProfile) (reply : Narrative)
  : list AIInsight :=
  let insights :=
    match reply with
    | NarrativeText text =>
        let lines :=
          filter (fun line => Nat.ltb 0 (List.length (trim line)))
            (split_lines (list_ascii_of_string text) []) in
        flat_map parseNarrativeLine lines
    | NarrativeFails => fallbackInsights p
    end in
  firstn 5 insights.

(** The insights pushed before the business insights. *)
Definition ruleBasedInsights (rows : list Row) (p : DataProfile)
  : list AIInsight :=
  let q := dataQuality p in
  let len := of_nat (List.length rows) in
  (if (completeness q <? dec 9 10)%num
   then [ {| insight_type := QualityInsight;
             title := "Data Completeness Issue";
             severity := if (completeness q <? dec 7 10)%num
                         then High else Medium;
             actionable := true |} ]
   else [])
  ++ (if Nat.ltb 0 (duplicateRows q)
      then [ {| insight_type := QualityInsight;
                title := "Duplicate Records Found";
                severity := if (of_nat (duplicateRows q) >? len * dec 5 100)%num
                            then High else Medium;
                actionable := true |} ]
      else [])
  ++ flat_map (fun col =>
       match stats col with
       | Some s =>
           let outlierThreshold :=
             (numOf (stat_q3 s)
              + dec 15 10 * (numOf (stat_q3 s) - numOf (stat_q1 s)))%num in
           let outlierCount :=
             List.length (filter (fun row =>
               (ToNumber (getField row (name col)) >? outlierThreshold)%num)
               rows) in
           let skewness := calculateSkewness rows (name col) in
           (if Nat.ltb 0 outlierCount
            then [ {| insight_type := AnomalyInsight;
                      title := "Outliers in " ++ name col;
                      severity := if (of_nat outlierCount >? len * dec 5 100)%num
                                  then Medium else Low;
                      actionable := true |} ]
            else [])
           ++ (if (Math_abs skewness >? Fin 1)%num
               then [ {| insight_type := DistributionInsight;
                         title := name col ++ " Distribution Skewed";
                         severity := Low; actionable := true |} ]
               else [])
       | None => []
       end)
       (filter (fun col => isNumericColumn col
                           && match stats col with Some _ => true | None => false end)
          (columns p))
  ++ map (fun corr =>
       {| insight_type := CorrelationInsight;
          title := "Strong Relationship: " ++ col1 corr ++ " & " ++ col2 corr;
          severity := Medium; actionable := true |})
       (filter (fun corr =>
          match strength corr with Strong => true | _ => false end)
          (correlations p)).

(** [insights.sort((a, b) => severityOrder[b.severity] - severityOrder[a.severity])] *)
Definition sortBySeverity (insights : list AIInsight) : list AIInsight :=
  Array_sort (fun a b => severityOrder (severity b) - severityOrder (severity a))%num
    insights.

Definition generateAIInsights (e : Engine) (reply : Narrative)
  : result (list AIInsight) * Engine :=
  let (r, e') := ensureProfile e in
  (p <- r ;;
   Ok (sortBySeverity
         (ruleBasedInsights (data e') p ++ generateBusinessInsights p reply)),
   e').

(* ------------------------------------------------------------------ *)
(** ** The specification's reading of type inference

    The rules in their fixed order, each with the condition under which it
    passes; the first rule that passes names the type.  [share k n] says
    whether [k] of [n] values are enough for a rule to pass. *)

Definition moreThan80 (k n : nat) : bool := Nat.ltb (4 * n) (5 * k).
Definition atLeast80 (k n : nat) : bool := Nat.leb (4 * n) (5 * k).

Definition countIf {A} (p : A -> bool) (l : list A) : nat :=
  List.length (filter p l).

Definition typeRules (share : nat -> nat -> bool) (values : list Value)
  : list (ColumnType * bool) :=
  let n := List.length values in
  [ (Boolean, share (countIf isBooleanLike values) n);
    (Numeric, share (countIf isNumericLike values) n);
    (Datetime, share (countIf isDateLike values) n);
    (Categorical,
     Nat.leb (Set_size values) 50 && Nat.leb (2 * Set_size values) n) ].

Definition firstRule (rules : list (ColumnType * bool)) : ColumnType :=
  match find snd rules with
  | Some rule => fst rule
  | None => Text
  end.

Definition inferType (share : nat -> nat -> bool) (values : list Value)
  : ColumnType :=
  match values with
  | [] => Text
  | _ => firstRule (typeRules share values)
  end.

(* ------------------------------------------------------------------ *)
(** ** The specification's reading of a column's numeric values

    The numbers of a column with its null cells ([null], [undefined],
    the empty string) filtered out first, as [profileData] takes them
    before it computes the statistics. *)

Definition presentNumbersOf (rows : list Row) (columnName : string)
  : list num :=
  filter (fun v => negb (isNaN v))
    (map ToNumber
       (filter isPresent (map (fun row => getField row columnName) rows))).

(** The sum of the counts of a histogram. *)
Definition binTotal (bins : list HistogramBin) : nat :=
  fold_left (fun acc b => acc + bin_count b) bins 0.


(** The property names that every object inherits from
    [Object.prototype].  An object used as a map answers for them before
    anything is stored under them, so the maps of the engine are the lists
    of their entries only for keys that are none of these. *)
Definition inheritedKeys : list string :=
  [ "__defineGetter__"; "__defineSetter__"; "__lookupGetter__";
    "__lookupSetter__"; "__proto__"; "constructor"; "hasOwnProperty";
    "isPrototypeOf"; "propertyIsEnumerable"; "toLocaleString"; "toString";
    "valueOf" ].

Definition ordinaryKey (k : string) : bool :=
  negb (existsb (String.eqb k) inheritedKeys).

(* ------------------------------------------------------------------ *)
(** ** The range in which the model's arithmetic is that of doubles

    A finite number of the model is an exact rational; a double rounds,
    overflows to an infinity and underflows to 0.  A statement that needs
    a sum, a difference or a quotient of finite numbers to stay finite,
    or positive, or exact, is made for numbers in a range where doubles
    keep it so:
    - magnitudes of at most 10^307, so that neither the sum nor the
      difference of two of them overflows;
    - a spread of at least 10^-300, so that its quotient by a bin count
      of at most 20 does not underflow to 0;
    - an integer whose product with the number of rows is at most 2^53 in
      magnitude, so that every partial sum of a column of it is an integer
      that a double holds exactly;
    - at most 65535 numbers where they are spread as the arguments of one
      call ([Math.min(...values)]). *)

Definition magnitudeBound : Q := inject_Z (10 ^ 307).

Definition moderate (x : num) : bool :=
  match x with
  | Fin q => Qle_bool (Qabs q) magnitudeBound
  | _ => false
  end.

Definition spreadBound : Q := Qmake 1 (Z.to_pos (10 ^ 300)).

Definition exactSums (z : Z) (n : nat) : Prop :=
  (Z.abs z * Z.of_nat n <= 2 ^ 53)%Z.

Definition spreadable {A} (l : list A) : Prop :=
  (Z.of_nat (List.length l) <= 65535)%Z.

(* ------------------------------------------------------------------ *)
(** ** Facts about numbers *)

Lemma Qle_bool_Qred_r (x y : Q) : Qle_bool x (Qred y) = Qle_bool x y.
Proof.
  apply eq_true_iff_eq. rewrite !Qle_bool_iff.
  now rewrite (Qred_correct y).
Qed.

Lemma Qle_bool_Qred_l (x y : Q) : Qle_bool (Qred x) y = Qle_bool x y.
Proof.
  apply eq_true_iff_eq. rewrite !Qle_bool_iff.
  now rewrite (Qred_correct x).
Qed.

Lemma Qeq_bool_Qred_l (x y : Q) : Qeq_bool (Qred x) y = Qeq_bool x y.
Proof.
  apply eq_true_iff_eq. rewrite !Qeq_bool_iff.
  now rewrite (Qred_correct x).
Qed.

Lemma Qeq_bool_Qred_r (x y : Q) : Qeq_bool x (Qred y) = Qeq_bool x y.
Proof.
  apply eq_true_iff_eq. rewrite !Qeq_bool_iff.
  now rewrite (Qred_correct y).
Qed.

Lemma Qlt_bool_iff (x y : Q) : Qlt_bool x y = true <-> (x < y)%Q.
Proof.
  unfold Qlt_bool. rewrite negb_true_iff.
  split; intro H.
  - apply Qnot_le_lt. intro Hle. apply Qle_bool_iff in Hle. congruence.
  - apply not_true_is_false. intro Hle. apply Qle_bool_iff in Hle.
    now apply Qle_not_lt in Hle.
Qed.

(** [k > n * 0.8] on the counts of type inference, in whole numbers. *)
Lemma count_exceeds_share (k n : nat) :
  (of_nat k >? of_nat n * dec 8 10)%num = moreThan80 k n.
Proof.
  unfold ngt, nlt, nmul, of_nat, of_Z, dec, fin, moreThan80, Qlt_bool.
  rewrite Qle_bool_Qred_r.
  change (Qred (8 # Z.to_pos 10)) with (4 # 5)%Q.
  unfold Qle_bool; simpl Qnum; simpl Qden.
  destruct (Nat.ltb_spec (4 * n) (5 * k));
    destruct (Z.leb_spec (Z.of_nat k * 5) (Z.of_nat n * 4 * 1)); simpl; auto; lia.
Qed.

(** [u <= Math.min(50, n * 0.5)] in whole numbers. *)
Lemma unique_within_half (u n : nat) :
  (of_nat u <=? min2 (of_nat 50) (of_nat n * dec 5 10))%num
  = Nat.leb u 50 && Nat.leb (2 * u) n.
Proof.
  unfold nle, min2, nlt, strictEq, nmul, of_nat, of_Z, dec, fin, Qlt_bool.
  change (Qred (5 # Z.to_pos 10)) with (1 # 2)%Q.
  rewrite Qle_bool_Qred_r.
  destruct (Qle_bool (inject_Z (Z.of_nat 50))
              (inject_Z (Z.of_nat n) * (1 # 2))) eqn:Hmin; simpl negb; cbv iota.
  - (* 50 <= n / 2 *)
    apply Qle_bool_iff in Hmin.
    apply eq_true_iff_eq.
    rewrite orb_true_iff, andb_true_iff, negb_true_iff, <- not_true_iff_false,
      Qle_bool_iff, Qeq_bool_iff, !Nat.leb_le.
    unfold Qle, Qeq in *; simpl in *. lia.
  - rewrite Qle_bool_Qred_l, Qeq_bool_Qred_r.
    apply not_true_iff_false in Hmin. rewrite Qle_bool_iff in Hmin.
    apply eq_true_iff_eq.
    rewrite orb_true_iff, andb_true_iff, negb_true_iff, <- not_true_iff_false,
      Qle_bool_iff, Qeq_bool_iff, !Nat.leb_le.
    unfold Qle, Qeq in *; simpl in *. lia.
Qed.

(* ------------------------------------------------------------------ *)
(** ** Type inference *)

(** C3, as amended: type inference evaluates the rules boolean, numeric,
    datetime, categorical in that order and returns the first that passes,
    text when none does or when there is no value; each of the first three
    passes iff strictly more than 80% of the values satisfy its predicate,
    categorical iff the number of distinct values is at most
    min(50, half the number of values). *)
Theorem detectColumnType_first_rule (values : list Value) :
  detectColumnType values = inferType moreThan80 values.
Proof.
  unfold detectColumnType, inferType.
  destruct values as [|v rest]; [reflexivity|].
  change (Nat.eqb (List.length (v :: rest)) 0) with false; cbv iota.
  generalize (v :: rest) as vs; intro vs.
  unfold firstRule, typeRules, countIf.
  rewrite !count_exceeds_share, unique_within_half.
  cbn [find snd fst].
  destruct (moreThan80 (List.length (filter isBooleanLike vs)) _); [reflexivity|].
  destruct (moreThan80 (List.length (filter isNumericLike vs)) _); [reflexivity|].
  destruct (moreThan80 (List.length (filter isDateLike vs)) _); [reflexivity|].
  now destruct (_ && _).
Qed.

(* ------------------------------------------------------------------ *)
(** ** Facts about [Array_sort] *)

Section ArraySortFacts.

Context {A : Type} (cmp : A -> A -> num).

(** [before y x]: the comparator puts [y] strictly before [x]. *)
Let before (y x : A) : bool := (cmp y x <? zero)%num.

Lemma sort_insert_perm (x : A) (l : list A) :
  Permutation (sort_insert cmp x l) (x :: l).
Proof.
  induction l as [|y rest IH]; simpl; [reflexivity|].
  destruct (cmp y x <? zero)%num; [|reflexivity].
  rewrite IH. apply perm_swap.
Qed.

Lemma Array_sort_perm (l : list A) : Permutation (Array_sort cmp l) l.
Proof.
  induction l as [|x rest IH]; simpl; [reflexivity|].
  rewrite sort_insert_perm. now apply perm_skip.
Qed.

Lemma Array_sort_length (l : list A) :
  List.length (Array_sort cmp l) = List.length l.
Proof. apply Permutation_length, Array_sort_perm. Qed.

(** Elements that the comparator does not tell apart keep their order. *)
Lemma sort_insert_filter (f : A -> bool) (x : A) (l : list A) :
  (forall a b, f a = true -> f b = true -> before a b = false) ->
  filter f (sort_insert cmp x l) = filter f (x :: l).
Proof.
  intros Hties. induction l as [|y rest IH]; [reflexivity|].
  simpl sort_insert. fold (before y x).
  destruct (before y x) eqn:Hyx; [|reflexivity].
  simpl filter in *. rewrite IH.
  destruct (f x) eqn:Hx; [|reflexivity].
  destruct (f y) eqn:Hy; [|reflexivity].
  rewrite (Hties y x Hy Hx) in Hyx. discriminate.
Qed.

Lemma Array_sort_stable (f : A -> bool) (l : list A) :
  (forall a b, f a = true -> f b = true -> before a b = false) ->
  filter f (Array_sort cmp l) = filter f l.
Proof.
  intros Hties. induction l as [|x rest IH]; [reflexivity|].
  simpl Array_sort. rewrite sort_insert_filter by assumption.
  simpl. now rewrite IH.
Qed.

(** When, on the elements that satisfy [P], "not strictly before" is a
    transitive relation and "strictly before" is asymmetric, the result
    of sorting such elements is sorted. *)
Section Sorted.

Variable P : A -> Prop.
Hypothesis before_asym :
  forall a b, P a -> P b -> before a b = true -> before b a = false.
Hypothesis not_before_trans :
  forall a b c, P a -> P b -> P c ->
    before b a = false -> before c b = false -> before c a = false.

Let ordered (a b : A) : Prop := before b a = false.

Lemma sort_insert_sorted (x : A) (l : list A) :
  P x -> Forall P l ->
  StronglySorted ordered l -> StronglySorted ordered (sort_insert cmp x l).
Proof.
  intros Px HP Hs. induction Hs as [|y rest Hrest IH Hy]; simpl.
  - repeat constructor.
  - inversion HP as [|? ? Py HPrest]; subst.
    fold (before y x). destruct (before y x) eqn:Hyx.
    + constructor; [now apply IH|].
      eapply Permutation_Forall; [symmetry; apply sort_insert_perm|].
      constructor; [|assumption]. now apply before_asym.
    + constructor; [now constructor|].
      constructor; [assumption|].
      rewrite Forall_forall in *. intros z Hz.
      unfold ordered in *. apply not_before_trans with (b := y); auto.
Qed.

Lemma Array_sort_sorted (l : list A) :
  Forall P l -> StronglySorted ordered (Array_sort cmp l).
Proof.
  induction 1 as [|x rest Px HP IH]; simpl; [constructor|].
  apply sort_insert_sorted; [assumption| |assumption].
  eapply Permutation_Forall; [symmetry; apply Array_sort_perm|assumption].
Qed.

End Sorted.

End ArraySortFacts.

Lemma StronglySorted_nth_error {A} (R : A -> A -> Prop) (l : list A) :
  StronglySorted R l ->
  forall i j a b, i < j ->
    nth_error l i = Some a -> nth_error l j = Some b -> R a b.
Proof.
  induction 1 as [|x rest Hrest IH Hx]; intros i j a b Hij Ha Hb.
  - now destruct i.
  - destruct j as [|j]; [lia|]. simpl in Hb.
    destruct i as [|i]; simpl in Ha.
    + injection Ha as <-. rewrite Forall_forall in Hx.
      apply Hx. eapply nth_error_In; eassumption.
    + apply (IH i j); [lia|assumption..].
Qed.

(* ------------------------------------------------------------------ *)
(** ** Descriptive statistics *)

Definition finite (x : num) : Prop := isFinite x = true.

(** [a <= b] for two slots that both hold a number. *)
Definition optLe (a b : option num) : bool :=
  match a, b with
  | Some x, Some y => (x <=? y)%num
  | _, _ => false
  end.

Lemma before_Fin (a b : Q) : (Fin a - Fin b <? zero)%num = Qlt_bool a b.
Proof.
  unfold nsub, nneg, nadd, nlt, fin, zero.
  apply eq_true_iff_eq. rewrite !Qlt_bool_iff.
  rewrite !Qred_correct. split; intro H.
  - apply Qplus_lt_l with (z := (- b)%Q). now rewrite Qplus_opp_r.
  - apply Qplus_lt_l with (z := (- b)%Q) in H. now rewrite Qplus_opp_r in H.
Qed.

Lemma nle_Fin (a b : Q) : (Fin a <=? Fin b)%num = Qle_bool a b.
Proof.
  unfold nle, nlt, strictEq. apply eq_true_iff_eq.
  rewrite orb_true_iff, Qlt_bool_iff, Qeq_bool_iff, Qle_bool_iff.
  rewrite Qle_lteq. tauto.
Qed.

Lemma toIndex_Fin (q : Q) (k : nat) :
  (q == inject_Z (Z.of_nat k))%Q -> toIndex (Fin q) = Some k.
Proof.
  intro H. unfold toIndex.
  rewrite (Qfloor_comp _ _ H), Qfloor_Z.
  assert (Hq : Qeq_bool q (inject_Z (Z.of_nat k)) = true) by
    now apply Qeq_bool_iff.
  assert (H0 : Qle_bool 0 q = true).
  { apply Qle_bool_iff. rewrite H. unfold Qle; simpl. lia. }
  now rewrite Hq, H0, Nat2Z.id.
Qed.

Lemma Array_get_Fin {A} (l : list A) (q : Q) (k : nat) :
  (q == inject_Z (Z.of_nat k))%Q -> Array_get l (Fin q) = nth_error l k.
Proof. intro H. unfold Array_get. now rewrite (toIndex_Fin _ H). Qed.

Lemma Qfloor_Qred (q : Q) : Qfloor (Qred q) = Qfloor q.
Proof. apply Qfloor_comp, Qred_correct. Qed.

(** The index expressions of [calculateStatistics] and [createBoxPlot]. *)
Section Indices.

Context {A : Type} (l : list A) (n : nat).

Lemma index_first : Array_get l zero = nth_error l 0.
Proof. now apply Array_get_Fin. Qed.

Lemma index_last : 1 <= n -> Array_get l (of_nat n - Fin 1)%num = nth_error l (n - 1).
Proof.
  intro Hn. unfold nsub, nneg, nadd, of_nat, of_Z, fin.
  apply Array_get_Fin. rewrite !Qred_correct.
  unfold Qeq, Qplus, Qopp, inject_Z; simpl. lia.
Qed.

Lemma index_quarter :
  Array_get l (Math_floor (of_nat n * dec 25 100))%num = nth_error l (n / 4).
Proof.
  unfold nmul, of_nat, of_Z, dec, fin, Math_floor.
  change (Qred (25 # Z.to_pos 100)) with (1 # 4)%Q.
  rewrite Qfloor_Qred. unfold of_Z. apply Array_get_Fin.
  unfold Qfloor, Qmult, inject_Z; simpl Qnum; simpl Qden.
  rewrite Z.mul_1_r. change (Z.pos (1 * 4)) with (Z.of_nat 4).
  now rewrite <- Nat2Z.inj_div.
Qed.

Lemma index_three_quarters :
  Array_get l (Math_floor (of_nat n * dec 75 100))%num = nth_error l (3 * n / 4).
Proof.
  unfold nmul, of_nat, of_Z, dec, fin, Math_floor.
  change (Qred (75 # Z.to_pos 100)) with (3 # 4)%Q.
  rewrite Qfloor_Qred. unfold of_Z. apply Array_get_Fin.
  unfold Qfloor, Qmult, inject_Z; simpl Qnum; simpl Qden.
  change (Z.pos (1 * 4)) with (Z.of_nat 4).
  replace (Z.of_nat n * 3)%Z with (Z.of_nat (3 * n)) by lia.
  now rewrite <- Nat2Z.inj_div.
Qed.

Lemma index_half_floor :
  Array_get l (Math_floor (of_nat n / Fin 2))%num = nth_error l (n / 2).
Proof.
  unfold ndiv, of_nat, of_Z, fin, Math_floor.
  change (Qeq_bool 2 0) with false; cbv iota.
  rewrite Qfloor_Qred. unfold of_Z. apply Array_get_Fin.
  unfold Qfloor, Qdiv, Qmult, Qinv, inject_Z; simpl Qnum; simpl Qden.
  rewrite Z.mul_1_r. change (Z.pos (1 * 2)) with (Z.of_nat 2).
  now rewrite <- Nat2Z.inj_div.
Qed.

Lemma index_half : n mod 2 = 0 ->
  Array_get l (of_nat n / Fin 2)%num = nth_error l (n / 2).
Proof.
  intro Heven. unfold ndiv, of_nat, of_Z, fin.
  change (Qeq_bool 2 0) with false; cbv iota.
  apply Array_get_Fin. rewrite Qred_correct.
  pose proof (Nat.div_mod_eq n 2) as Hn2.
  generalize dependent (n / 2); intros k Hk.
  unfold Qeq, Qdiv, Qmult, Qinv, inject_Z; simpl Qnum; simpl Qden. lia.
Qed.

Lemma index_half_pred : n mod 2 = 0 -> 2 <= n ->
  Array_get l (of_nat n / Fin 2 - Fin 1)%num = nth_error l (n / 2 - 1).
Proof.
  intros Heven Hn. unfold nsub, nneg, nadd, ndiv, of_nat, of_Z, fin.
  change (Qeq_bool 2 0) with false; cbv iota.
  apply Array_get_Fin. rewrite !Qred_correct.
  pose proof (Nat.div_mod_eq n 2) as Hn2.
  generalize dependent (n / 2); intros k Hk.
  unfold Qeq, Qdiv, Qmult, Qinv, Qplus, Qopp, inject_Z; simpl Qnum; simpl Qden.
  lia.
Qed.

End Indices.

Lemma finite_before_asym (a b : num) :
  finite a -> finite b ->
  (a - b <? zero)%num = true -> (b - a <? zero)%num = false.
Proof.
  destruct a as [| | |a], b as [| | |b]; try discriminate. intros _ _.
  rewrite !before_Fin. rewrite Qlt_bool_iff. intro H.
  apply not_true_iff_false. rewrite Qlt_bool_iff.
  now apply Qle_not_lt, Qlt_le_weak.
Qed.

Lemma finite_not_before_trans (a b c : num) :
  finite a -> finite b -> finite c ->
  (b - a <? zero)%num = false -> (c - b <? zero)%num = false ->
  (c - a <? zero)%num = false.
Proof.
  destruct a as [| | |a], b as [| | |b], c as [| | |c]; try discriminate.
  intros _ _ _. rewrite !before_Fin.
  rewrite <- !not_true_iff_false, !Qlt_bool_iff.
  intros Hab Hbc Hca. apply Qnot_lt_le in Hab, Hbc.
  apply (Qlt_irrefl c). eapply Qlt_le_trans; [exact Hca|].
  eapply Qle_trans; eassumption.
Qed.

(** The sorted copy of finite numbers: in it, earlier is smaller. *)
Lemma sorted_nth_le (values : list num) (i j : nat) (a b : num) :
  Forall finite values -> i <= j ->
  nth_error (Array_sort (fun a b => a - b)%num values) i = Some a ->
  nth_error (Array_sort (fun a b => a - b)%num values) j = Some b ->
  (a <=? b)%num = true.
Proof.
  intros Hfin Hij Ha Hb.
  set (sorted := Array_sort (fun a b => a - b)%num values) in *.
  assert (Hsf : Forall finite sorted).
  { eapply Permutation_Forall; [symmetry; apply Array_sort_perm|assumption]. }
  rewrite Forall_forall in Hsf.
  pose proof (Hsf a (nth_error_In _ _ Ha)) as Fa.
  pose proof (Hsf b (nth_error_In _ _ Hb)) as Fb.
  destruct a as [| | |qa]; try discriminate.
  destruct b as [| | |qb]; try discriminate.
  rewrite nle_Fin. apply Qle_bool_iff.
  destruct (Nat.eq_dec i j) as [->|Hne].
  - rewrite Ha in Hb. injection Hb as <-. apply Qle_refl.
  - assert (Hs : StronglySorted
                   (fun a b => (b - a <? zero)%num = false) sorted).
    { exact (@Array_sort_sorted num (fun a b => a - b)%num finite
               finite_before_asym finite_not_before_trans values Hfin). }
    assert (Hord := StronglySorted_nth_error Hs (i := i) (j := j)
                      ltac:(lia) Ha Hb).
    cbv beta in Hord. rewrite before_Fin in Hord.
    apply not_true_iff_false in Hord. rewrite Qlt_bool_iff in Hord.
    now apply Qnot_lt_le.
Qed.

Lemma sorted_nth_finite (values : list num) (k : nat) :
  Forall finite values -> k < List.length values ->
  exists q, nth_error (Array_sort (fun a b => a - b)%num values) k = Some (Fin q).
Proof.
  intros Hfin Hk.
  set (sorted := Array_sort (fun a b => a - b)%num values).
  assert (Hlen : List.length sorted = List.length values)
    by apply Array_sort_length.
  destruct (nth_error sorted k) as [x|] eqn:Hx.
  - assert (Fx : finite x).
    { assert (Hsf : Forall finite sorted).
      { eapply Permutation_Forall; [symmetry; apply Array_sort_perm|assumption]. }
      rewrite Forall_forall in Hsf. eapply Hsf, nth_error_In; eassumption. }
    destruct x; try discriminate. eauto.
  - apply nth_error_None in Hx. lia.
Qed.

(** The midpoint of two finite numbers lies between them. *)
Lemma midpoint_between (a b : Q) :
  (a <= b)%Q ->
  (Fin a <=? (Fin a + Fin b) / Fin 2)%num = true
  /\ ((Fin a + Fin b) / Fin 2 <=? Fin b)%num = true.
Proof.
  intro Hab. unfold nadd, ndiv, fin.
  change (Qeq_bool 2 0) with false; cbv iota.
  rewrite !nle_Fin, !Qle_bool_iff, !Qred_correct.
  unfold Qle, Qdiv, Qmult, Qinv, Qplus in *; simpl Qnum in *; simpl Qden in *.
  split; nia.
Qed.

Lemma moderate_finite (x : num) : moderate x = true -> finite x.
Proof. now destruct x. Qed.

Lemma Forall_moderate_finite (values : list num) :
  Forall (fun v => moderate v = true) values -> Forall finite values.
Proof. apply Forall_impl. exact moderate_finite. Qed.

(** C9, as the code behaves: for every non-empty sequence of finite
    numbers of magnitude at most 10^307 the statistics satisfy
    min <= q1 <= median <= q3 <= max.  Beyond that they need not: the
    median of an even number of values is the sum of the two middle ones
    halved, nothing keeps the infinities out of a numeric column, and on
    the column of the two infinities, which is profiled numeric and given
    statistics, the median is [-Infinity + Infinity], [NaN], which is
    neither at least q1 nor at most q3. *)
Theorem calculateStatistics_ordered :
  (forall values : list num,
     values <> [] -> Forall (fun v => moderate v = true) values ->
     let s := calculateStatistics values in
     optLe (stat_min s) (stat_q1 s) = true
     /\ optLe (stat_q1 s) (stat_median s) = true
     /\ optLe (stat_median s) (stat_q3 s) = true
     /\ optLe (stat_q3 s) (stat_max s) = true)
  /\ (stats (profileColumn rows_infinite "a")
      = Some (calculateStatistics [NInf; PInf])
      /\ let s := calculateStatistics [NInf; PInf] in
         stat_q1 s = Some NInf /\ stat_median s = Some NaN
         /\ stat_q3 s = Some PInf
         /\ optLe (stat_q1 s) (stat_median s) = false
         /\ optLe (stat_median s) (stat_q3 s) = false).
Proof.
  split; [|split; [vm_compute; reflexivity|repeat split; reflexivity]].
  intros values Hne Hmoderate.
  pose proof (Forall_moderate_finite Hmoderate) as Hfin.
  clear Hmoderate. unfold calculateStatistics.
  set (sorted := Array_sort (fun a b => a - b)%num values).
  assert (Hlen : List.length sorted = List.length values)
    by apply Array_sort_length.
  set (n := List.length sorted) in *.
  assert (Hn : 1 <= n).
  { rewrite Hlen. destruct values; [congruence|simpl; lia]. }
  cbv zeta. cbn [stat_min stat_q1 stat_median stat_q3 stat_max].
  rewrite index_first, index_quarter, index_three_quarters, (index_last _ Hn).
  pose proof (Nat.div_mod_eq n 4) as H4.
  pose proof (Nat.mod_upper_bound n 4 ltac:(lia)) as H4'.
  pose proof (Nat.div_mod_eq (3 * n) 4) as H34.
  pose proof (Nat.mod_upper_bound (3 * n) 4 ltac:(lia)) as H34'.
  pose proof (Nat.div_mod_eq n 2) as H2.
  pose proof (Nat.mod_upper_bound n 2 ltac:(lia)) as H2'.
  destruct (sorted_nth_finite (k := 0) Hfin ltac:(lia)) as [mn Hmn].
  destruct (sorted_nth_finite (k := n / 4) Hfin ltac:(lia)) as [q1 Hq1].
  destruct (sorted_nth_finite (k := 3 * n / 4) Hfin ltac:(lia)) as [q3 Hq3].
  destruct (sorted_nth_finite (k := n - 1) Hfin ltac:(lia)) as [mx Hmx].
  destruct (sorted_nth_finite (k := n / 2) Hfin ltac:(lia)) as [hi Hhi].
  fold sorted in Hmn, Hq1, Hq3, Hmx, Hhi.
  rewrite Hmn, Hq1, Hq3, Hmx.
  assert (Hle := fun i j a b => @sorted_nth_le values i j a b Hfin).
  fold sorted in Hle.
  split; [apply (Hle 0 (n / 4)); auto; lia|].
  split; [|split; [|apply (Hle (3 * n / 4) (n - 1)); auto; lia]].
  - (* q1 <= median *)
    destruct (Nat.eqb_spec (n mod 2) 0) as [Heven|Hodd].
    + assert (2 <= n) by lia.
      destruct (sorted_nth_finite (k := n / 2 - 1) Hfin ltac:(lia)) as [lo Hlo].
      fold sorted in Hlo.
      rewrite (index_half_pred _ Heven), (index_half _ _ Heven) by assumption.
      rewrite Hlo, Hhi. simpl numOf. simpl optLe.
      assert (Hlohi : (lo <= hi)%Q).
      { apply Qle_bool_iff. rewrite <- nle_Fin.
        apply (Hle (n / 2 - 1) (n / 2)); auto; lia. }
      destruct (midpoint_between Hlohi) as [Hm _].
      assert (Hq1lo : (q1 <= lo)%Q).
      { apply Qle_bool_iff. rewrite <- nle_Fin.
        apply (Hle (n / 4) (n / 2 - 1)); auto; lia. }
      revert Hm. unfold nadd, ndiv, fin.
      change (Qeq_bool 2 0) with false; cbv iota.
      rewrite !nle_Fin, !Qle_bool_iff. intro Hm.
      eapply Qle_trans; eassumption.
    + rewrite index_half_floor, Hhi. simpl optLe.
      apply (Hle (n / 4) (n / 2)); auto; lia.
  - (* median <= q3 *)
    destruct (Nat.eqb_spec (n mod 2) 0) as [Heven|Hodd].
    + assert (2 <= n) by lia.
      destruct (sorted_nth_finite (k := n / 2 - 1) Hfin ltac:(lia)) as [lo Hlo].
      fold sorted in Hlo.
      rewrite (index_half_pred _ Heven), (index_half _ _ Heven) by assumption.
      rewrite Hlo, Hhi. simpl numOf. simpl optLe.
      assert (Hlohi : (lo <= hi)%Q).
      { apply Qle_bool_iff. rewrite <- nle_Fin.
        apply (Hle (n / 2 - 1) (n / 2)); auto; lia. }
      destruct (midpoint_between Hlohi) as [_ Hm].
      assert (Hhiq3 : (hi <= q3)%Q).
      { apply Qle_bool_iff. rewrite <- nle_Fin.
        apply (Hle (n / 2) (3 * n / 4)); auto; lia. }
      revert Hm. unfold nadd, ndiv, fin.
      change (Qeq_bool 2 0) with false; cbv iota.
      rewrite !nle_Fin, !Qle_bool_iff. intro Hm.
      eapply Qle_trans; eassumption.
    + rewrite index_half_floor, Hhi. simpl optLe.
      apply (Hle (n / 2) (3 * n / 4)); auto; lia.
Qed.

(* ------------------------------------------------------------------ *)
(** ** Duplicate rows *)

(** The number of items that are the same as an earlier item: the first
    of each kind is not counted, every repeat is. *)
Fixpoint countRepeats {K} (same : K -> K -> bool) (earlier items : list K)
  : nat :=
  match items with
  | [] => 0
  | x :: rest =>
      (if existsb (same x) earlier then 1 else 0)
      + countRepeats same (earlier ++ [x]) rest
  end.

(** Rows compared by the text [JSON.stringify] prints for them. *)
Definition repeatsByText (rows : list Row) : nat :=
  countRepeats JSON_eqb [] (map JSON_stringify rows).

(** Rows compared as mappings, whatever the order of their keys: every
    key of either row has the same value in both. *)
Definition sameMapping (r r' : Row) : bool :=
  forallb (fun k => sameValueZeroV (getField r k) (getField r' k))
    (Object_keys r ++ Object_keys r').

Definition repeatsByMapping (rows : list Row) : nat :=
  countRepeats sameMapping [] rows.

Lemma JSONScalar_eqb_trans (a b c : JSONScalar) :
  JSONScalar_eqb a b = true -> JSONScalar_eqb b c = true ->
  JSONScalar_eqb a c = true.
Proof.
  destruct a, b, c; simpl; try discriminate; auto.
  - intros H1 H2. apply eqb_prop in H1, H2. subst. apply eqb_reflx.
  - rewrite !Qeq_bool_iff. apply Qeq_trans.
  - rewrite !String.eqb_eq. congruence.
Qed.

Lemma JSON_eqb_trans (a b c : list (string * JSONScalar)) :
  JSON_eqb a b = true -> JSON_eqb b c = true -> JSON_eqb a c = true.
Proof.
  revert b c. induction a as [|[k x] a IH]; intros [|[k' y] b] [|[k'' z] c];
    simpl; try discriminate; auto.
  rewrite !andb_true_iff, !String.eqb_eq.
  intros [[-> Hxy] Hab] [[-> Hyz] Hbc]. repeat split.
  - eapply JSONScalar_eqb_trans; eassumption.
  - eapply IH; eassumption.
Qed.

Lemma existsb_JSON_eqb_trans (k key : list (string * JSONScalar)) seen :
  JSON_eqb k key = true -> existsb (JSON_eqb key) seen = true ->
  existsb (JSON_eqb k) seen = true.
Proof.
  intros Hk Hkey. apply existsb_exists in Hkey as [s [Hin Hs]].
  apply existsb_exists. exists s. split; [assumption|].
  eapply JSON_eqb_trans; eassumption.
Qed.

(** The set [seen] of the loop stands for all the rows met so far. *)
Lemma findDuplicateRows_from_repeats (rows : list Row) :
  forall seen earlier duplicates,
    (forall k, existsb (JSON_eqb k) seen = existsb (JSON_eqb k) earlier) ->
    findDuplicateRows_from rows seen duplicates
    = duplicates + countRepeats JSON_eqb earlier (map JSON_stringify rows).
Proof.
  induction rows as [|row rest IH]; intros seen earlier d Hseen; simpl.
  - lia.
  - rewrite <- Hseen.
    destruct (existsb (JSON_eqb (JSON_stringify row)) seen) eqn:Hdup.
    + rewrite (IH seen (earlier ++ [JSON_stringify row]) (S d)); [lia|].
      intro k. rewrite existsb_app, <- Hseen. simpl. rewrite orb_false_r.
      destruct (JSON_eqb k (JSON_stringify row)) eqn:Hk.
      * rewrite orb_true_r. eapply existsb_JSON_eqb_trans; eassumption.
      * now rewrite orb_false_r.
    + rewrite (IH (JSON_stringify row :: seen)
                 (earlier ++ [JSON_stringify row]) d); [lia|].
      intro k. rewrite existsb_app, <- Hseen. simpl.
      rewrite orb_false_r. apply orb_comm.
Qed.

(** C5, as amended: [duplicateRows] is the number of rows whose JSON text
    (the fields in the row's own key order) is the text of an earlier row;
    the first row of each text is not counted, every repeat is.  Five
    identical rows among ten, the others all different, give 4. *)
Theorem findDuplicateRows_counts_repeated_texts :
  (forall rows, findDuplicateRows rows = repeatsByText rows)
  /\ findDuplicateRows rows_scenario_D = 4.
Proof.
  split; [|reflexivity].
  intro rows. unfold findDuplicateRows, repeatsByText.
  now rewrite (findDuplicateRows_from_repeats rows [] [] 0).
Qed.

(* ------------------------------------------------------------------ *)
(** ** Columns without spread *)

(** A finite number that is zero, however the fraction is written. *)
Definition isZero (x : num) : Prop := exists z, x = Fin z /\ (z == 0)%Q.

Lemma isZero_Fin (z : Q) : (z == 0)%Q -> isZero (Fin z).
Proof. intro H. now exists z. Qed.

Lemma isZero_fin (z : Q) : (z == 0)%Q -> isZero (fin z).
Proof. intro H. exists (Qred z). split; [reflexivity|]. now rewrite Qred_correct. Qed.

Lemma nsub_self (q : Q) : isZero (Fin q - Fin q)%num.
Proof.
  unfold nsub, nneg, nadd. apply isZero_fin.
  unfold fin. rewrite Qred_correct. apply Qplus_opp_r.
Qed.

Lemma ndiv_zero_zero (x y : num) : isZero x -> isZero y -> (x / y)%num = NaN.
Proof.
  intros [a [-> Ha]] [b [-> Hb]]. unfold ndiv.
  apply Qeq_bool_iff in Ha, Hb. now rewrite Ha, Hb.
Qed.

Lemma ndiv_zero_Fin (x : num) (b : Q) :
  isZero x -> (x / Fin b)%num = NaN \/ isZero (x / Fin b)%num.
Proof.
  intros [a [-> Ha]]. unfold ndiv.
  destruct (Qeq_bool b 0) eqn:Hb.
  - left. apply Qeq_bool_iff in Ha. now rewrite Ha.
  - right. apply isZero_fin. rewrite Ha. unfold Qdiv. apply Qmult_0_l.
Qed.

Lemma nmul_zero_zero (x y : num) : isZero x -> isZero y -> isZero (x * y)%num.
Proof.
  intros [a [-> Ha]] [b [-> Hb]]. unfold nmul. apply isZero_fin.
  rewrite Ha. apply Qmult_0_l.
Qed.

Lemma nadd_zero_zero (x y : num) : isZero x -> isZero y -> isZero (x + y)%num.
Proof.
  intros [a [-> Ha]] [b [-> Hb]]. unfold nadd. apply isZero_fin.
  rewrite Ha, Hb. reflexivity.
Qed.

Lemma Qsqrt_zero (z : Q) : (z == 0)%Q -> (Qsqrt z == 0)%Q.
Proof.
  intro H. unfold Qsqrt.
  assert (Hn : Qnum z = 0%Z).
  { unfold Qeq in H. simpl in H. lia. }
  rewrite Hn. simpl. reflexivity.
Qed.

Lemma Math_sqrt_zero (x : num) : isZero x -> isZero (Math_sqrt x).
Proof.
  intros [z [-> Hz]]. unfold Math_sqrt.
  assert (Hlt : Qlt_bool z 0 = false).
  { apply not_true_iff_false. rewrite Qlt_bool_iff. rewrite Hz.
    apply Qlt_irrefl. }
  rewrite Hlt. apply isZero_fin. now apply Qsqrt_zero.
Qed.

(** A column is constant when it holds one same finite number in every
    row, and there is a row. *)
Definition constantColumn (rows : list Row) (columnName : string) (q : Q)
  : Prop :=
  rows <> []
  /\ forall row, In row rows -> ToNumber (getField row columnName) = Fin q.

Lemma numbersOf_constant (rows : list Row) (columnName : string) (q : Q) :
  (forall row, In row rows -> ToNumber (getField row columnName) = Fin q) ->
  numbersOf rows columnName = repeat (Fin q) (List.length rows).
Proof.
  unfold numbersOf. induction rows as [|row rest IH]; intro H; [reflexivity|].
  simpl. rewrite (H row (or_introl eq_refl)). simpl.
  f_equal. apply IH. intros r Hr. apply H. now right.
Qed.

Lemma min2_self (q : Q) : min2 (Fin q) (Fin q) = Fin q.
Proof. unfold min2, nlt. now destruct (Qlt_bool q q). Qed.

Lemma max2_self (q : Q) : max2 (Fin q) (Fin q) = Fin q.
Proof. unfold max2, nlt. now destruct (Qlt_bool q q). Qed.

Lemma Math_min_repeat (q : Q) (n : nat) :
  Math_min (repeat (Fin q) (S n)) = Fin q.
Proof.
  unfold Math_min. cbn [repeat fold_left].
  change (min2 PInf (Fin q)) with (Fin q).
  induction n as [|n IH]; [reflexivity|].
  cbn [repeat fold_left]. now rewrite min2_self.
Qed.

Lemma Math_max_repeat (q : Q) (n : nat) :
  Math_max (repeat (Fin q) (S n)) = Fin q.
Proof.
  unfold Math_max. cbn [repeat fold_left].
  change (max2 NInf (Fin q)) with (Fin q).
  induction n as [|n IH]; [reflexivity|].
  cbn [repeat fold_left]. now rewrite max2_self.
Qed.

(** The number of bins is a finite number that is an array length. *)
Lemma binCount_is_length (n : nat) :
  exists b k,
    min2 (of_nat 20) (Math_ceil (Math_sqrt (of_nat n))) = Fin b
    /\ toIndex (Fin b) = Some k.
Proof.
  unfold Math_sqrt, of_nat, of_Z at 2.
  assert (Hlt : Qlt_bool (inject_Z (Z.of_nat n)) 0 = false).
  { apply not_true_iff_false. rewrite Qlt_bool_iff.
    apply Qle_not_lt. unfold Qle; simpl. lia. }
  rewrite Hlt. unfold fin, Math_ceil, min2.
  set (c := Qceiling (Qred (Qsqrt (inject_Z (Z.of_nat n))))).
  assert (Hc : (0 <= c)%Z).
  { unfold c, Qceiling. rewrite Qfloor_comp with (y := (- Qsqrt (inject_Z (Z.of_nat n)))%Q)
      by now rewrite Qred_correct.
    unfold Qsqrt, inject_Z; simpl Qnum; simpl Qden.
    set (s := Z.sqrt _). assert (0 <= s)%Z by apply Z.sqrt_nonneg.
    unfold Qfloor, Qopp; simpl.
    assert (- s / 18446744073709551616 <= 0)%Z; [|lia].
    apply Z.div_le_upper_bound; lia. }
  unfold of_Z. cbv iota.
  destruct (nlt (Fin (inject_Z c)) (Fin (inject_Z (Z.of_nat 20)))).
  - exists (inject_Z c), (Z.to_nat c). split; [reflexivity|].
    apply toIndex_Fin. now rewrite Z2Nat.id.
  - exists (inject_Z (Z.of_nat 20)), 20. split; reflexivity.
Qed.

(** C1, as the code behaves: on a column whose values are all equal the
    bin width is 0, the bin index is [NaN], and [bins[NaN].count++]
    throws; no histogram is returned. *)
Theorem createHistogram_constant_column_throws
  (rows : list Row) (columnName : string) (q : Q) :
  constantColumn rows columnName q ->
  createHistogram rows columnName
  = Throw (TypeError "Cannot read properties of undefined").
Proof.
  intros [Hne Hall]. unfold createHistogram.
  rewrite (numbersOf_constant _ _ Hall).
  destruct rows as [|row0 rest]; [congruence|].
  cbn [List.length].
  rewrite Math_min_repeat, Math_max_repeat, repeat_length.
  destruct (binCount_is_length (S (List.length rest))) as [b [k [Hb Hk]]].
  rewrite Hb. unfold Array_init. rewrite Hk.
  cbn [bind repeat forEachM].
  assert (Hidx : ((Fin q - Fin q) / ((Fin q - Fin q) / Fin b))%num = NaN).
  { destruct (ndiv_zero_Fin b (nsub_self q)) as [-> | Hw].
    - now destruct (Fin q - Fin q)%num.
    - apply ndiv_zero_zero; [apply nsub_self|assumption]. }
  rewrite Hidx. reflexivity.
Qed.


Lemma nsub_equal (a b : Q) : (a == b)%Q -> isZero (Fin a - Fin b)%num.
Proof.
  intro H. unfold nsub, nneg, nadd. apply isZero_fin.
  unfold fin. rewrite Qred_correct, H. apply Qplus_opp_r.
Qed.

Lemma ndiv_zero_count (x : num) (m : nat) :
  isZero x -> isZero (x / of_nat (S m))%num.
Proof.
  intros [a [-> Ha]]. unfold ndiv, of_nat, of_Z.
  assert (Hm : Qeq_bool (inject_Z (Z.of_nat (S m))) 0 = false).
  { apply not_true_iff_false. rewrite Qeq_bool_iff.
    unfold Qeq; simpl. lia. }
  rewrite Hm. apply isZero_fin. rewrite Ha. unfold Qdiv. apply Qmult_0_l.
Qed.

Lemma nadd_NaN_r (x : num) : (x + NaN)%num = NaN.
Proof. now destruct x. Qed.

(** The sum of [n] copies of one number. *)
Lemma sum_repeat (q : Q) (n : nat) :
  forall a, exists s,
    fold_left nadd (repeat (Fin q) n) (Fin a) = Fin s
    /\ (s == a + inject_Z (Z.of_nat n) * q)%Q.
Proof.
  induction n as [|n IH]; intro a.
  - exists a. split; [reflexivity|]. simpl. ring.
  - cbn [repeat fold_left]. unfold nadd at 2, fin.
    destruct (IH (Qred (a + q))) as [s [Hs Heq]].
    exists s. split; [assumption|].
    rewrite Heq, Qred_correct, Nat2Z.inj_succ. unfold Z.succ.
    rewrite inject_Z_plus. ring.
Qed.

(** The mean of a constant column is its value. *)
Lemma mean_repeat (q : Q) (m : nat) :
  exists mq,
    (sumNum (repeat (Fin q) (S m)) / of_nat (S m))%num = Fin mq
    /\ (mq == q)%Q.
Proof.
  unfold sumNum, zero.
  destruct (sum_repeat q (S m) 0) as [s [-> Hs]].
  unfold ndiv, of_nat, of_Z.
  assert (Hm : Qeq_bool (inject_Z (Z.of_nat (S m))) 0 = false).
  { apply not_true_iff_false. rewrite Qeq_bool_iff.
    unfold Qeq; simpl. lia. }
  rewrite Hm. exists (Qred (s / inject_Z (Z.of_nat (S m)))).
  split; [reflexivity|].
  rewrite Qred_correct, Hs. field.
  unfold Qeq; simpl. lia.
Qed.

(** The sum of the squared deviations of a constant column is zero. *)
Lemma squared_deviations_repeat (q mq : Q) (n : nat) :
  (mq == q)%Q ->
  forall acc, isZero acc ->
    isZero (fold_left (fun acc val => acc + Math_pow (val - Fin mq) 2)%num
              (repeat (Fin q) n) acc).
Proof.
  intro Hmq. induction n as [|n IH]; intros acc Hacc; [assumption|].
  cbn [repeat fold_left]. apply IH.
  apply nadd_zero_zero; [assumption|].
  cbn [Math_pow].
  apply nmul_zero_zero; apply nsub_equal; now symmetry.
Qed.

Lemma fold_left_NaN (f : num -> num) (l : list num) :
  fold_left (fun acc val => acc + f val)%num l NaN = NaN.
Proof. induction l as [|x l IH]; [reflexivity|]. simpl. apply IH. Qed.

(** C2, as the code behaves: on a column that holds one same integer in
    every row, the sums of the column being integers that a double holds
    exactly, the mean is that integer, the standard deviation is 0, each
    standardised deviation is 0/0, and the moment-based skewness is
    [NaN], not 0. *)
Theorem calculateSkewness_constant_column_is_NaN
  (rows : list Row) (columnName : string) (z : Z) :
  constantColumn rows columnName (inject_Z z) ->
  exactSums z (List.length rows) ->
  calculateSkewness rows columnName = NaN.
Proof.
  intros [Hne Hall] _. set (q := inject_Z z) in *. unfold calculateSkewness.
  rewrite (numbersOf_constant _ _ Hall).
  destruct rows as [|row0 rest]; [congruence|].
  cbn [List.length]. rewrite repeat_length.
  destruct (mean_repeat q (List.length rest)) as [mq [-> Hmq]].
  set (std := Math_sqrt _).
  assert (Hstd : isZero std).
  { apply Math_sqrt_zero, ndiv_zero_count, squared_deviations_repeat;
      [assumption|]. now apply isZero_Fin. }
  cbn [repeat fold_left].
  rewrite (ndiv_zero_zero (nsub_equal (symmetry Hmq)) Hstd).
  cbn [Math_pow]. change (NaN * (NaN * NaN))%num with NaN.
  rewrite nadd_NaN_r.
  now rewrite (fold_left_NaN (fun val => Math_pow ((val - Fin mq) / std) 3)).
Qed.

Lemma Forall_firstn {A} (P : A -> Prop) (n : nat) (l : list A) :
  Forall P l -> Forall P (firstn n l).
Proof.
  intro H. revert n. induction H as [|x l Hx Hl IH]; intros [|n]; simpl;
    constructor; auto.
Qed.
(* ------------------------------------------------------------------ *)
(** ** Chart recommendations *)






Lemma before_of_nat (a b : nat) :
  (of_nat a - of_nat b <? zero)%num = Nat.ltb a b.
Proof.
  unfold of_nat, of_Z. rewrite before_Fin.
  apply eq_true_iff_eq. rewrite Qlt_bool_iff, Nat.ltb_lt.
  unfold Qlt; simpl. lia.
Qed.

Lemma StronglySorted_firstn {A} (R : A -> A -> Prop) (n : nat) (l : list A) :
  StronglySorted R l -> StronglySorted R (firstn n l).
Proof.
  intro H. revert n. induction H as [|x l Hl IH Hx]; intros [|n]; simpl;
    constructor; auto.
  now apply Forall_firstn.
Qed.


Lemma StronglySorted_weaken {A} (R S : A -> A -> Prop) (l : list A) :
  (forall a b, R a b -> S a b) -> StronglySorted R l -> StronglySorted S l.
Proof.
  intros HRS. induction 1 as [|x l Hl IH Hx]; constructor; auto.
  eapply Forall_impl; [|exact Hx]. auto.
Qed.



Ltac destruct_if :=
  match goal with
  | |- context [if ?c then _ else _] => destruct c
  end.

Lemma Forall_flat_map_all {A B} (P : B -> Prop) (f : A -> list B) (l : list A) :
  (forall x, Forall P (f x)) -> Forall P (flat_map f l).
Proof.
  intro H. induction l as [|x l IH]; simpl; [constructor|].
  apply Forall_app. auto.
Qed.











(* ------------------------------------------------------------------ *)
(** ** Insights *)

Definition isBusiness (i : AIInsight) : bool :=
  match insight_type i with
  | BusinessInsight => true
  | _ => false
  end.

Lemma Permutation_countIf {A} (f : A -> bool) (l l' : list A) :
  Permutation l l' -> countIf f l = countIf f l'.
Proof.
  unfold countIf. induction 1; simpl; auto.
  - destruct (f x); simpl; auto.
  - destruct (f x), (f y); reflexivity.
  - congruence.
Qed.

Lemma countIf_none {A} (f : A -> bool) (l : list A) :
  Forall (fun x => f x = false) l -> countIf f l = 0.
Proof.
  unfold countIf. induction 1 as [|x l Hx Hl IH]; simpl; [reflexivity|].
  now rewrite Hx.
Qed.

Lemma countIf_app {A} (f : A -> bool) (l l' : list A) :
  countIf f (l ++ l') = countIf f l + countIf f l'.
Proof. unfold countIf. now rewrite filter_app, length_app. Qed.

Lemma countIf_le_length {A} (f : A -> bool) (l : list A) :
  countIf f l <= List.length l.
Proof. apply filter_length_le. Qed.

(** No rule-based insight is of type business. *)
Lemma ruleBasedInsights_not_business (rows : list Row) (p : DataProfile) :
  Forall (fun i => isBusiness i = false) (ruleBasedInsights rows p).
Proof.
  unfold ruleBasedInsights. cbv zeta.
  apply Forall_app; split; [|apply Forall_app; split; [|apply Forall_app; split]].
  - destruct_if; repeat constructor.
  - destruct_if; repeat constructor.
  - apply Forall_flat_map_all. intro col.
    destruct (stats col); [|constructor].
    apply Forall_app; split; destruct_if; repeat constructor.
  - apply Forall_forall. intros i Hi.
    apply in_map_iff in Hi as [corr [<- _]]. reflexivity.
Qed.

(** Every insight parsed from the reply is a business insight of
    severity medium. *)
Lemma parseNarrativeLine_medium (line : list ascii) :
  Forall (fun i => isBusiness i = true /\ severity i = Medium)
    (parseNarrativeLine line).
Proof.
  unfold parseNarrativeLine.
  destruct (matchesNumbered line); [|constructor].
  destruct (matchBracket line); [repeat constructor|].
  destruct (indexOf 58 line); [|constructor].
  destruct_if; repeat constructor.
Qed.

Lemma fallbackInsights_spec (p : DataProfile) :
  Forall (fun i => isBusiness i = true /\ severity i = Low)
    (fallbackInsights p)
  /\ List.length (fallbackInsights p) <= 2
  /\ ((exists col, In col (columns p) /\ type col = Numeric)
      <-> In performanceInsight (fallbackInsights p))
  /\ ((exists col, In col (columns p) /\ type col = Categorical)
      <-> In segmentationInsight (fallbackInsights p)).
Proof.
  unfold fallbackInsights. cbv zeta.
  set (numericCols := filter isNumericColumn (columns p)).
  set (categoricalCols := filter _ (columns p)).
  assert (Hnum : (exists col, In col (columns p) /\ type col = Numeric)
                 <-> Nat.ltb 0 (List.length numericCols) = true).
  { rewrite Nat.ltb_lt. split.
    - intros [col [Hin Ht]].
      assert (In col numericCols).
      { apply filter_In. split; [assumption|].
        unfold isNumericColumn. now rewrite Ht. }
      destruct numericCols; [contradiction|simpl; lia].
    - destruct numericCols as [|col rest] eqn:Hcols; simpl; [lia|]. intros _.
      assert (Hin : In col numericCols) by (rewrite Hcols; now left).
      apply filter_In in Hin as [Hin Ht]. exists col. split; [assumption|].
      unfold isNumericColumn in Ht. now destruct (type col). }
  assert (Hcat : (exists col, In col (columns p) /\ type col = Categorical)
                 <-> Nat.ltb 0 (List.length categoricalCols) = true).
  { rewrite Nat.ltb_lt. split.
    - intros [col [Hin Ht]].
      assert (In col categoricalCols).
      { apply filter_In. split; [assumption|]. now rewrite Ht. }
      destruct categoricalCols; [contradiction|simpl; lia].
    - destruct categoricalCols as [|col rest] eqn:Hcols; simpl; [lia|].
      intros _.
      assert (Hin : In col categoricalCols) by (rewrite Hcols; now left).
      apply filter_In in Hin as [Hin Ht]. exists col. split; [assumption|].
      now destruct (type col). }
  rewrite Hnum, Hcat.
  destruct (Nat.ltb 0 (List.length numericCols)),
    (Nat.ltb 0 (List.length categoricalCols)); simpl;
    (split; [repeat constructor|]); (split; [lia|]);
    split; split; intro H; try reflexivity; try discriminate; auto;
    try (destruct H as [H|H]; try discriminate H; try contradiction);
    try (destruct H as [H|H]; try discriminate H; try contradiction).
Qed.

(** With a dataset that has a row, the profile is there. *)
Lemma ensureProfile_ok (e : Engine) :
  data e <> [] ->
  exists p e', ensureProfile e = (Ok p, e') /\ profile e' = Some p
               /\ data e' = data e.
Proof.
  intro Hne. unfold ensureProfile.
  destruct (profile e) as [p|] eqn:Hp.
  - exists p, e. auto.
  - unfold profileData. destruct (data e) as [|row0 rest] eqn:Hd;
      [congruence|].
    eexists. eexists. split; [reflexivity|]. split; reflexivity.
Qed.

(** C7, as amended: on a dataset with at least one row insight
    generation returns, whatever the collaborator does.  The result is
    the rule-based insights and the business insights, reordered by
    severity, with at most 5 business insights.  When the call throws,
    the business insights are the fallback: at most two, each of
    severity low, one iff a numeric column exists and one iff a
    categorical column exists.  When the call returns a text, no fallback
    is added: the business insights are the parsed lines, each of
    severity medium. *)
Theorem generateAIInsights_survives_collaborator
  (e : Engine) (reply : Narrative) :
  data e <> [] ->
  exists p e' insights,
    generateAIInsights e reply = (Ok insights, e')
    /\ profile e' = Some p
    /\ Permutation insights
         (ruleBasedInsights (data e') p ++ generateBusinessInsights p reply)
    /\ countIf isBusiness insights <= 5
    /\ (reply = NarrativeFails ->
        generateBusinessInsights p reply = fallbackInsights p
        /\ Forall (fun i => isBusiness i = true /\ severity i = Low)
             (fallbackInsights p)
        /\ List.length (fallbackInsights p) <= 2
        /\ ((exists col, In col (columns p) /\ type col = Numeric)
            <-> In performanceInsight (fallbackInsights p))
        /\ ((exists col, In col (columns p) /\ type col = Categorical)
            <-> In segmentationInsight (fallbackInsights p)))
    /\ (forall text, reply = NarrativeText text ->
        Forall (fun i => isBusiness i = true /\ severity i = Medium)
          (generateBusinessInsights p reply)).
Proof.
  intro Hne.
  destruct (ensureProfile_ok e Hne) as [p [e' [Hprof [Hp Hd]]]].
  exists p, e'. eexists.
  unfold generateAIInsights. rewrite Hprof. simpl bind.
  split; [reflexivity|]. split; [assumption|].
  set (business := generateBusinessInsights p reply).
  assert (Hfive : List.length business <= 5).
  { unfold business, generateBusinessInsights. apply firstn_le_length. }
  split; [apply Array_sort_perm|]. split.
  - unfold sortBySeverity.
    rewrite (Permutation_countIf _ (Array_sort_perm _ _)).
    rewrite countIf_app, (countIf_none _ (ruleBasedInsights_not_business _ _)).
    pose proof (countIf_le_length isBusiness business). simpl. lia.
  - split.
    + intros ->. destruct (fallbackInsights_spec p) as [Hlow [Hlen [Hn Hc]]].
      split; [|auto].
      unfold business, generateBusinessInsights.
      apply firstn_all2. lia.
    + intros text ->. unfold business, generateBusinessInsights.
      apply Forall_firstn. apply Forall_flat_map_all.
      apply parseNarrativeLine_medium.
Qed.

(* ------------------------------------------------------------------ *)
(** ** The schema is the first record's *)

(** Two rows agree on [keys] when they hold the same value under each of
    them; two datasets agree when their rows do, one by one. *)
Definition rowsAgree (keys : list string) (r r' : Row) : Prop :=
  forall k, In k keys -> getField r k = getField r' k.

Definition agreeOn (keys : list string) (rows rows' : list Row) : Prop :=
  Forall2 (rowsAgree keys) rows rows'.

Section Agreement.

Variable keys : list string.
Variables rows rows' : list Row.
Hypothesis Hagree : agreeOn keys rows rows'.

Lemma agree_length : List.length rows = List.length rows'.
Proof. eapply Forall2_length; eassumption. Qed.

Lemma agree_map {B} (g : Row -> B) :
  (forall r r', rowsAgree keys r r' -> g r = g r') ->
  map g rows = map g rows'.
Proof.
  intro Hg. induction Hagree as [|r r' l l' Hr Hl IH]; [reflexivity|].
  simpl. f_equal; auto.
Qed.

Lemma agree_filter_map {B} (f : Row -> bool) (g : Row -> B) :
  (forall r r', rowsAgree keys r r' -> f r = f r') ->
  (forall r r', rowsAgree keys r r' -> g r = g r') ->
  map g (filter f rows) = map g (filter f rows').
Proof.
  intros Hf Hg. induction Hagree as [|r r' l l' Hr Hl IH]; [reflexivity|].
  simpl. rewrite <- (Hf r r' Hr). destruct (f r); simpl; [f_equal|]; auto.
Qed.

Lemma agree_fold_left {S} (step : S -> Row -> S) :
  (forall acc r r', rowsAgree keys r r' -> step acc r = step acc r') ->
  forall acc, fold_left step rows acc = fold_left step rows' acc.
Proof.
  intro Hstep. induction Hagree as [|r r' l l' Hr Hl IH]; intro acc;
    [reflexivity|].
  simpl. rewrite (Hstep acc r r' Hr). now apply IH.
Qed.

Lemma agree_count (f : Row -> bool) :
  (forall r r', rowsAgree keys r r' -> f r = f r') ->
  List.length (filter f rows) = List.length (filter f rows').
Proof.
  intro Hf.
  rewrite <- (length_map (fun _ => tt) (filter f rows)),
          <- (length_map (fun _ => tt) (filter f rows')).
  f_equal. now apply agree_filter_map.
Qed.

(** Each method reads the rows through the fields it is given: on
    fields of [keys] it cannot tell the two datasets apart. *)
Lemma agree_numbersOf (c : string) :
  In c keys -> numbersOf rows c = numbersOf rows' c.
Proof.
  intro Hc. unfold numbersOf. f_equal.
  apply agree_map. intros r r' Hr. now rewrite (Hr c Hc).
Qed.

Lemma agree_profileColumn (c : string) :
  In c keys -> profileColumn rows c = profileColumn rows' c.
Proof.
  intro Hc. unfold profileColumn.
  rewrite (agree_map (fun row => getField row c)), agree_length;
    [reflexivity|].
  intros r r' Hr. exact (Hr c Hc).
Qed.

Lemma agree_createHistogram (c : string) :
  In c keys -> createHistogram rows c = createHistogram rows' c.
Proof. intro Hc. unfold createHistogram. now rewrite (agree_numbersOf c Hc). Qed.

Lemma agree_createTimeSeries (d v : string) :
  In d keys -> In v keys ->
  createTimeSeries rows d v = createTimeSeries rows' d v.
Proof.
  intros Hd Hv. unfold createTimeSeries. do 2 f_equal.
  apply agree_filter_map; intros r r' Hr;
    now rewrite (Hr d Hd), (Hr v Hv).
Qed.

Lemma agree_createScatterPlot (c1 c2 : string) :
  In c1 keys -> In c2 keys ->
  createScatterPlot rows c1 c2 = createScatterPlot rows' c1 c2.
Proof.
  intros H1 H2. unfold createScatterPlot. f_equal.
  apply agree_filter_map; intros r r' Hr;
    now rewrite (Hr c1 H1), (Hr c2 H2).
Qed.

Lemma agree_createHeatmap (c v : string) :
  In c keys -> In v keys ->
  createHeatmap rows c v = createHeatmap rows' c v.
Proof.
  intros Hc Hv. unfold createHeatmap. cbv zeta. f_equal.
  apply agree_fold_left. intros acc r r' Hr.
  unfold categoryOf. now rewrite (Hr c Hc), (Hr v Hv).
Qed.

Lemma agree_createBoxPlot (c v : string) :
  In c keys -> In v keys ->
  createBoxPlot rows c v = createBoxPlot rows' c v.
Proof.
  intros Hc Hv. unfold createBoxPlot. cbv zeta. f_equal.
  apply agree_fold_left. intros acc r r' Hr.
  unfold categoryOf. now rewrite (Hr c Hc), (Hr v Hv).
Qed.

End Agreement.

Lemma flat_map_ext_in' {A B} (f g : A -> list B) (l : list A) :
  (forall x, In x l -> f x = g x) -> flat_map f l = flat_map g l.
Proof.
  induction l as [|x l IH]; intro H; [reflexivity|].
  simpl. rewrite (H x (or_introl eq_refl)), IH; [reflexivity|].
  intros y Hy. apply H. now right.
Qed.

Lemma forEachM_ext_in {A S} (body body' : S -> A -> result S) (l : list A) :
  (forall s x, In x l -> body s x = body' s x) ->
  forall s, forEachM body l s = forEachM body' l s.
Proof.
  induction l as [|x l IH]; intros H s; [reflexivity|].
  simpl. rewrite (H s x (or_introl eq_refl)).
  destruct (body' s x); [|reflexivity]. simpl.
  apply IH. intros s' y Hy. apply H. now right.
Qed.

Lemma fold_left_ext_in {A S} (f g : S -> A -> S) (l : list A) :
  (forall s x, In x l -> f s x = g s x) ->
  forall s, fold_left f l s = fold_left g l s.
Proof.
  induction l as [|x l IH]; intros H s; [reflexivity|].
  simpl. rewrite (H s x (or_introl eq_refl)).
  apply IH. intros s' y Hy. apply H. now right.
Qed.

Lemma In_pairs {A} (l : list A) (a b : A) :
  In (a, b) (pairs l) -> In a l /\ In b l.
Proof.
  induction l as [|x l IH]; simpl; [contradiction|].
  intro H. apply in_app_or in H as [H|H].
  - apply in_map_iff in H as [y [Heq Hy]]. injection Heq as <- <-. auto.
  - apply IH in H as [Ha Hb]. auto.
Qed.

Lemma In_firstn {A} (n : nat) (l : list A) (x : A) :
  In x (firstn n l) -> In x l.
Proof.
  revert n. induction l as [|y l IH]; intros [|n]; simpl; try contradiction.
  intros [H|H]; [now left|right; eauto].
Qed.

(** The columns a method is handed are columns of the schema. *)
Definition namedIn (keys : list string) (cols : list DataColumn) : Prop :=
  forall col, In col cols -> In (name col) keys.

Lemma namedIn_filter keys (f : DataColumn -> bool) cols :
  namedIn keys cols -> namedIn keys (filter f cols).
Proof. intros H col Hc. apply H. now apply filter_In in Hc. Qed.

Lemma namedIn_firstn keys n cols :
  namedIn keys cols -> namedIn keys (firstn n cols).
Proof. intros H col Hc. apply H. eapply In_firstn; eassumption. Qed.

Section AgreementOfTheEngine.

Variable keys : list string.
Variables rows rows' : list Row.
Hypothesis Hagree : agreeOn keys rows rows'.

Lemma agree_calculateCorrelations (cols : list DataColumn) :
  namedIn keys cols ->
  calculateCorrelations rows cols = calculateCorrelations rows' cols.
Proof.
  intro Hcols. unfold calculateCorrelations.
  apply flat_map_ext_in'. intros [c1 c2] Hin.
  apply In_pairs in Hin as [H1 H2]. cbn [fst snd].
  now rewrite (agree_numbersOf Hagree _ (Hcols _ H1)),
              (agree_numbersOf Hagree _ (Hcols _ H2)).
Qed.

Lemma agree_detectOutliers (cols : list DataColumn) :
  namedIn keys cols ->
  detectOutliers rows cols = detectOutliers rows' cols.
Proof.
  intro Hcols. unfold detectOutliers.
  apply fold_left_ext_in. intros total col Hin.
  destruct (stats col); [|reflexivity]. cbv zeta. f_equal.
  apply (agree_count Hagree). intros r r' Hr.
  now rewrite (Hr _ (Hcols _ Hin)).
Qed.

Lemma agree_calculateCompleteness (cols : list DataColumn) :
  calculateCompleteness rows cols = calculateCompleteness rows' cols.
Proof.
  unfold calculateCompleteness. now rewrite (agree_length Hagree).
Qed.

Lemma agree_chartCandidates (p p' : DataProfile) :
  columns p' = columns p -> correlations p' = correlations p ->
  namedIn keys (columns p) ->
  chartCandidates rows' p' = chartCandidates rows p.
Proof.
  intros Hcols Hcorr Hnamed. unfold chartCandidates. rewrite Hcols.
  set (numericCols := filter isNumericColumn (columns p)).
  set (categoricalCols := filter isCategoricalColumn (columns p)).
  set (datetimeCols := filter isDatetimeColumn (columns p)).
  assert (Hn : namedIn keys numericCols) by now apply namedIn_filter.
  assert (Hc : namedIn keys categoricalCols) by now apply namedIn_filter.
  assert (Hd : namedIn keys datetimeCols) by now apply namedIn_filter.
  assert (Hh : histogramCharts rows' numericCols []
               = histogramCharts rows numericCols []).
  { unfold histogramCharts. apply forEachM_ext_in. intros recs col Hin.
    now rewrite (agree_createHistogram Hagree _ (Hn _ Hin)). }
  assert (Hl : timeSeriesCharts rows' datetimeCols numericCols
               = timeSeriesCharts rows datetimeCols numericCols).
  { unfold timeSeriesCharts.
    apply flat_map_ext_in'. intros dateCol Hdc.
    apply flat_map_ext_in'. intros numCol Hnc.
    now rewrite (agree_createTimeSeries Hagree _ _ (Hd _ Hdc) (Hn _ Hnc)). }
  assert (Hs : scatterCharts rows' p' numericCols
               = scatterCharts rows p numericCols).
  { unfold scatterCharts, findCorrelation. rewrite Hcorr.
    apply flat_map_ext_in'. intros [c1 c2] Hin.
    apply In_pairs in Hin as [H1 H2]. cbn [fst snd].
    now rewrite (agree_createScatterPlot Hagree _ _ (Hn _ H1) (Hn _ H2)). }
  assert (Hm : heatmapCharts rows' categoricalCols numericCols
               = heatmapCharts rows categoricalCols numericCols).
  { unfold heatmapCharts.
    apply flat_map_ext_in'. intros catCol Hcc.
    apply flat_map_ext_in'. intros numCol Hnc.
    apply In_firstn in Hcc, Hnc.
    now rewrite (agree_createHeatmap Hagree _ _ (Hc _ Hcc) (Hn _ Hnc)). }
  assert (Hb : boxCharts rows' categoricalCols numericCols
               = boxCharts rows categoricalCols numericCols).
  { unfold boxCharts.
    apply flat_map_ext_in'. intros catCol Hcc.
    apply flat_map_ext_in'. intros numCol Hnc.
    apply In_firstn in Hcc, Hnc.
    now rewrite (agree_createBoxPlot Hagree _ _ (Hc _ Hcc) (Hn _ Hnc)). }
  now rewrite Hh, Hl, Hs, Hm, Hb.
Qed.

End AgreementOfTheEngine.

Lemma profileData_newEngine (row0 : Row) (rest : list Row) :
  let rows := row0 :: rest in
  let cols := map (profileColumn rows) (Object_keys row0) in
  let numericColumns := filter isNumericColumn cols in
  let p :=
    {| totalRows := List.length rows;
       totalColumns := List.length (Object_keys row0);
       columns := cols;
       dataQuality :=
         {| completeness := calculateCompleteness rows cols;
            duplicateRows := findDuplicateRows rows;
            outliers := detectOutliers rows numericColumns |};
       correlations := calculateCorrelations rows numericColumns |} in
  profileData (newEngine rows) = (Ok p, {| data := rows; profile := Some p |}).
Proof. reflexivity. Qed.

Lemma profileColumn_name (rows : list Row) (c : string) :
  name (profileColumn rows c) = c.
Proof. reflexivity. Qed.

(** C10: the columns of the profile are the keys of the first record, in
    that record's key order, and [totalColumns] is their number.  A
    second dataset whose first record has the same keys and whose rows
    hold the same values under those keys (so: the same dataset but for
    the fields that only later records have) gets the same columns, with
    the same null counts, the same completeness, correlations and
    outlier count, and the same chart recommendations. *)
Theorem profileData_schema_of_first_record
  (row0 row0' : Row) (rest rest' : list Row) :
  Object_keys row0' = Object_keys row0 ->
  agreeOn (Object_keys row0) (row0 :: rest) (row0' :: rest') ->
  exists p p',
    fst (profileData (newEngine (row0 :: rest))) = Ok p
    /\ fst (profileData (newEngine (row0' :: rest'))) = Ok p'
    /\ map name (columns p) = Object_keys row0
    /\ totalColumns p = List.length (Object_keys row0)
    /\ columns p' = columns p
    /\ totalColumns p' = totalColumns p
    /\ completeness (dataQuality p') = completeness (dataQuality p)
    /\ outliers (dataQuality p') = outliers (dataQuality p)
    /\ correlations p' = correlations p
    /\ fst (generateChartRecommendations (newEngine (row0' :: rest')))
       = fst (generateChartRecommendations (newEngine (row0 :: rest))).
Proof.
  intros Hkeys Hagree.
  set (rows := row0 :: rest) in *. set (rows' := row0' :: rest') in *.
  set (keys := Object_keys row0) in *.
  assert (Hcols : map (profileColumn rows') keys = map (profileColumn rows) keys).
  { apply map_ext_in. intros c Hc. symmetry.
    now apply (agree_profileColumn Hagree). }
  assert (Hnames : map name (map (profileColumn rows) keys) = keys).
  { rewrite map_map. erewrite map_ext; [apply map_id|].
    intro c. apply profileColumn_name. }
  assert (Hnamed : namedIn keys (map (profileColumn rows) keys)).
  { intros col Hin. apply in_map_iff in Hin as [c [<- Hc]]. exact Hc. }
  assert (Hnum : namedIn keys
                   (filter isNumericColumn (map (profileColumn rows) keys)))
    by now apply namedIn_filter.
  unfold generateChartRecommendations, ensureProfile.
  cbn [profile newEngine].
  unfold rows, rows'. rewrite !profileData_newEngine. fold rows rows' keys.
  rewrite Hkeys. fold keys. rewrite Hcols.
  eexists. eexists.
  split; [reflexivity|]. split; [reflexivity|].
  cbn [columns totalColumns dataQuality completeness outliers correlations fst
       data bind].
  split; [exact Hnames|]. split; [reflexivity|]. split; [reflexivity|].
  split; [reflexivity|].
  split; [symmetry; apply (agree_calculateCompleteness Hagree)|].
  split; [symmetry; now apply (agree_detectOutliers Hagree)|].
  split; [symmetry; now apply (agree_calculateCorrelations Hagree)|].
  erewrite (agree_chartCandidates Hagree); [reflexivity|reflexivity| |exact Hnamed].
  cbn [correlations]. symmetry.
  now apply (agree_calculateCorrelations Hagree).
Qed.

(* ------------------------------------------------------------------ *)
(** ** Histograms that are returned *)

Lemma binTotal_sum (bins : list HistogramBin) :
  binTotal bins = list_sum (map bin_count bins).
Proof.
  unfold binTotal.
  assert (H : forall a, fold_left (fun acc b => acc + bin_count b) bins a
                        = a + list_sum (map bin_count bins)).
  { induction bins as [|b bins IH]; intro a; simpl; [lia|].
    rewrite IH. lia. }
  apply H.
Qed.

Lemma list_update_count (bins : list HistogramBin) (k : nat)
  (b b' : HistogramBin) :
  nth_error bins k = Some b -> bin_count b' = S (bin_count b) ->
  list_sum (map bin_count (list_update bins k b'))
  = S (list_sum (map bin_count bins))
  /\ List.length (list_update bins k b') = List.length bins.
Proof.
  revert k. induction bins as [|x bins IH]; intros [|k] Hk Hb'; simpl in *;
    try discriminate.
  - injection Hk as ->. split; [lia|reflexivity].
  - destruct (IH k Hk Hb') as [Hs Hl]. split; [lia|congruence].
Qed.

(** One more value in one bin, the same bins. *)
Lemma incrementBin_total (bins bins' : list HistogramBin) (binIndex : num) :
  incrementBin bins binIndex = Ok bins' ->
  binTotal bins' = S (binTotal bins)
  /\ List.length bins' = List.length bins.
Proof.
  unfold incrementBin. destruct (toIndex binIndex) as [k|]; [|discriminate].
  destruct (nth_error bins k) as [b|] eqn:Hb; [|discriminate].
  intro H. injection H as <-. rewrite !binTotal_sum.
  now apply list_update_count with (b := b).
Qed.

Lemma incrementBins_total (f : num -> num) (values : list num) :
  forall bins bins',
    forEachM (fun bins value => incrementBin bins (f value)) values bins
    = Ok bins' ->
    binTotal bins' = binTotal bins + List.length values
    /\ List.length bins' = List.length bins.
Proof.
  induction values as [|v values IH]; intros bins bins' H; simpl in H.
  - injection H as <-. simpl. split; [lia|reflexivity].
  - destruct (incrementBin bins (f v)) as [bins1|err] eqn:H1; simpl in H;
      [|discriminate].
    apply incrementBin_total in H1 as [Ht Hl].
    apply IH in H as [Ht' Hl']. simpl. split; [lia|congruence].
Qed.

Lemma binCount_at_most_20 (n : nat) (k : nat) :
  toIndex (min2 (of_nat 20) (Math_ceil (Math_sqrt (of_nat n)))) = Some k ->
  k <= 20.
Proof.
  change (of_nat 20) with (Fin (inject_Z 20)). unfold min2.
  destruct (Math_ceil (Math_sqrt (of_nat n))) as [| | |c] eqn:Hc.
  - discriminate.
  - intro H. vm_compute in H. injection H as <-. lia.
  - discriminate.
  - unfold nlt. destruct (Qlt_bool c (inject_Z 20)) eqn:Hlt; cbv iota.
    + apply Qlt_bool_iff in Hlt. unfold toIndex.
      destruct (Qeq_bool c (inject_Z (Qfloor c)) && Qle_bool 0 c);
        [|discriminate]. intro H. injection H as <-.
      assert (Hf : (Qfloor c < 20)%Z).
      { rewrite Zlt_Qlt. eapply Qle_lt_trans; [apply Qfloor_le|exact Hlt]. }
      lia.
    + intro H. vm_compute in H. injection H as <-. lia.
Qed.

(** Whenever [createHistogram] returns, every value of the column is in
    exactly one bin and there are at most 20 bins. *)
Theorem createHistogram_returned_bins
  (rows : list Row) (columnName : string) (bins : list HistogramBin) :
  createHistogram rows columnName = Ok bins ->
  binTotal bins = List.length (numbersOf rows columnName)
  /\ List.length bins <= 20.
Proof.
  unfold createHistogram. cbv zeta.
  set (values := numbersOf rows columnName).
  set (binCount := min2 _ _).
  unfold Array_init.
  destruct (toIndex binCount) as [k|] eqn:Hk; [|discriminate].
  cbn [bind]. intro H.
  apply (incrementBins_total
           (fun value => min2 (Math_floor ((value - Math_min values)
                                           / ((Math_max values - Math_min values)
                                              / binCount)))
                           (binCount - Fin 1))%num) in H as [Ht Hl].
  rewrite Ht, Hl, length_map, length_seq. split.
  - rewrite binTotal_sum, map_map. cbn [bin_count].
    assert (H0 : forall l : list nat, list_sum (map (fun _ => 0) l) = 0).
    { induction l as [|x l IH]; simpl; auto. }
    rewrite H0. reflexivity.
  - now apply binCount_at_most_20 in Hk.
Qed.

(* ------------------------------------------------------------------ *)
(** ** Histograms of columns with spread *)

Lemma fold_min2_finite (l : list num) :
  Forall finite l ->
  forall a, exists m,
    fold_left min2 l (Fin a) = Fin m
    /\ (m <= a)%Q /\ forall q, In (Fin q) l -> (m <= q)%Q.
Proof.
  induction 1 as [|x l Hx Hl IH]; intro a.
  - exists a. repeat split; [apply Qle_refl|contradiction].
  - destruct x as [| | |q]; try discriminate. cbn [fold_left].
    unfold min2 at 2, nlt.
    destruct (Qlt_bool q a) eqn:Hqa.
    + apply Qlt_bool_iff in Hqa.
      destruct (IH q) as [m [Hm [Hmq Hall]]]. exists m.
      split; [assumption|]. split.
      * eapply Qle_trans; [eassumption|]. now apply Qlt_le_weak.
      * intros q' [Hq'|Hq']; [injection Hq' as <-; assumption|auto].
    + apply not_true_iff_false in Hqa. rewrite Qlt_bool_iff in Hqa.
      apply Qnot_lt_le in Hqa.
      destruct (IH a) as [m [Hm [Hma Hall]]]. exists m.
      split; [assumption|]. split; [assumption|].
      intros q' [Hq'|Hq']; [injection Hq' as <-|auto].
      eapply Qle_trans; eassumption.
Qed.

Lemma fold_max2_finite (l : list num) :
  Forall finite l ->
  forall a, exists m,
    fold_left max2 l (Fin a) = Fin m
    /\ (a <= m)%Q /\ forall q, In (Fin q) l -> (q <= m)%Q.
Proof.
  induction 1 as [|x l Hx Hl IH]; intro a.
  - exists a. repeat split; [apply Qle_refl|contradiction].
  - destruct x as [| | |q]; try discriminate. cbn [fold_left].
    unfold max2 at 2, nlt.
    destruct (Qlt_bool a q) eqn:Hqa.
    + apply Qlt_bool_iff in Hqa.
      destruct (IH q) as [m [Hm [Hmq Hall]]]. exists m.
      split; [assumption|]. split.
      * eapply Qle_trans; [|eassumption]. now apply Qlt_le_weak.
      * intros q' [Hq'|Hq']; [injection Hq' as <-; assumption|auto].
    + apply not_true_iff_false in Hqa. rewrite Qlt_bool_iff in Hqa.
      apply Qnot_lt_le in Hqa.
      destruct (IH a) as [m [Hm [Hma Hall]]]. exists m.
      split; [assumption|]. split; [assumption|].
      intros q' [Hq'|Hq']; [injection Hq' as <-|auto].
      eapply Qle_trans; eassumption.
Qed.

(** [Math.min] and [Math.max] of finite numbers bound every one of them. *)
Lemma Math_min_max_finite (values : list num) :
  values <> [] -> Forall finite values ->
  exists lo hi,
    Math_min values = Fin lo /\ Math_max values = Fin hi
    /\ forall q, In (Fin q) values -> (lo <= q <= hi)%Q.
Proof.
  intros Hne Hfin. destruct values as [|x rest]; [congruence|].
  inversion Hfin as [|? ? Hx Hrest]; subst.
  destruct x as [| | |q0]; try discriminate.
  unfold Math_min, Math_max. cbn [fold_left].
  change (min2 PInf (Fin q0)) with (Fin q0).
  change (max2 NInf (Fin q0)) with (Fin q0).
  destruct (fold_min2_finite Hrest q0) as [lo [Hlo [Hlo0 Hlos]]].
  destruct (fold_max2_finite Hrest q0) as [hi [Hhi [Hhi0 His]]].
  exists lo, hi. split; [assumption|]. split; [assumption|].
  intros q [Hq|Hq]; [injection Hq as <-; auto|split; auto].
Qed.

Lemma Qceiling_pos (x : Q) : (0 < x)%Q -> (1 <= Qceiling x)%Z.
Proof.
  intro Hx. unfold Qceiling.
  assert (H : (Qfloor (- x) < 0)%Z).
  { rewrite Zlt_Qlt. eapply Qle_lt_trans; [apply Qfloor_le|].
    change (inject_Z 0) with (- 0)%Q. now apply Qopp_lt_compat. }
  lia.
Qed.

Lemma Qsqrt_pos (n : nat) :
  1 <= n -> (0 < Qsqrt (inject_Z (Z.of_nat n)))%Q.
Proof.
  intro Hn. unfold Qsqrt, inject_Z; cbn [Qnum Qden].
  set (s := Z.sqrt _).
  assert (Hs : (0 < s)%Z).
  { apply Z.sqrt_pos. lia. }
  unfold Qlt; cbn. lia.
Qed.

(** The number of bins of a column with a value: a whole number from 1
    to 20. *)
Lemma binCount_positive (n : nat) :
  1 <= n ->
  exists k,
    min2 (of_nat 20) (Math_ceil (Math_sqrt (of_nat n))) = of_nat k
    /\ 1 <= k <= 20.
Proof.
  intro Hn. unfold Math_sqrt, of_nat at 2, of_Z at 1.
  assert (Hlt : Qlt_bool (inject_Z (Z.of_nat n)) 0 = false).
  { apply not_true_iff_false. rewrite Qlt_bool_iff.
    apply Qle_not_lt. unfold Qle; simpl. lia. }
  rewrite Hlt. unfold fin, Math_ceil.
  set (c := Qceiling (Qred (Qsqrt (inject_Z (Z.of_nat n))))).
  assert (Hc : (1 <= c)%Z).
  { apply Qceiling_pos. rewrite Qred_correct. now apply Qsqrt_pos. }
  unfold min2, of_nat, of_Z. cbv iota. unfold nlt.
  destruct (Qlt_bool (inject_Z c) (inject_Z (Z.of_nat 20))) eqn:Hc20.
  - apply Qlt_bool_iff in Hc20. rewrite <- Zlt_Qlt in Hc20.
    exists (Z.to_nat c). rewrite Z2Nat.id by lia. split; [reflexivity|lia].
  - exists 20. split; [reflexivity|lia].
Qed.

Lemma nsub_Fin_val (a b : Q) :
  exists d, (Fin a - Fin b)%num = Fin d /\ (d == a - b)%Q.
Proof.
  eexists. split; [reflexivity|].
  now rewrite !Qred_correct.
Qed.

Lemma ndiv_Fin_val (a b : Q) :
  ~ (b == 0)%Q -> exists t, (Fin a / Fin b)%num = Fin t /\ (t == a / b)%Q.
Proof.
  intro Hb. unfold ndiv.
  assert (Hb' : Qeq_bool b 0 = false).
  { apply not_true_iff_false. now rewrite Qeq_bool_iff. }
  rewrite Hb'. eexists. split; [reflexivity|]. apply Qred_correct.
Qed.

(** The bin of a value of a column with spread is one of the bins. *)
Lemma binIndex_in_range (lo hi qv : Q) (k : nat) :
  (lo < hi)%Q -> (lo <= qv)%Q -> 1 <= k ->
  exists i,
    toIndex (min2 (Math_floor ((Fin qv - Fin lo)
                               / ((Fin hi - Fin lo) / of_nat k)))
               (of_nat k - Fin 1))%num = Some i
    /\ i < k.
Proof.
  intros Hspread Hqv Hk.
  assert (Hk0 : ~ (inject_Z (Z.of_nat k) == 0)%Q).
  { unfold Qeq; simpl. lia. }
  assert (Hkpos : (0 < inject_Z (Z.of_nat k))%Q).
  { unfold Qlt; simpl. lia. }
  destruct (nsub_Fin_val hi lo) as [s [-> Hs]].
  unfold of_nat at 1, of_Z.
  destruct (ndiv_Fin_val s Hk0) as [w [-> Hw]].
  assert (Hwpos : (0 < w)%Q).
  { rewrite Hw, Hs. apply Qlt_shift_div_l; [assumption|].
    rewrite Qmult_0_l. unfold Qminus. rewrite <- Qlt_minus_iff. assumption. }
  destruct (nsub_Fin_val qv lo) as [d [-> Hd]].
  assert (Hw0 : ~ (w == 0)%Q).
  { intro H0. rewrite H0 in Hwpos. now apply Qlt_irrefl in Hwpos. }
  destruct (ndiv_Fin_val d Hw0) as [t [-> Ht]].
  assert (Htpos : (0 <= t)%Q).
  { rewrite Ht, Hd. apply Qle_shift_div_l; [assumption|].
    rewrite Qmult_0_l. unfold Qminus. rewrite <- Qle_minus_iff. assumption. }
  assert (Hf : (0 <= Qfloor t)%Z).
  { change 0%Z with (Qfloor (inject_Z 0)). now apply Qfloor_resp_le. }
  destruct (nsub_Fin_val (inject_Z (Z.of_nat k)) 1) as [u [Hu Hu']].
  unfold of_nat, of_Z. rewrite Hu.
  assert (Hu'' : (u == inject_Z (Z.of_nat (k - 1)))%Q).
  { rewrite Hu'. unfold Qeq, Qminus, Qplus, Qopp, inject_Z; simpl. lia. }
  unfold Math_floor, of_Z, min2, nlt.
  destruct (Qlt_bool u (inject_Z (Qfloor t))) eqn:Hlt.
  - exists (k - 1). split; [now apply toIndex_Fin|lia].
  - apply not_true_iff_false in Hlt. rewrite Qlt_bool_iff in Hlt.
    apply Qnot_lt_le in Hlt. rewrite Hu'', <- Zle_Qle in Hlt.
    exists (Z.to_nat (Qfloor t)). split; [|lia].
    apply toIndex_Fin. now rewrite Z2Nat.id.
Qed.

Lemma incrementBins_succeed (f : num -> num) (values : list num) :
  forall bins,
    (forall v, In v values ->
       exists i, toIndex (f v) = Some i /\ i < List.length bins) ->
    exists bins',
      forEachM (fun bins value => incrementBin bins (f value)) values bins
      = Ok bins'.
Proof.
  induction values as [|v values IH]; intros bins Hall; simpl.
  - now exists bins.
  - destruct (Hall v (or_introl eq_refl)) as [i [Hi Hlt]].
    destruct (incrementBin bins (f v)) as [bins1|err] eqn:H1.
    + simpl. apply IH. intros v' Hv'.
      apply incrementBin_total in H1 as [_ Hl]. rewrite Hl.
      apply Hall. now right.
    + exfalso. unfold incrementBin in H1. rewrite Hi in H1.
      destruct (nth_error bins i) eqn:Hn; [discriminate|].
      apply nth_error_None in Hn. lia.
Qed.

(** On a column of at most 65535 finite numbers of magnitude at most
    10^307 whose maximum exceeds the minimum by 10^-300 or more,
    [createHistogram] returns: between 1 and 20 bins that hold every value
    of the column once. *)
Theorem createHistogram_with_spread (rows : list Row) (columnName : string) :
  let values := numbersOf rows columnName in
  Forall (fun v => moderate v = true) values ->
  spreadable values ->
  (Fin spreadBound <=? Math_max values - Math_min values)%num = true ->
  exists bins,
    createHistogram rows columnName = Ok bins
    /\ binTotal bins = List.length values
    /\ 1 <= List.length bins <= 20.
Proof.
  intros values Hmoderate _ Hwide.
  pose proof (Forall_moderate_finite Hmoderate) as Hfin. clear Hmoderate.
  assert (Hne : values <> []).
  { intro H. rewrite H in Hwide. discriminate. }
  destruct (Math_min_max_finite Hne Hfin) as [lo [hi [Hlo [Hhi Hbound]]]].
  assert (Hspread : (lo < hi)%Q).
  { rewrite Hlo, Hhi in Hwide.
    destruct (nsub_Fin_val hi lo) as [d [Hd Hdval]].
    rewrite Hd, nle_Fin in Hwide. apply Qle_bool_iff in Hwide.
    rewrite Hdval in Hwide.
    assert (Hpos : (0 < spreadBound)%Q) by reflexivity.
    apply Qlt_minus_iff. unfold Qminus in Hwide.
    eapply Qlt_le_trans; eassumption. }
  assert (Hn : 1 <= List.length values).
  { destruct values; [congruence|simpl; lia]. }
  destruct (binCount_positive Hn) as [k [Hk Hk20]].
  unfold createHistogram. cbv zeta. fold values.
  rewrite Hlo, Hhi, Hk. unfold Array_init.
  assert (Hidx : toIndex (of_nat k) = Some k) by now apply toIndex_Fin.
  rewrite Hidx. cbn [bind].
  set (bins0 := map _ (seq 0 k)).
  assert (Hlen0 : List.length bins0 = k).
  { unfold bins0. now rewrite length_map, length_seq. }
  destruct (incrementBins_succeed
              (fun value => min2 (Math_floor ((value - Fin lo)
                                              / ((Fin hi - Fin lo) / of_nat k)))
                              (of_nat k - Fin 1))%num values bins0)
    as [bins Hbins].
  { intros v Hv. rewrite Hlen0.
    assert (Fv : finite v).
    { rewrite Forall_forall in Hfin. now apply Hfin. }
    destruct v as [| | |qv]; try discriminate.
    apply binIndex_in_range; [assumption| |lia].
    now apply Hbound. }
  exists bins. split; [exact Hbins|].
  apply incrementBins_total in Hbins as [Ht Hl].
  rewrite Ht, Hl, Hlen0. split; [|lia].
  unfold bins0. rewrite binTotal_sum, map_map. cbn [bin_count].
  assert (H0 : forall l : list nat, list_sum (map (fun _ => 0) l) = 0).
  { induction l as [|x l IH]; simpl; auto. }
  now rewrite H0.
Qed.

(* ------------------------------------------------------------------ *)
(** ** The engine's state: the empty dataset and the cached profile *)

(** An engine without rows and without a profile: each of the three
    methods throws [No data to analyze] and leaves the engine as it
    was. *)
Theorem empty_dataset_throws (e : Engine) (reply : Narrative) :
  data e = [] -> profile e = None ->
  profileData e = (Throw (Error "No data to analyze"), e)
  /\ generateChartRecommendations e = (Throw (Error "No data to analyze"), e)
  /\ generateAIInsights e reply = (Throw (Error "No data to analyze"), e).
Proof.
  intros Hd Hp.
  assert (H : profileData e = (Throw (Error "No data to analyze"), e)).
  { unfold profileData. now rewrite Hd. }
  split; [exact H|].
  unfold generateChartRecommendations, generateAIInsights, ensureProfile.
  rewrite Hp, H. split; reflexivity.
Qed.

(** With rows, the first call computes the profile and keeps it; a
    second call for recommendations returns what the first returned, and
    no later call for recommendations or insights changes the engine. *)
Theorem profile_is_cached (e : Engine) :
  data e <> [] ->
  let e1 := snd (generateChartRecommendations e) in
  (exists p, profile e1 = Some p /\ fst (ensureProfile e) = Ok p)
  /\ data e1 = data e
  /\ generateChartRecommendations e1
     = (fst (generateChartRecommendations e), e1)
  /\ forall reply, snd (generateAIInsights e1 reply) = e1.
Proof.
  intro Hne.
  destruct (ensureProfile_ok e Hne) as [p [e1 [Hprof [Hp Hd]]]].
  assert (Hagain : ensureProfile e1 = (Ok p, e1)).
  { unfold ensureProfile. now rewrite Hp. }
  assert (Hsnd : snd (generateChartRecommendations e) = e1).
  { unfold generateChartRecommendations. now rewrite Hprof. }
  assert (Hfst : fst (generateChartRecommendations e)
                 = fst (generateChartRecommendations e1)).
  { unfold generateChartRecommendations. now rewrite Hprof, Hagain. }
  cbv zeta. rewrite Hsnd, Hfst.
  split; [exists p; split; [assumption|now rewrite Hprof]|].
  split; [assumption|]. split.
  - unfold generateChartRecommendations. now rewrite Hagain.
  - intro reply. unfold generateAIInsights. now rewrite Hagain.
Qed.

(* ------------------------------------------------------------------ *)
(** ** Invariants of a column's profile *)

Lemma Set_of_length (values : list Value) :
  forall seen,
    List.length seen <= List.length (Set_of values seen)
    /\ List.length (Set_of values seen)
       <= List.length seen + List.length values.
Proof.
  induction values as [|v values IH]; intro seen; simpl; [lia|].
  destruct (existsb (sameValueZeroV v) seen).
  - destruct (IH seen). lia.
  - destruct (IH (seen ++ [v])) as [H1 H2]. rewrite length_app in *.
    simpl in *. lia.
Qed.

Lemma Set_size_le_length (values : list Value) :
  Set_size values <= List.length values.
Proof. unfold Set_size. destruct (Set_of_length values []). simpl in *. lia. Qed.

Lemma Set_size_nonempty (v : Value) (values : list Value) :
  1 <= Set_size (v :: values).
Proof.
  unfold Set_size. simpl.
  destruct (Set_of_length values [v]). simpl in *. lia.
Qed.

(** The counts of a column: null cells and non-null values make up the
    rows, distinct values are among the non-null ones, there is a distinct
    value as soon as there is a non-null one, and at most ten samples,
    none of them null. *)
Theorem profileColumn_counts (rows : list Row) (colName : string) :
  let col := profileColumn rows colName in
  let present :=
    filter isPresent (map (fun row => getField row colName) rows) in
  nullCount col + List.length present = List.length rows
  /\ uniqueValues col <= List.length present
  /\ (present <> [] -> 1 <= uniqueValues col)
  /\ sampleValues col = firstn 10 present
  /\ List.length (sampleValues col) <= 10
  /\ Forall (fun v => isPresent v = true) (sampleValues col).
Proof.
  cbv zeta. unfold profileColumn. cbv zeta.
  cbn [nullCount uniqueValues sampleValues].
  set (present := filter isPresent _).
  assert (Hle : List.length present <= List.length rows).
  { unfold present. etransitivity; [apply filter_length_le|].
    now rewrite length_map. }
  split; [lia|]. split; [apply Set_size_le_length|]. split.
  - destruct present as [|v rest]; [congruence|].
    intros _. apply Set_size_nonempty.
  - split; [reflexivity|]. split; [apply firstn_le_length|].
    apply Forall_firstn. apply Forall_forall. intros v Hv.
    unfold present in Hv. now apply filter_In in Hv.
Qed.

(** A column inferred numeric has a value that is a number. *)
Lemma detectColumnType_Numeric (values : list Value) :
  detectColumnType values = Numeric ->
  exists v, In v values /\ isNumericLike v = true.
Proof.
  unfold detectColumnType.
  destruct (Nat.eqb (List.length values) 0); [discriminate|].
  cbv zeta. rewrite !count_exceeds_share, unique_within_half.
  destruct (moreThan80 (List.length (filter isBooleanLike values)) _);
    [discriminate|].
  destruct (moreThan80 (List.length (filter isNumericLike values)) _) eqn:Hn.
  - intros _. unfold moreThan80 in Hn. apply Nat.ltb_lt in Hn.
    destruct (filter isNumericLike values) as [|v rest] eqn:Hf;
      [simpl in Hn; lia|].
    exists v. apply filter_In. rewrite Hf. now left.
  - destruct (moreThan80 (List.length (filter isDateLike values)) _);
      [discriminate|].
    destruct (_ && _); discriminate.
Qed.

(** The five order statistics of a non-empty sequence are all there:
    no slot of the sorted copy is read past its end. *)
Lemma calculateStatistics_defined (values : list num) :
  values <> [] ->
  let s := calculateStatistics values in
  stat_min s <> None /\ stat_q1 s <> None /\ stat_median s <> None
  /\ stat_q3 s <> None /\ stat_max s <> None.
Proof.
  intro Hne. unfold calculateStatistics. cbv zeta.
  set (sorted := Array_sort (fun a b => a - b)%num values).
  assert (Hlen : List.length sorted = List.length values)
    by apply Array_sort_length.
  set (n := List.length sorted) in *.
  assert (Hn : 1 <= n).
  { rewrite Hlen. destruct values; [congruence|simpl; lia]. }
  cbn [stat_min stat_q1 stat_median stat_q3 stat_max].
  rewrite index_first, index_quarter, index_three_quarters, (index_last _ Hn).
  pose proof (Nat.div_mod_eq n 4) as H4.
  pose proof (Nat.mod_upper_bound n 4 ltac:(lia)) as H4'.
  pose proof (Nat.div_mod_eq (3 * n) 4) as H34.
  pose proof (Nat.mod_upper_bound (3 * n) 4 ltac:(lia)) as H34'.
  pose proof (Nat.div_mod_eq n 2) as H2.
  pose proof (Nat.mod_upper_bound n 2 ltac:(lia)) as H2'.
  assert (Hsome : forall k, k < n -> nth_error sorted k <> None).
  { intros k Hk. apply nth_error_Some. exact Hk. }
  repeat split; try (apply Hsome; lia).
  destruct (Nat.eqb (n mod 2) 0); [discriminate|].
  rewrite index_half_floor. apply Hsome. lia.
Qed.

(** [stats] is present exactly on the columns inferred numeric, and then
    with all of min, q1, median, q3 and max defined; [distribution] is
    present exactly on the categorical columns of at most 20 distinct
    values. *)
Theorem profileColumn_stats_iff_numeric (rows : list Row) (colName : string) :
  let col := profileColumn rows colName in
  (type col = Numeric <-> stats col <> None)
  /\ (forall s, stats col = Some s ->
        stat_min s <> None /\ stat_q1 s <> None /\ stat_median s <> None
        /\ stat_q3 s <> None /\ stat_max s <> None)
  /\ (type col = Categorical /\ uniqueValues col <= 20
      <-> distribution col <> None).
Proof.
  cbv zeta. unfold profileColumn. cbv zeta.
  cbn [type stats distribution uniqueValues].
  set (values := filter isPresent _).
  set (numericValues := filter (fun v => negb (isNaN v)) (map ToNumber values)).
  assert (Hnum : detectColumnType values = Numeric -> numericValues <> []).
  { intro Ht. apply detectColumnType_Numeric in Ht as [v [Hin Hv]].
    unfold isNumericLike in Hv. rewrite !andb_true_iff in Hv.
    destruct Hv as [[Hv _] _].
    assert (Hin' : In (ToNumber v) numericValues).
    { apply filter_In. split; [now apply in_map|assumption]. }
    intro Hnil. now rewrite Hnil in Hin'. }
  split; [|split].
  - split.
    + intro Ht. rewrite Ht. specialize (Hnum Ht).
      destruct numericValues; [congruence|]. discriminate.
    + destruct (detectColumnType values); congruence.
  - intros s Hs. destruct (detectColumnType values); try discriminate.
    destruct (Nat.ltb 0 (List.length numericValues)) eqn:Hlen;
      [|discriminate].
    injection Hs as <-. apply calculateStatistics_defined.
    apply Nat.ltb_lt in Hlen. intro Hnil. rewrite Hnil in Hlen.
    simpl in Hlen. lia.
  - split.
    + intros [Ht Hu]. rewrite Ht. apply Nat.leb_le in Hu. rewrite Hu.
      discriminate.
    + destruct (detectColumnType values); try congruence.
      destruct (Nat.leb (Set_size values) 20) eqn:Hu; [|congruence].
      intros _. split; [reflexivity|now apply Nat.leb_le].
Qed.

(* ------------------------------------------------------------------ *)
(** ** Completeness *)

Lemma nullCells_bound (rows : list Row) (cols : list DataColumn) :
  Forall (fun col => nullCount col <= List.length rows) cols ->
  fold_left (fun acc col => acc + nullCount col) cols 0
  <= List.length rows * List.length cols.
Proof.
  intro H.
  assert (Hacc : forall a,
            fold_left (fun acc col => acc + nullCount col) cols a
            <= a + List.length rows * List.length cols).
  { induction H as [|col cols Hc Hcols IH]; intro a; simpl; [lia|].
    specialize (IH (a + nullCount col)). lia. }
  apply (Hacc 0).
Qed.

Lemma calculateCompleteness_range (rows : list Row) (cols : list DataColumn) :
  rows <> [] ->
  Forall (fun col => nullCount col <= List.length rows) cols ->
  match cols with
  | [] => calculateCompleteness rows cols = NaN
  | _ :: _ =>
      exists q, calculateCompleteness rows cols = Fin q /\ (0 <= q <= 1)%Q
  end.
Proof.
  intros Hrows Hnull. unfold calculateCompleteness. cbv zeta.
  pose proof (@nullCells_bound rows cols Hnull) as Hbound.
  destruct cols as [|col cols'] eqn:Hcols.
  - simpl. rewrite Nat.mul_0_r. reflexivity.
  - rewrite <- Hcols in *.
    set (total := List.length rows * List.length cols) in *.
    set (nulls := fold_left _ cols 0) in *.
    assert (Htotal : 1 <= total).
    { unfold total. rewrite Hcols. destruct rows; [congruence|]. simpl. lia. }
    destruct (nsub_Fin_val (inject_Z (Z.of_nat total)) (inject_Z (Z.of_nat nulls)))
      as [d [Hd Hd']].
    unfold of_nat, of_Z. rewrite Hd.
    assert (Ht0 : ~ (inject_Z (Z.of_nat total) == 0)%Q).
    { unfold Qeq; simpl. lia. }
    destruct (ndiv_Fin_val d Ht0) as [q [-> Hq]].
    exists q. split; [reflexivity|].
    assert (Htpos : (0 < inject_Z (Z.of_nat total))%Q).
    { unfold Qlt; simpl. lia. }
    rewrite Hq, Hd'. split.
    + apply Qle_shift_div_l; [assumption|]. rewrite Qmult_0_l.
      unfold Qle, Qminus, Qplus, Qopp, inject_Z; simpl. lia.
    + apply Qle_shift_div_r; [assumption|]. rewrite Qmult_1_l.
      unfold Qle, Qminus, Qplus, Qopp, inject_Z; simpl. lia.
Qed.

(** In the profile of a dataset every column has at most as many distinct
    values as non-null cells, and the completeness is a fraction between 0
    and 1; when the first record has no field there is no column and the
    completeness is 0/0, [NaN]. *)
Theorem profileData_completeness (row0 : Row) (rest : list Row) :
  exists p e,
    profileData (newEngine (row0 :: rest)) = (Ok p, e)
    /\ totalRows p = S (List.length rest)
    /\ Forall (fun col => uniqueValues col + nullCount col <= totalRows p)
         (columns p)
    /\ match Object_keys row0 with
       | [] => completeness (dataQuality p) = NaN
       | _ :: _ =>
           exists q,
             completeness (dataQuality p) = Fin q /\ (0 <= q <= 1)%Q
       end.
Proof.
  eexists. eexists. split; [apply profileData_newEngine|].
  cbn [totalRows columns dataQuality completeness].
  split; [reflexivity|].
  set (rows := row0 :: rest).
  assert (Hcols : Forall (fun col => uniqueValues col + nullCount col
                                     <= List.length rows)
                    (map (profileColumn rows) (Object_keys row0))).
  { apply Forall_forall. intros col Hin.
    apply in_map_iff in Hin as [c [<- _]].
    unfold profileColumn. cbv zeta. cbn [uniqueValues nullCount].
    set (present := filter isPresent _).
    pose proof (Set_size_le_length present).
    assert (List.length present <= List.length rows).
    { unfold present. etransitivity; [apply filter_length_le|].
      now rewrite length_map. }
    lia. }
  split; [exact Hcols|].
  assert (Hrange := @calculateCompleteness_range rows
                      (map (profileColumn rows) (Object_keys row0))).
  destruct (Object_keys row0) as [|k ks]; simpl map in *.
  - apply Hrange; [discriminate|constructor].
  - apply Hrange; [discriminate|].
    eapply Forall_impl; [|exact Hcols]. cbv beta. intros; lia.
Qed.

(* ------------------------------------------------------------------ *)
(** ** Type inference on a column of one repeated value *)

Lemma sameValueZeroV_refl (v : Value) : sameValueZeroV v v = true.
Proof.
  destruct v as [| |b|n|s]; simpl; auto.
  - now destruct b.
  - destruct n; simpl; auto. apply Qeq_bool_iff. reflexivity.
  - apply String.eqb_refl.
Qed.

Lemma Set_of_repeat (v : Value) (n : nat) :
  Set_of (repeat v n) [v] = [v].
Proof.
  induction n as [|n IH]; [reflexivity|]. simpl.
  now rewrite sameValueZeroV_refl.
Qed.

Lemma filter_repeat_false {A} (f : A -> bool) (x : A) (n : nat) :
  f x = false -> filter f (repeat x n) = [].
Proof. intro H. induction n as [|n IH]; simpl; [|rewrite H]; auto. Qed.

(** A column that repeats one value which is neither boolean-like nor a
    number nor a date (the same word in every row) is categorical as soon
    as it has two rows, and text when it has one. *)
Theorem detectColumnType_repeated_value (v : Value) (n : nat) :
  isBooleanLike v = false -> isNumericLike v = false -> isDateLike v = false ->
  detectColumnType (repeat v n)
  = if Nat.leb 2 n then Categorical else Text.
Proof.
  intros Hb Hn Hd. unfold detectColumnType.
  rewrite repeat_length.
  destruct n as [|n]; [reflexivity|].
  change (Nat.eqb (S n) 0) with false. cbv iota zeta.
  rewrite !filter_repeat_false by assumption.
  rewrite !count_exceeds_share, unique_within_half.
  unfold moreThan80. simpl List.length.
  replace (Nat.ltb (4 * S n) (5 * 0)) with false
    by (symmetry; apply Nat.ltb_ge; lia).
  unfold Set_size. simpl repeat. simpl Set_of. rewrite Set_of_repeat.
  simpl List.length.
  destruct n as [|n]; [reflexivity|].
  replace (Nat.leb (2 * 1) (S (S n))) with true
    by (symmetry; apply Nat.leb_le; lia).
  reflexivity.
Qed.

(* ------------------------------------------------------------------ *)
(** ** Duplicate rows: bounds *)

Lemma JSONScalar_eqb_refl (a : JSONScalar) : JSONScalar_eqb a a = true.
Proof.
  destruct a; simpl; auto.
  - now destruct b.
  - apply Qeq_bool_iff. reflexivity.
  - apply String.eqb_refl.
Qed.

Lemma JSON_eqb_refl (a : list (string * JSONScalar)) : JSON_eqb a a = true.
Proof.
  induction a as [|[k x] a IH]; simpl; [reflexivity|].
  now rewrite String.eqb_refl, JSONScalar_eqb_refl, IH.
Qed.

Lemma findDuplicateRows_from_seen (rows : list Row) :
  forall seen duplicates, exists seen' : list (list (string * JSONScalar)),
    findDuplicateRows_from rows seen duplicates + List.length seen'
    = duplicates + List.length seen + List.length rows
    /\ List.length seen <= List.length seen'
    /\ (seen = [] -> rows <> [] -> seen' <> []).
Proof.
  induction rows as [|row rest IH]; intros seen d; simpl.
  - exists seen. split; [lia|]. split; [lia|congruence].
  - destruct (existsb (JSON_eqb (JSON_stringify row)) seen) eqn:Hdup.
    + destruct (IH seen (S d)) as [seen' [Hsum [Hlen Hne]]].
      exists seen'. split; [lia|]. split; [assumption|].
      intros -> _. discriminate.
    + destruct (IH (JSON_stringify row :: seen) d) as [seen' [Hsum [Hlen _]]].
      exists seen'. simpl in *. split; [lia|]. split; [lia|].
      intros _ _ Hnil. rewrite Hnil in Hlen. simpl in Hlen. lia.
Qed.

(** In a dataset with rows fewer rows are duplicates than there are rows:
    the first row is never one.  A dataset that repeats one row [n + 1]
    times has [n] duplicates. *)
Theorem findDuplicateRows_bounds :
  (forall rows, rows <> [] -> findDuplicateRows rows < List.length rows)
  /\ (forall row n, findDuplicateRows (repeat row (S n)) = n).
Proof.
  split.
  - intros rows Hne. unfold findDuplicateRows.
    destruct (findDuplicateRows_from_seen rows [] 0) as [seen' [Hsum [_ Hs]]].
    specialize (Hs eq_refl Hne).
    destruct seen'; [congruence|]. simpl in *. lia.
  - intros row n. unfold findDuplicateRows. simpl.
    assert (H : forall m d,
              findDuplicateRows_from (repeat row m) [JSON_stringify row] d
              = d + m).
    { induction m as [|m IH]; intro d; simpl; [lia|].
      rewrite JSON_eqb_refl. simpl. rewrite IH. lia. }
    now rewrite H.
Qed.

(* ------------------------------------------------------------------ *)
(** ** Correlation *)

Lemma nmul_comm (x y : num) : (x * y)%num = (y * x)%num.
Proof.
  destruct x as [| | |a], y as [| | |b]; try reflexivity.
  unfold nmul, fin. f_equal. apply Qred_complete. apply Qmult_comm.
Qed.

Lemma skipn_nth_error {A} (l : list A) :
  forall i, i < List.length l ->
    exists x, nth_error l i = Some x /\ skipn i l = x :: skipn (S i) l.
Proof.
  induction l as [|y l IH]; intros i Hi; simpl in Hi; [lia|].
  destruct i as [|i].
  - exists y. split; reflexivity.
  - destruct (IH i ltac:(lia)) as [x [Hx Hs]]. exists x. split; [exact Hx|].
    simpl. exact Hs.
Qed.

(** The sum of products that [pearsonCorrelation] takes by index is the
    sum over the pairs. *)
Lemma reduce_products (y : list num) (l : list num) :
  forall i acc, List.length l + i <= List.length y ->
    reduce_from (fun acc xi j => acc + xi * numOf (nth_error y j))%num l i acc
    = fold_left (fun acc ab => acc + fst ab * snd ab)%num
        (combine l (skipn i y)) acc.
Proof.
  induction l as [|x l IH]; intros i acc Hlen; [reflexivity|].
  simpl in Hlen.
  destruct (skipn_nth_error y (i := i) ltac:(lia)) as [yi [Hyi Hskip]].
  cbn [reduce_from]. rewrite Hskip, Hyi. cbn [combine fold_left fst snd numOf].
  apply IH. lia.
Qed.

Lemma fold_products_swap (a : list num) :
  forall b acc,
    fold_left (fun acc ab => acc + fst ab * snd ab)%num (combine a b) acc
    = fold_left (fun acc ab => acc + fst ab * snd ab)%num (combine b a) acc.
Proof.
  induction a as [|x a IH]; intros [|y b] acc; try reflexivity.
  cbn [combine fold_left fst snd]. rewrite (nmul_comm x y). apply IH.
Qed.

Lemma sumXY_swap (x y : list num) :
  let n := Nat.min (List.length x) (List.length y) in
  Array_reduce_i (fun acc xi i => acc + xi * numOf (nth_error y i))%num
    (firstn n x) zero
  = Array_reduce_i (fun acc yi i => acc + yi * numOf (nth_error x i))%num
      (firstn n y) zero.
Proof.
  cbv zeta. unfold Array_reduce_i.
  set (n := Nat.min (List.length x) (List.length y)).
  assert (Hx : List.length (firstn n x) = n).
  { rewrite length_firstn. unfold n. lia. }
  assert (Hy : List.length (firstn n y) = n).
  { rewrite length_firstn. unfold n. lia. }
  rewrite !reduce_products by (rewrite ?Hx, ?Hy; unfold n; lia).
  cbn [skipn].
  rewrite (combine_firstn_l (firstn n x) y), Hx.
  rewrite (combine_firstn_l (firstn n y) x), Hy.
  apply fold_products_swap.
Qed.

(** The correlation does not depend on the order of the two columns. *)
Theorem pearsonCorrelation_symmetric (x y : list num) :
  pearsonCorrelation x y = pearsonCorrelation y x.
Proof.
  unfold pearsonCorrelation. cbv zeta.
  rewrite (Nat.min_comm (List.length y) (List.length x)).
  set (n := Nat.min (List.length x) (List.length y)).
  destruct (Nat.eqb n 0); [reflexivity|].
  pose proof (sumXY_swap x y) as Hxy. cbv zeta in Hxy. fold n in Hxy.
  rewrite Hxy.
  rewrite (nmul_comm (sumNum (firstn n x)) (sumNum (firstn n y))).
  set (A := (of_nat n * fold_left (fun acc xi => acc + xi * xi) (firstn n x) zero
             - sumNum (firstn n x) * sumNum (firstn n x))%num).
  set (B := (of_nat n * fold_left (fun acc yi => acc + yi * yi) (firstn n y) zero
             - sumNum (firstn n y) * sumNum (firstn n y))%num).
  now rewrite (nmul_comm A B).
Qed.

Lemma pairs_length {A} (l : list A) :
  2 * List.length (pairs l) = List.length l * (List.length l - 1).
Proof.
  induction l as [|x l IH]; [reflexivity|].
  cbn [pairs]. rewrite length_app, length_map. cbn [List.length].
  destruct l as [|y l']; [reflexivity|].
  cbn [List.length] in *. nia.
Qed.

Lemma flat_map_length_le {A B} (f : A -> list B) (l : list A) :
  (forall x, In x l -> List.length (f x) <= 1) ->
  List.length (flat_map f l) <= List.length l.
Proof.
  induction l as [|x l IH]; intro H; simpl; [lia|].
  rewrite length_app. specialize (H x (or_introl eq_refl)) as Hx.
  assert (List.length (flat_map f l) <= List.length l).
  { apply IH. intros y Hy. apply H. now right. }
  lia.
Qed.

Lemma flat_map_length_eq {A B} (f : A -> list B) (l : list A) :
  (forall x, In x l -> List.length (f x) = 1) ->
  List.length (flat_map f l) = List.length l.
Proof.
  induction l as [|x l IH]; intro H; simpl; [lia|].
  rewrite length_app, (H x (or_introl eq_refl)), IH; [reflexivity|].
  intros y Hy. apply H. now right.
Qed.

(** The correlations of [n] numeric columns: at most n (n - 1) / 2
    entries, exactly that many when every column has two numbers; each
    entry names two of the columns, holds their Pearson correlation, and
    its strength is the band of the correlation's magnitude. *)
Theorem calculateCorrelations_entries (rows : list Row) (cols : list DataColumn) :
  2 * List.length (calculateCorrelations rows cols)
  <= List.length cols * (List.length cols - 1)
  /\ ((forall c, In c cols -> 2 <= List.length (numbersOf rows (name c))) ->
      2 * List.length (calculateCorrelations rows cols)
      = List.length cols * (List.length cols - 1))
  /\ forall corr, In corr (calculateCorrelations rows cols) ->
       exists c1 c2,
         In c1 cols /\ In c2 cols
         /\ col1 corr = name c1 /\ col2 corr = name c2
         /\ 2 <= List.length (numbersOf rows (name c1))
         /\ 2 <= List.length (numbersOf rows (name c2))
         /\ correlation corr
            = pearsonCorrelation (numbersOf rows (name c1))
                (numbersOf rows (name c2))
         /\ strength corr = strengthOf (Math_abs (correlation corr)).
Proof.
  unfold calculateCorrelations. split; [|split].
  - rewrite <- pairs_length.
    apply Nat.mul_le_mono_l. apply flat_map_length_le.
    intros cc _. cbv zeta. destruct_if; simpl; lia.
  - intro Hall. rewrite <- pairs_length. f_equal.
    apply flat_map_length_eq. intros [c1 c2] Hin.
    apply In_pairs in Hin as [H1 H2]. cbv zeta. cbn [fst snd].
    pose proof (Hall _ H1) as L1. pose proof (Hall _ H2) as L2.
    apply Nat.ltb_lt in L1, L2. now rewrite L1, L2.
  - intros corr Hin. apply in_flat_map in Hin as [[c1 c2] [Hpair Hin]].
    apply In_pairs in Hpair as [H1 H2]. cbv zeta in Hin. cbn [fst snd] in Hin.
    destruct (Nat.ltb 1 (List.length (numbersOf rows (name c1)))) eqn:L1;
      [|contradiction].
    destruct (Nat.ltb 1 (List.length (numbersOf rows (name c2)))) eqn:L2;
      [|contradiction].
    destruct Hin as [<-|[]]. apply Nat.ltb_lt in L1, L2.
    exists c1, c2. cbn [col1 col2 correlation strength].
    repeat split; auto.
Qed.

(* ------------------------------------------------------------------ *)
(** ** The order of the insights *)

Definition severityRank (s : Severity) : nat :=
  match s with High => 3 | Medium => 2 | Low => 1 end.

Definition hasSeverity (s : Severity) (i : AIInsight) : bool :=
  Nat.eqb (severityRank (severity i)) (severityRank s).

Lemma severityOrder_rank (s : Severity) :
  severityOrder s = of_nat (severityRank s).
Proof. now destruct s. Qed.

(** The final sort keeps every insight, puts higher severity first, and
    leaves insights of one severity in the order they were generated. *)
Theorem sortBySeverity_stable (insights : list AIInsight) :
  Permutation (sortBySeverity insights) insights
  /\ StronglySorted
       (fun a b => severityRank (severity b) <= severityRank (severity a))
       (sortBySeverity insights)
  /\ forall s,
       filter (hasSeverity s) (sortBySeverity insights)
       = filter (hasSeverity s) insights.
Proof.
  unfold sortBySeverity.
  set (cmp := fun a b : AIInsight =>
                (severityOrder (severity b) - severityOrder (severity a))%num).
  assert (Hcmp : forall a b,
            (cmp a b <? zero)%num
            = Nat.ltb (severityRank (severity b)) (severityRank (severity a))).
  { intros a b. unfold cmp. rewrite !severityOrder_rank. apply before_of_nat. }
  split; [apply Array_sort_perm|]. split.
  - apply StronglySorted_weaken
      with (R := fun a b => (cmp b a <? zero)%num = false).
    + intros a b. rewrite Hcmp. intro H. now apply Nat.ltb_ge in H.
    + apply (@Array_sort_sorted _ cmp (fun _ => True)).
      * intros a b _ _. rewrite !Hcmp, Nat.ltb_lt, Nat.ltb_ge. lia.
      * intros a b c _ _ _. rewrite !Hcmp, !Nat.ltb_ge. lia.
      * apply Forall_forall. auto.
  - intro s. apply Array_sort_stable.
    intros a b Ha Hb. unfold hasSeverity in *.
    apply Nat.eqb_eq in Ha, Hb. rewrite Hcmp. apply Nat.ltb_ge. lia.
Qed.

(* ------------------------------------------------------------------ *)
(** ** The lines of the narrative *)

Lemma span_app (p : ascii -> bool) (l : list ascii) :
  l = fst (span p l) ++ snd (span p l).
Proof.
  induction l as [|c l IH]; [reflexivity|].
  simpl. destruct (p c); [|reflexivity].
  destruct (span p l) as [a b]. simpl in *. now f_equal.
Qed.

Lemma span_stops (p : ascii -> bool) (l : list ascii) c rest :
  snd (span p l) = c :: rest -> p c = false.
Proof.
  induction l as [|d l IH]; [discriminate|].
  simpl. destruct (p d) eqn:Hd.
  - destruct (span p l) as [a b]. simpl in *. exact IH.
  - simpl. intro H. now inversion H; subst.
Qed.

Lemma indexOf_None (k : nat) (l : list ascii) :
  indexOf k l = None <-> existsb (isChar k) l = false.
Proof.
  induction l as [|c l IH]; [now split|].
  simpl. destruct (isChar k c); simpl; [now split|].
  destruct (indexOf k l); [|tauto].
  split; [discriminate|]. intro H. apply IH in H. discriminate.
Qed.

Lemma existsb_app_r (p : ascii -> bool) (a b : list ascii) :
  existsb p b = true -> existsb p (a ++ b) = true.
Proof. intro H. rewrite existsb_app, H. apply orb_true_r. Qed.

Lemma matchAfterBracket_colon (r t : list ascii) :
  matchAfterBracket r = Some t -> existsb (isChar 58) r = true.
Proof.
  unfold matchAfterBracket.
  pose proof (span_app isSpace r) as Hr.
  destruct (span isSpace r) as [ws r1]. cbn [fst snd] in Hr.
  pose proof (span_app (fun c => negb (isChar 58 c)) r1) as Hr1.
  pose proof (span_stops (fun c => negb (isChar 58 c)) r1) as Hstop.
  destruct (span (fun c => negb (isChar 58 c)) r1) as [t' r2].
  cbn [fst snd] in Hr1, Hstop.
  destruct r2 as [|c r3]; [discriminate|]. intros _.
  specialize (Hstop c r3 eq_refl). apply negb_false_iff in Hstop.
  subst r r1. apply existsb_app_r, existsb_app_r. simpl. now rewrite Hstop.
Qed.

Lemma matchAtBracket_colon (r t : list ascii) :
  matchAtBracket r = Some t -> existsb (isChar 58) r = true.
Proof.
  unfold matchAtBracket.
  pose proof (span_app isWordChar r) as Hr.
  destruct (span isWordChar r) as [w r0]. cbn [fst snd] in Hr.
  destruct w as [|w0 w]; [discriminate|].
  destruct r0 as [|c r1]; [discriminate|].
  destruct (isChar 93 c); [|discriminate].
  intro H. apply matchAfterBracket_colon in H.
  subst r. apply existsb_app_r. simpl. rewrite H. apply orb_true_r.
Qed.

Lemma matchBracket_colon (line t : list ascii) :
  matchBracket line = Some t -> existsb (isChar 58) line = true.
Proof.
  induction line as [|c rest IH]; [discriminate|].
  simpl. intro H.
  assert (existsb (isChar 58) rest = true) as ->; [|apply orb_true_r].
  destruct (isChar 91 c); [|auto].
  destruct (matchAtBracket rest) eqn:Hat; [|auto].
  eapply matchAtBracket_colon; eauto.
Qed.

Lemma isDigit_not_colon (c : ascii) : isDigit c = true -> isChar 58 c = false.
Proof.
  unfold isDigit, isChar. cbv zeta. intro H.
  apply andb_true_iff in H as [_ H]. apply Nat.leb_le in H.
  apply Nat.eqb_neq. lia.
Qed.

Lemma matchesNumbered_head (line : list ascii) :
  matchesNumbered line = true ->
  exists d rest, line = d :: rest /\ isDigit d = true.
Proof.
  unfold matchesNumbered. destruct line as [|d rest]; [discriminate|].
  simpl. destruct (isDigit d) eqn:Hd; [|discriminate].
  intros _. now exists d, rest.
Qed.

(** A line of the reply gives at most one insight, and it gives one
    exactly when it starts with digits and a full stop and holds a colon;
    the insight is a business insight of medium severity. *)
Theorem parseNarrativeLine_one_insight (line : list ascii) :
  List.length (parseNarrativeLine line)
  = (if matchesNumbered line && existsb (isChar 58) line then 1 else 0)
  /\ Forall (fun i => insight_type i = BusinessInsight
                      /\ severity i = Medium /\ actionable i = true)
       (parseNarrativeLine line).
Proof.
  unfold parseNarrativeLine.
  destruct (matchesNumbered line) eqn:Hnum; [|now split].
  cbn [andb].
  destruct (matchBracket line) as [t|] eqn:Hb.
  - rewrite (matchBracket_colon _ Hb). split; [reflexivity|].
    constructor; [now repeat split|constructor].
  - destruct (indexOf 58 line) as [i|] eqn:Hi.
    + assert (existsb (isChar 58) line = true) as ->.
      { destruct (existsb (isChar 58) line) eqn:E; [reflexivity|].
        apply indexOf_None in E. congruence. }
      apply matchesNumbered_head in Hnum as (d & rest & -> & Hd).
      simpl in Hi. rewrite (isDigit_not_colon _ Hd) in Hi.
      destruct (indexOf 58 rest); [|discriminate].
      inversion Hi; subst i. cbn [Nat.ltb Nat.leb]. split; [reflexivity|].
      constructor; [now repeat split|constructor].
    + apply indexOf_None in Hi. rewrite Hi. now split.
Qed.

(* ------------------------------------------------------------------ *)
(** ** Grouping rows by category *)

(** The values stored under [k]. *)
Fixpoint groupOf (k : string) (acc : list (string * list num)) : list num :=
  match acc with
  | [] => []
  | (k', vs) :: rest => if String.eqb k' k then vs else groupOf k rest
  end.

Definition groupPairs (l : list (string * num)) (acc : list (string * list num))
  : list (string * list num) :=
  fold_left (fun acc p => group_push (fst p) (snd p) acc) l acc.

Definition valuesAt (k : string) (l : list (string * num)) : list num :=
  map snd (filter (fun p => String.eqb (fst p) k) l).

Lemma groupOf_push (k c : string) (v : num) acc :
  groupOf k (group_push c v acc)
  = if String.eqb c k then groupOf k acc ++ [v] else groupOf k acc.
Proof.
  induction acc as [|[k' vs] rest IH]; simpl.
  - now destruct (String.eqb c k).
  - destruct (String.eqb_spec k' c) as [->|Hne]; simpl.
    + destruct (String.eqb c k); reflexivity.
    + destruct (String.eqb_spec k' k) as [->|Hk].
      * destruct (String.eqb_spec c k); [congruence|reflexivity].
      * exact IH.
Qed.

Ltac split_cases :=
  split; intros;
  repeat match goal with
         | H : _ \/ _ |- _ => destruct H
         | H : False |- _ => destruct H
         end;
  subst; first [congruence | solve [auto 8]].

Lemma group_push_keys (c : string) (v : num) acc (k : string) :
  In k (map fst (group_push c v acc)) <-> k = c \/ In k (map fst acc).
Proof.
  induction acc as [|[k' vs] rest IH]; simpl.
  - split_cases.
  - destruct (String.eqb_spec k' c) as [->|Hne]; simpl; [split_cases|].
    rewrite IH. split_cases.
Qed.

Lemma group_push_NoDup (c : string) (v : num) acc :
  NoDup (map fst acc) -> NoDup (map fst (group_push c v acc)).
Proof.
  induction acc as [|[k' vs] rest IH]; simpl; intro H.
  - constructor; [intros []|constructor].
  - destruct (String.eqb_spec k' c) as [->|Hne]; simpl; [exact H|].
    inversion H; subst. constructor; [|auto].
    rewrite group_push_keys. intros [->|Hin]; [congruence|contradiction].
Qed.

Lemma group_push_nonempty (c : string) (v : num) acc :
  Forall (fun e => snd e <> []) acc ->
  Forall (fun e : string * list num => snd e <> []) (group_push c v acc).
Proof.
  induction acc as [|[k' vs] rest IH]; simpl; intro H.
  - constructor; [discriminate|constructor].
  - inversion H; subst.
    destruct (String.eqb k' c); constructor; auto.
    simpl. now destruct vs.
Qed.

Lemma groupOf_In (k : string) (vs : list num) acc :
  NoDup (map fst acc) -> In (k, vs) acc -> groupOf k acc = vs.
Proof.
  induction acc as [|[k' vs'] rest IH]; simpl; [intros _ []|].
  intros Hnd [Heq|Hin].
  - inversion Heq; subst. now rewrite String.eqb_refl.
  - inversion Hnd; subst.
    destruct (String.eqb_spec k' k) as [->|Hne]; [|auto].
    exfalso. apply H1. now apply (in_map fst) in Hin.
Qed.

Lemma groupPairs_groupOf (k : string) l acc :
  groupOf k (groupPairs l acc) = groupOf k acc ++ valuesAt k l.
Proof.
  revert acc. induction l as [|[c v] l IH]; intro acc; simpl.
  - now rewrite app_nil_r.
  - unfold groupPairs in *. simpl. rewrite IH, groupOf_push.
    unfold valuesAt. simpl.
    destruct (String.eqb c k); simpl; [now rewrite <- app_assoc|reflexivity].
Qed.

Lemma groupPairs_keys (k : string) l acc :
  In k (map fst (groupPairs l acc)) <-> In k (map fst l) \/ In k (map fst acc).
Proof.
  revert acc. induction l as [|[c v] l IH]; intro acc; simpl.
  - split_cases.
  - unfold groupPairs in *. simpl. rewrite IH, group_push_keys.
    split_cases.
Qed.

Lemma groupPairs_NoDup l acc :
  NoDup (map fst acc) -> NoDup (map fst (groupPairs l acc)).
Proof.
  revert acc. induction l as [|[c v] l IH]; intros acc H; simpl; [exact H|].
  apply IH. now apply group_push_NoDup.
Qed.

Lemma groupPairs_nonempty l acc :
  Forall (fun e => snd e <> []) acc ->
  Forall (fun e : string * list num => snd e <> []) (groupPairs l acc).
Proof.
  revert acc. induction l as [|[c v] l IH]; intros acc H; simpl; [exact H|].
  apply IH. now apply group_push_nonempty.
Qed.

Definition groupTotal (acc : list (string * list num)) : nat :=
  list_sum (map (fun e => List.length (snd e)) acc).

Lemma group_push_total (c : string) (v : num) acc :
  groupTotal (group_push c v acc) = S (groupTotal acc).
Proof.
  unfold groupTotal. induction acc as [|[k' vs] rest IH]; simpl; [reflexivity|].
  destruct (String.eqb k' c); simpl.
  - rewrite length_app. simpl. lia.
  - rewrite IH. lia.
Qed.

Lemma groupPairs_total l acc :
  groupTotal (groupPairs l acc) = groupTotal acc + List.length l.
Proof.
  revert acc. induction l as [|[c v] l IH]; intro acc; simpl; [lia|].
  unfold groupPairs in *. simpl. rewrite IH, group_push_total. lia.
Qed.

(** What the two grouping loops build. *)
Lemma heatmap_groups (rows : list Row) (categoryColumn valueColumn : string) acc :
  fold_left (fun acc row =>
    group_push (categoryOf row categoryColumn)
      (numberOrZero (getField row valueColumn)) acc) rows acc
  = groupPairs
      (map (fun row => (categoryOf row categoryColumn,
                        numberOrZero (getField row valueColumn))) rows) acc.
Proof.
  revert acc. induction rows as [|row rows IH]; intro acc; [reflexivity|].
  simpl. now rewrite IH.
Qed.

Lemma boxplot_groups (rows : list Row) (categoryColumn valueColumn : string) acc :
  fold_left (fun acc row =>
    let value := ToNumber (getField row valueColumn) in
    if negb (isNaN value)
    then group_push (categoryOf row categoryColumn) value acc
    else acc) rows acc
  = groupPairs
      (map (fun row => (categoryOf row categoryColumn,
                        ToNumber (getField row valueColumn)))
         (filter (fun row =>
                    negb (isNaN (ToNumber (getField row valueColumn)))) rows))
      acc.
Proof.
  revert acc. induction rows as [|row rows IH]; intro acc; [reflexivity|].
  simpl. rewrite IH.
  now destruct (negb (isNaN (ToNumber (getField row valueColumn)))).
Qed.

(** The heatmap has one cell per category that occurs (no category being
    a name that objects inherit): the categories of the cells are
    distinct, they are the categories of the rows, a cell counts the rows
    of its category, and the counts add up to the number of rows. *)
Theorem createHeatmap_cells (rows : list Row) (categoryColumn valueColumn : string) :
  (forall row, In row rows ->
     ordinaryKey (categoryOf row categoryColumn) = true) ->
  let cells := createHeatmap rows categoryColumn valueColumn in
  NoDup (map cell_category cells)
  /\ (forall k, In k (map cell_category cells)
                <-> exists row, In row rows /\ categoryOf row categoryColumn = k)
  /\ (forall cell, In cell cells ->
        1 <= cell_count cell
        /\ cell_count cell
           = countIf (fun row =>
                        String.eqb (categoryOf row categoryColumn)
                          (cell_category cell)) rows)
  /\ list_sum (map cell_count cells) = List.length rows.
Proof.
  intros _. cbv zeta. unfold createHeatmap. cbv zeta. rewrite heatmap_groups.
  set (l := map _ rows).
  set (groups := groupPairs l []).
  assert (Hnd : NoDup (map fst groups)) by (apply groupPairs_NoDup; constructor).
  rewrite !map_map. cbn [cell_category cell_count].
  split; [exact Hnd|]. split; [|split].
  - intro k. unfold groups. rewrite groupPairs_keys. unfold l.
    rewrite map_map. cbn [fst map]. rewrite in_map_iff. split.
    + intros [[row [Hc Hin]]|[]]. now exists row.
    + intros [row [Hin Hc]]. left. now exists row.
  - intros cell Hin. apply in_map_iff in Hin as [[k vs] [<- Hin]].
    cbn [cell_count cell_category fst snd].
    pose proof (@groupOf_In _ _ _ Hnd Hin) as Hvs.
    unfold groups in Hvs. rewrite groupPairs_groupOf in Hvs. simpl in Hvs.
    split.
    + pose proof (@groupPairs_nonempty l [] (Forall_nil _)) as Hne.
      rewrite Forall_forall in Hne. specialize (Hne _ Hin). simpl in Hne.
      destruct vs; [congruence|simpl; lia].
    + rewrite <- Hvs. unfold valuesAt, l, countIf.
      rewrite length_map. clear.
      induction rows as [|row rows IH]; [reflexivity|].
      simpl. destruct (String.eqb _ _); simpl; now rewrite IH.
  - change (groupTotal groups = List.length rows).
    unfold groups. rewrite groupPairs_total. unfold l, groupTotal.
    simpl. now rewrite length_map.
Qed.

(* ------------------------------------------------------------------ *)
(** ** Order statistics of a group *)

(** The five order statistics as [calculateStatistics] and
    [createBoxPlot] both compute them. *)
Lemma quartiles_ordered (values : list num) :
  values <> [] -> Forall finite values ->
  let sorted := Array_sort (fun a b => a - b)%num values in
  let n := List.length sorted in
  let q1 := Array_get sorted (Math_floor (of_nat n * dec 25 100))%num in
  let q3 := Array_get sorted (Math_floor (of_nat n * dec 75 100))%num in
  let median :=
    if Nat.eqb (n mod 2) 0
    then Some ((numOf (Array_get sorted (of_nat n / Fin 2 - Fin 1))
                + numOf (Array_get sorted (of_nat n / Fin 2))) / Fin 2)%num
    else Array_get sorted (Math_floor (of_nat n / Fin 2))%num in
  optLe (Array_get sorted zero) q1 = true
  /\ optLe q1 median = true
  /\ optLe median q3 = true
  /\ optLe q3 (Array_get sorted (of_nat n - Fin 1)%num) = true.
Proof.
  intros Hne Hfin. cbv zeta.
  set (sorted := Array_sort (fun a b => a - b)%num values).
  assert (Hlen : List.length sorted = List.length values)
    by apply Array_sort_length.
  set (n := List.length sorted) in *.
  assert (Hn : 1 <= n).
  { rewrite Hlen. destruct values; [congruence|simpl; lia]. }
  rewrite index_first, index_quarter, index_three_quarters, (index_last _ Hn).
  pose proof (Nat.div_mod_eq n 4) as H4.
  pose proof (Nat.mod_upper_bound n 4 ltac:(lia)) as H4'.
  pose proof (Nat.div_mod_eq (3 * n) 4) as H34.
  pose proof (Nat.mod_upper_bound (3 * n) 4 ltac:(lia)) as H34'.
  pose proof (Nat.div_mod_eq n 2) as H2.
  pose proof (Nat.mod_upper_bound n 2 ltac:(lia)) as H2'.
  destruct (sorted_nth_finite (k := 0) Hfin ltac:(lia)) as [mn Hmn].
  destruct (sorted_nth_finite (k := n / 4) Hfin ltac:(lia)) as [q1 Hq1].
  destruct (sorted_nth_finite (k := 3 * n / 4) Hfin ltac:(lia)) as [q3 Hq3].
  destruct (sorted_nth_finite (k := n - 1) Hfin ltac:(lia)) as [mx Hmx].
  destruct (sorted_nth_finite (k := n / 2) Hfin ltac:(lia)) as [hi Hhi].
  fold sorted in Hmn, Hq1, Hq3, Hmx, Hhi.
  rewrite Hmn, Hq1, Hq3, Hmx.
  assert (Hle := fun i j a b => @sorted_nth_le values i j a b Hfin).
  fold sorted in Hle.
  split; [apply (Hle 0 (n / 4)); auto; lia|].
  split; [|split; [|apply (Hle (3 * n / 4) (n - 1)); auto; lia]].
  - destruct (Nat.eqb_spec (n mod 2) 0) as [Heven|Hodd].
    + assert (2 <= n) by lia.
      destruct (sorted_nth_finite (k := n / 2 - 1) Hfin ltac:(lia)) as [lo Hlo].
      fold sorted in Hlo.
      rewrite (index_half_pred _ Heven), (index_half _ _ Heven) by assumption.
      rewrite Hlo, Hhi. simpl numOf. simpl optLe.
      assert (Hlohi : (lo <= hi)%Q).
      { apply Qle_bool_iff. rewrite <- nle_Fin.
        apply (Hle (n / 2 - 1) (n / 2)); auto; lia. }
      destruct (midpoint_between Hlohi) as [Hm _].
      assert (Hq1lo : (q1 <= lo)%Q).
      { apply Qle_bool_iff. rewrite <- nle_Fin.
        apply (Hle (n / 4) (n / 2 - 1)); auto; lia. }
      revert Hm. unfold nadd, ndiv, fin.
      change (Qeq_bool 2 0) with false; cbv iota.
      rewrite !nle_Fin, !Qle_bool_iff. intro Hm.
      eapply Qle_trans; eassumption.
    + rewrite index_half_floor, Hhi. simpl optLe.
      apply (Hle (n / 4) (n / 2)); auto; lia.
  - destruct (Nat.eqb_spec (n mod 2) 0) as [Heven|Hodd].
    + assert (2 <= n) by lia.
      destruct (sorted_nth_finite (k := n / 2 - 1) Hfin ltac:(lia)) as [lo Hlo].
      fold sorted in Hlo.
      rewrite (index_half_pred _ Heven), (index_half _ _ Heven) by assumption.
      rewrite Hlo, Hhi. simpl numOf. simpl optLe.
      assert (Hlohi : (lo <= hi)%Q).
      { apply Qle_bool_iff. rewrite <- nle_Fin.
        apply (Hle (n / 2 - 1) (n / 2)); auto; lia. }
      destruct (midpoint_between Hlohi) as [_ Hm].
      assert (Hhiq3 : (hi <= q3)%Q).
      { apply Qle_bool_iff. rewrite <- nle_Fin.
        apply (Hle (n / 2) (3 * n / 4)); auto; lia. }
      revert Hm. unfold nadd, ndiv, fin.
      change (Qeq_bool 2 0) with false; cbv iota.
      rewrite !nle_Fin, !Qle_bool_iff. intro Hm.
      eapply Qle_trans; eassumption.
    + rewrite index_half_floor, Hhi. simpl optLe.
      apply (Hle (n / 2) (3 * n / 4)); auto; lia.
Qed.

(** When every number of the value column is finite, of magnitude at
    most 10^307 (and no category is a name that objects inherit), the box
    plot has one box per category,
    the categories are distinct, and in every box
    min <= q1 <= median <= q3 <= max; an outlier of a box is one of the
    numbers of the column. *)
Theorem createBoxPlot_boxes (rows : list Row) (categoryColumn valueColumn : string) :
  (forall row, In row rows ->
     ordinaryKey (categoryOf row categoryColumn) = true) ->
  Forall (fun v => moderate v = true) (numbersOf rows valueColumn) ->
  let boxes := createBoxPlot rows categoryColumn valueColumn in
  NoDup (map box_category boxes)
  /\ List.length boxes <= List.length (numbersOf rows valueColumn)
  /\ Forall (fun b =>
       optLe (box_min b) (box_q1 b) = true
       /\ optLe (box_q1 b) (box_median b) = true
       /\ optLe (box_median b) (box_q3 b) = true
       /\ optLe (box_q3 b) (box_max b) = true
       /\ incl (box_outliers b) (numbersOf rows valueColumn)) boxes.
Proof.
  intros _ Hmoderate.
  pose proof (Forall_moderate_finite Hmoderate) as Hfin. clear Hmoderate.
  cbv zeta. unfold createBoxPlot. cbv zeta.
  rewrite boxplot_groups.
  set (l := map _ (filter _ rows)).
  set (groups := groupPairs l []).
  assert (Hl : map snd l = numbersOf rows valueColumn).
  { unfold l, numbersOf. rewrite map_map. cbn [snd]. clear.
    induction rows as [|row rows IH]; [reflexivity|].
    simpl. destruct (negb _); simpl; now rewrite IH. }
  assert (Hnd : NoDup (map fst groups)) by (apply groupPairs_NoDup; constructor).
  assert (Hne : Forall (fun e : string * list num => snd e <> []) groups).
  { apply groupPairs_nonempty. constructor. }
  assert (Hsub : forall k vs, In (k, vs) groups ->
                   incl vs (numbersOf rows valueColumn)).
  { intros k vs Hin. pose proof (@groupOf_In _ _ _ Hnd Hin) as Hvs.
    unfold groups in Hvs. rewrite groupPairs_groupOf in Hvs. simpl in Hvs.
    subst vs. rewrite <- Hl. unfold valuesAt. intros x Hx.
    apply in_map_iff in Hx as [p [<- Hp]]. apply filter_In in Hp as [Hp _].
    now apply in_map. }
  rewrite map_map, length_map. cbn [box_category].
  split; [exact Hnd|]. split.
  - rewrite <- Hl, length_map.
    pose proof (groupPairs_total l []) as Ht. fold groups in Ht.
    unfold groupTotal in Ht. simpl in Ht. rewrite <- Ht.
    clear -Hne. induction Hne as [|[k vs] g Hvs Hg IH]; simpl; [lia|].
    simpl in Hvs. destruct vs; [congruence|simpl; lia].
  - apply Forall_forall. intros b Hb.
    apply in_map_iff in Hb as [[k vs] [<- Hin]].
    cbn [box_min box_q1 box_median box_q3 box_max box_outliers fst snd].
    rewrite Forall_forall in Hne. specialize (Hne _ Hin). simpl in Hne.
    specialize (Hsub _ _ Hin).
    assert (Hvfin : Forall finite vs).
    { rewrite Forall_forall in *. auto. }
    destruct (quartiles_ordered Hne Hvfin) as (H1 & H2 & H3 & H4).
    repeat (split; [assumption|]).
    intros x Hx. apply filter_In in Hx as [Hx _].
    apply Hsub. eapply Permutation_in; [apply Array_sort_perm|exact Hx].
Qed.

(** For a non-empty sequence of finite numbers the minimum and the
    maximum of the statistics are numbers of the sequence, and every
    number of the sequence lies between them. *)
Theorem calculateStatistics_extremes (values : list num) :
  values <> [] -> Forall finite values ->
  let s := calculateStatistics values in
  exists lo hi,
    stat_min s = Some lo /\ stat_max s = Some hi
    /\ In lo values /\ In hi values
    /\ forall v, In v values ->
         (lo <=? v)%num = true /\ (v <=? hi)%num = true.
Proof.
  intros Hne Hfin. unfold calculateStatistics.
  set (sorted := Array_sort (fun a b => a - b)%num values).
  assert (Hlen : List.length sorted = List.length values)
    by apply Array_sort_length.
  set (n := List.length sorted) in *.
  assert (Hn : 1 <= n).
  { rewrite Hlen. destruct values; [congruence|simpl; lia]. }
  cbv zeta. cbn [stat_min stat_max].
  rewrite index_first, (index_last _ Hn).
  destruct (sorted_nth_finite (k := 0) Hfin ltac:(lia)) as [mn Hmn].
  destruct (sorted_nth_finite (k := n - 1) Hfin ltac:(lia)) as [mx Hmx].
  fold sorted in Hmn, Hmx.
  assert (Hperm : Permutation sorted values) by apply Array_sort_perm.
  exists (Fin mn), (Fin mx). repeat split; try assumption.
  - eapply Permutation_in; [exact Hperm|]. eapply nth_error_In; eassumption.
  - eapply Permutation_in; [exact Hperm|]. eapply nth_error_In; eassumption.
  - assert (Hv : In v sorted)
      by (eapply Permutation_in; [symmetry; exact Hperm|assumption]).
    apply In_nth_error in Hv as [j Hj].
    apply (@sorted_nth_le values 0 j (Fin mn) v Hfin); auto. lia.
  - assert (Hv : In v sorted)
      by (eapply Permutation_in; [symmetry; exact Hperm|assumption]).
    apply In_nth_error in Hv as [j Hj].
    assert (j < n) by (apply nth_error_Some; fold sorted; congruence).
    apply (@sorted_nth_le values j (n - 1) v (Fin mx) Hfin); auto. lia.
Qed.

(* ------------------------------------------------------------------ *)
(** ** Distributions and the category charts *)

Fixpoint countOf (k : string) (d : list (string * nat)) : nat :=
  match d with
  | [] => 0
  | (k', c) :: rest => if String.eqb k' k then c else countOf k rest
  end.

Lemma countOf_incr (k key : string) d :
  countOf k (distribution_incr key d)
  = if String.eqb key k then S (countOf k d) else countOf k d.
Proof.
  induction d as [|[k' c] rest IH]; simpl.
  - now destruct (String.eqb key k).
  - destruct (String.eqb_spec k' key) as [->|Hne]; simpl.
    + destruct (String.eqb key k); reflexivity.
    + destruct (String.eqb_spec k' k) as [->|Hk].
      * destruct (String.eqb_spec key k); [congruence|reflexivity].
      * exact IH.
Qed.

Lemma distribution_incr_keys (key : string) d (k : string) :
  In k (map fst (distribution_incr key d)) <-> k = key \/ In k (map fst d).
Proof.
  induction d as [|[k' c] rest IH]; simpl.
  - split_cases.
  - destruct (String.eqb_spec k' key) as [->|Hne]; simpl; [split_cases|].
    rewrite IH. split_cases.
Qed.

Lemma distribution_incr_NoDup (key : string) d :
  NoDup (map fst d) -> NoDup (map fst (distribution_incr key d)).
Proof.
  induction d as [|[k' c] rest IH]; simpl; intro H.
  - constructor; [intros []|constructor].
  - destruct (String.eqb_spec k' key) as [->|Hne]; simpl; [exact H|].
    inversion H; subst. constructor; [|auto].
    rewrite distribution_incr_keys. intros [->|Hin]; [congruence|contradiction].
Qed.

Lemma distribution_incr_sum (key : string) d :
  list_sum (map snd (distribution_incr key d)) = S (list_sum (map snd d)).
Proof.
  induction d as [|[k' c] rest IH]; simpl; [reflexivity|].
  destruct (String.eqb k' key); simpl; [reflexivity|]. rewrite IH. lia.
Qed.

Lemma countOf_In (k : string) (c : nat) d :
  NoDup (map fst d) -> In (k, c) d -> countOf k d = c.
Proof.
  induction d as [|[k' c'] rest IH]; simpl; [intros _ []|].
  intros Hnd [Heq|Hin].
  - inversion Heq; subst. now rewrite String.eqb_refl.
  - inversion Hnd; subst.
    destruct (String.eqb_spec k' k) as [->|Hne]; [|auto].
    exfalso. apply H1. now apply (in_map fst) in Hin.
Qed.

Lemma distribution_fold (values : list Value) d :
  let d' := fold_left (fun d value => distribution_incr (ToString value) d)
              values d in
  (NoDup (map fst d) -> NoDup (map fst d'))
  /\ (forall k, In k (map fst d')
                <-> In k (map ToString values) \/ In k (map fst d))
  /\ (forall k, countOf k d'
                = countOf k d
                  + countIf (fun v => String.eqb (ToString v) k) values)
  /\ list_sum (map snd d') = list_sum (map snd d) + List.length values.
Proof.
  revert d. induction values as [|v values IH]; intro d; cbv zeta; simpl.
  - unfold countIf. simpl. split; [auto|].
    split; [intro k; split; [auto|intros [[]|H]; exact H]|].
    split; [intro; lia|lia].
  - destruct (IH (distribution_incr (ToString v) d)) as (H1 & H2 & H3 & H4).
    cbv zeta in *.
    split; [intro H; now apply H1, distribution_incr_NoDup|].
    split; [intro k; rewrite H2, distribution_incr_keys; split_cases|].
    split; [|rewrite H4, distribution_incr_sum; lia].
    intro k. rewrite H3, countOf_incr. unfold countIf. simpl.
    destruct (String.eqb (ToString v) k); simpl; lia.
Qed.

(** The distribution of a column (no text of a value being a name that
    objects inherit) has one entry per distinct text of its values; an
    entry counts the values with that text, and the counts add up to the
    number of values. *)
Theorem calculateDistribution_counts (values : list Value) :
  (forall v, In v values -> ordinaryKey (ToString v) = true) ->
  let d := calculateDistribution values in
  NoDup (map fst d)
  /\ (forall k, In k (map fst d) <-> In k (map ToString values))
  /\ (forall k c, In (k, c) d ->
        1 <= c /\ c = countIf (fun v => String.eqb (ToString v) k) values)
  /\ list_sum (map snd d) = List.length values.
Proof.
  intros _. cbv zeta. unfold calculateDistribution.
  destruct (distribution_fold values []) as (H1 & H2 & H3 & H4).
  cbv zeta in *. simpl in *.
  specialize (H1 (NoDup_nil _)).
  split; [exact H1|]. split; [|split; [|exact H4]].
  - intro k. rewrite H2. split_cases.
  - intros k c Hin.
    assert (Hc : c = countIf (fun v => String.eqb (ToString v) k) values).
    { rewrite <- (@countOf_In _ _ _ H1 Hin). apply H3. }
    split; [|exact Hc].
    assert (Hk : In k (map ToString values)).
    { apply (in_map fst) in Hin. apply H2 in Hin as [Hk|[]]. exact Hk. }
    rewrite Hc. apply in_map_iff in Hk as [v [Hv Hin']].
    unfold countIf.
    assert (Hf : In v (filter (fun v => String.eqb (ToString v) k) values)).
    { apply filter_In. split; [assumption|]. rewrite Hv. apply String.eqb_refl. }
    destruct (filter _ values); [destruct Hf|simpl; lia].
Qed.

(** A category chart is drawn from the distribution of its column: a
    bar chart shows at most 15 of its entries and a pie chart at most 6,
    the most frequent first, and a pie chart is only made for a column of
    at most 8 distinct values. *)
Theorem categoricalCharts_data (cols : list DataColumn) :
  Forall (fun chart =>
    exists col d entries,
      In col cols /\ distribution col = Some d
      /\ chart_columns chart = [name col]
      /\ chart_data chart = CategoryData entries
      /\ incl entries d
      /\ StronglySorted (fun a b => snd b <= snd a) entries
      /\ match chart_type chart with
         | Bar => List.length entries = Nat.min 15 (List.length d)
         | Pie => List.length entries = Nat.min 6 (List.length d)
                  /\ uniqueValues col <= 8
         | _ => False
         end) (categoricalCharts cols).
Proof.
  unfold categoricalCharts. apply Forall_forall. intros chart Hchart.
  apply in_flat_map in Hchart as [col [Hcol Hchart]].
  revert chart Hchart. apply Forall_forall.
  destruct (distribution col) as [d|] eqn:Hd; [|constructor].
  cbv zeta.
  set (cmp := fun a b : string * nat => (of_nat (snd b) - of_nat (snd a))%num).
  assert (Hcmp : forall a b, (cmp a b <? zero)%num = Nat.ltb (snd b) (snd a)).
  { intros a b. apply before_of_nat. }
  assert (Hperm : Permutation (Array_sort cmp d) d) by apply Array_sort_perm.
  assert (Hsorted : StronglySorted (fun a b => snd b <= snd a) (Array_sort cmp d)).
  { apply StronglySorted_weaken
      with (R := fun a b => (cmp b a <? zero)%num = false).
    - intros a b. rewrite Hcmp. intro H. now apply Nat.ltb_ge in H.
    - apply (@Array_sort_sorted _ cmp (fun _ => True)).
      + intros a b _ _. rewrite !Hcmp, Nat.ltb_lt, Nat.ltb_ge. lia.
      + intros a b c _ _ _. rewrite !Hcmp, !Nat.ltb_ge. lia.
      + apply Forall_forall. auto. }
  assert (Hincl : forall n, incl (firstn n (Array_sort cmp d)) d).
  { intros n x Hx. eapply Permutation_in; [exact Hperm|].
    eapply In_firstn; eassumption. }
  assert (Hlen : List.length (Array_sort cmp d) = List.length d)
    by apply Array_sort_length.
  constructor.
  - exists col, d, (firstn 15 (Array_sort cmp d)).
    cbn [chart_columns chart_data chart_type].
    repeat split; auto.
    + now apply StronglySorted_firstn.
    + now rewrite length_firstn, Hlen.
  - destruct (Nat.leb (uniqueValues col) 8) eqn:Hu; constructor; [|constructor].
    exists col, d, (firstn 6 (firstn 15 (Array_sort cmp d))).
    cbn [chart_columns chart_data chart_type].
    repeat split; auto.
    + intros x Hx. apply (Hincl 15). eapply In_firstn; eassumption.
    + now apply StronglySorted_firstn, StronglySorted_firstn.
    + rewrite !length_firstn, Hlen. lia.
    + now apply Nat.leb_le.
Qed.

(* ------------------------------------------------------------------ *)
(** ** Scatter plots and time series *)

Lemma numberOrZero_not_NaN (v : Value) : isNaN (numberOrZero v) = false.
Proof.
  unfold numberOrZero. cbv zeta.
  destruct (ToNumber v) as [| | |q]; try reflexivity.
  simpl. now destruct (negb (Qeq_bool q 0)).
Qed.

(** The scatter plot has a point for each of the first 500 rows in which
    both cells are truthy, and no coordinate is [NaN]. *)
Theorem createScatterPlot_points (rows : list Row) (c1 c2 : string) :
  let points := createScatterPlot rows c1 c2 in
  List.length points
  = Nat.min 500
      (countIf (fun row => truthy (getField row c1)
                           && truthy (getField row c2)) rows)
  /\ Forall (fun p => isNaN (fst p) = false /\ isNaN (snd p) = false) points.
Proof.
  cbv zeta. unfold createScatterPlot, countIf. split.
  - now rewrite length_firstn, length_map.
  - apply Forall_firstn, Forall_forall. intros p Hp.
    apply in_map_iff in Hp as [row [<- _]]. cbn [fst snd].
    split; apply numberOrZero_not_NaN.
Qed.

Lemma StronglySorted_weaken_In {A} (R S : A -> A -> Prop) (l : list A) :
  (forall a b, In a l -> In b l -> R a b -> S a b) ->
  StronglySorted R l -> StronglySorted S l.
Proof.
  intros HRS H. induction H as [|x l Hl IH Hx]; constructor.
  - apply IH. intros a b Ha Hb. apply HRS; now right.
  - rewrite Forall_forall in *. intros y Hy.
    apply HRS; [now left|now right|auto].
Qed.

(** When the date cell of every plotted row is a valid date, the time
    series has at most 100 points in ascending order of time, and no value
    is [NaN]. *)
Theorem createTimeSeries_points (rows : list Row) (dateColumn valueColumn : string) :
  (forall row, In row rows ->
     truthy (getField row dateColumn) && truthy (getField row valueColumn) = true ->
     finite (Date_getTime (getField row dateColumn))) ->
  let points := createTimeSeries rows dateColumn valueColumn in
  List.length points
  = Nat.min 100
      (countIf (fun row => truthy (getField row dateColumn)
                           && truthy (getField row valueColumn)) rows)
  /\ StronglySorted (fun a b => (point_date a <=? point_date b)%num = true) points
  /\ Forall (fun p => isNaN (point_value p) = false) points.
Proof.
  intro Hdates. cbv zeta. unfold createTimeSeries, countIf.
  set (cmp := fun a b : TimePoint => (point_date a - point_date b)%num).
  set (l := map _ (filter _ rows)).
  assert (Hfin : Forall (fun p => finite (point_date p)) l).
  { apply Forall_forall. intros p Hp. apply in_map_iff in Hp as [row [<- Hrow]].
    apply filter_In in Hrow as [Hin Ht]. cbn [point_date]. auto. }
  assert (Hperm : Permutation (Array_sort cmp l) l) by apply Array_sort_perm.
  split; [|split].
  - rewrite length_firstn, Array_sort_length. unfold l. now rewrite length_map.
  - apply StronglySorted_firstn.
    apply StronglySorted_weaken_In
      with (R := fun a b => (cmp b a <? zero)%num = false).
    + intros a b Ha Hb. rewrite Forall_forall in Hfin.
      pose proof (Hfin a (Permutation_in _ Hperm Ha)) as Fa.
      pose proof (Hfin b (Permutation_in _ Hperm Hb)) as Fb.
      unfold cmp. destruct (point_date a) as [| | |qa]; try discriminate.
      destruct (point_date b) as [| | |qb]; try discriminate.
      rewrite before_Fin, nle_Fin. intro H.
      apply not_true_iff_false in H. rewrite Qlt_bool_iff in H.
      apply Qle_bool_iff. now apply Qnot_lt_le.
    + apply (@Array_sort_sorted _ cmp (fun p => finite (point_date p))).
      * intros a b Fa Fb. now apply finite_before_asym.
      * intros a b c Fa Fb Fc. now apply finite_not_before_trans.
      * exact Hfin.
  - apply Forall_firstn.
    eapply Permutation_Forall; [symmetry; exact Hperm|].
    apply Forall_forall. intros p Hp. apply in_map_iff in Hp as [row [<- _]].
    apply numberOrZero_not_NaN.
Qed.

(* ------------------------------------------------------------------ *)
(** ** One constant column and the recommendations *)

Lemma forEachM_error {A S} (body : S -> A -> result S) (E : JSError)
  (l : list A) :
  (forall s x e, body s x = Throw e -> e = E) ->
  forall s e, forEachM body l s = Throw e -> e = E.
Proof.
  intro Hbody. induction l as [|x l IH]; intros s e; simpl; [discriminate|].
  destruct (body s x) as [s'|e'] eqn:Hx; simpl.
  - apply IH.
  - intro H. inversion H; subst. eapply Hbody; eassumption.
Qed.

Lemma forEachM_throws {A S} (body : S -> A -> result S) (E : JSError)
  (l : list A) (x : A) :
  (forall s y e, body s y = Throw e -> e = E) ->
  In x l -> (forall s, body s x = Throw E) ->
  forall s, forEachM body l s = Throw E.
Proof.
  intros Hbody Hin Hx. induction l as [|y l IH]; [destruct Hin|].
  intro s. simpl. destruct Hin as [->|Hin].
  - now rewrite Hx.
  - destruct (body s y) as [s'|e] eqn:Hy; simpl; [now apply IH|].
    f_equal. eapply Hbody; eassumption.
Qed.

(** [createHistogram] throws nothing but the [TypeError] of the missing
    bin. *)
Lemma createHistogram_error (rows : list Row) (columnName : string) (e : JSError) :
  createHistogram rows columnName = Throw e ->
  e = TypeError "Cannot read properties of undefined".
Proof.
  unfold createHistogram. cbv zeta.
  destruct (binCount_is_length (List.length (numbersOf rows columnName)))
    as [b [k [Hb Hk]]].
  rewrite Hb. unfold Array_init. rewrite Hk. cbn [bind].
  apply forEachM_error. intros s x e'. unfold incrementBin.
  match goal with
  | |- match toIndex ?i with _ => _ end = _ -> _ =>
      destruct (toIndex i) as [j|]; [destruct (nth_error s j)|]
  end; intro H; now inversion H.
Qed.

Lemma histogram_of_constant_column (rows : list Row) (columnName : string) (q : Q) :
  rows <> [] ->
  (forall row, In row rows -> ToNumber (getField row columnName) = Fin q) ->
  createHistogram rows columnName
  = Throw (TypeError "Cannot read properties of undefined").
Proof.
  intros Hne Hall. unfold createHistogram.
  rewrite (numbersOf_constant _ _ Hall).
  destruct rows as [|row0 rest]; [congruence|].
  cbn [List.length].
  rewrite Math_min_repeat, Math_max_repeat, repeat_length.
  destruct (binCount_is_length (S (List.length rest))) as [b [k [Hb Hk]]].
  rewrite Hb. unfold Array_init. rewrite Hk.
  cbn [bind repeat forEachM].
  assert (Hidx : ((Fin q - Fin q) / ((Fin q - Fin q) / Fin b))%num = NaN).
  { destruct (ndiv_zero_Fin b (nsub_self q)) as [-> | Hw].
    - now destruct (Fin q - Fin q)%num.
    - apply ndiv_zero_zero; [apply nsub_self|assumption]. }
  rewrite Hidx. reflexivity.
Qed.

Lemma filter_repeat_true {A} (f : A -> bool) (x : A) (n : nat) :
  f x = true -> filter f (repeat x n) = repeat x n.
Proof. intro H. induction n as [|n IH]; simpl; [|rewrite H, IH]; auto. Qed.

Lemma map_constant {A B} (f : A -> B) (l : list A) (y : B) :
  (forall x, In x l -> f x = y) -> map f l = repeat y (List.length l).
Proof.
  induction l as [|x l IH]; intro H; [reflexivity|]. simpl.
  rewrite (H x (or_introl eq_refl)). f_equal. apply IH.
  intros z Hz. apply H. now right.
Qed.

(** The profile of a column that holds one number in every row. *)
Lemma profileColumn_constant (rows : list Row) (k : string) (q : Q) :
  rows <> [] ->
  (forall row, In row rows -> getField row k = VNum (Fin q)) ->
  isBooleanLike (VNum (Fin q)) = false ->
  type (profileColumn rows k) = Numeric /\ stats (profileColumn rows k) <> None.
Proof.
  intros Hne Hall Hbool. unfold profileColumn. cbv zeta. cbn [type stats].
  rewrite (map_constant _ _ Hall).
  rewrite (filter_repeat_true isPresent) by reflexivity.
  destruct rows as [|row0 rest]; [congruence|]. cbn [List.length].
  assert (Htype : detectColumnType (repeat (VNum (Fin q)) (S (List.length rest)))
                  = Numeric).
  { unfold detectColumnType. rewrite repeat_length. cbn [Nat.eqb]. cbv zeta.
    rewrite !count_exceeds_share.
    rewrite (filter_repeat_false isBooleanLike) by assumption.
    rewrite (filter_repeat_true isNumericLike) by reflexivity.
    rewrite repeat_length. unfold moreThan80. cbn [List.length].
    assert (H0 : Nat.ltb (4 * S (List.length rest)) (5 * 0) = false)
      by (apply Nat.ltb_ge; lia).
    assert (H1 : Nat.ltb (4 * S (List.length rest)) (5 * S (List.length rest))
                 = true) by (apply Nat.ltb_lt; lia).
    now rewrite H0, H1. }
  rewrite Htype. split; [reflexivity|].
  rewrite map_repeat. cbn [ToNumber].
  rewrite (filter_repeat_true (fun v => negb (isNaN v))) by reflexivity.
  rewrite repeat_length. discriminate.
Qed.

(** A dataset with a column that holds one same number in every row (a
    number other than 0 and 1) gets no chart recommendations: the
    histogram of that column throws, and the call throws with it. *)
Theorem generateChartRecommendations_constant_column
  (row0 : Row) (rest : list Row) (k : string) (q : Q) :
  (forall row, In row (row0 :: rest) -> getField row k = VNum (Fin q)) ->
  isBooleanLike (VNum (Fin q)) = false ->
  fst (generateChartRecommendations (newEngine (row0 :: rest)))
  = Throw (TypeError "Cannot read properties of undefined").
Proof.
  intros Hall Hbool.
  set (rows := row0 :: rest) in *.
  assert (Hne : rows <> []) by discriminate.
  destruct (@profileColumn_constant rows k q Hne Hall Hbool) as [Htype Hstats].
  assert (Hkey : In k (Object_keys row0)).
  { pose proof (Hall row0 (or_introl eq_refl)) as H0. unfold getField in H0.
    destruct (find _ row0) as [kv|] eqn:Hf; [|discriminate].
    apply find_some in Hf as [Hin Heq]. apply String.eqb_eq in Heq.
    subst k. now apply in_map. }
  assert (Hthrow : forall cols,
            In (profileColumn rows k) cols ->
            histogramCharts rows cols []
            = Throw (TypeError "Cannot read properties of undefined")).
  { intros cols Hin. unfold histogramCharts.
    apply forEachM_throws with (x := profileColumn rows k); [|exact Hin|].
    - intros s col e. destruct (stats col); [|discriminate].
      destruct (createHistogram rows (name col)) as [h|e'] eqn:Hh;
        [discriminate|].
      cbn [bind]. intro H. inversion H; subst.
      eapply createHistogram_error; eassumption.
    - intro s. destruct (stats (profileColumn rows k)); [|congruence].
      rewrite profileColumn_name.
      rewrite (@histogram_of_constant_column rows k q); [reflexivity|exact Hne|].
      intros row Hrow. now rewrite (Hall row Hrow). }
  unfold generateChartRecommendations, ensureProfile.
  cbn [profile newEngine].
  pose proof (profileData_newEngine row0 rest) as Hp. cbv zeta in Hp.
  fold rows in Hp. rewrite Hp. cbn [fst bind data].
  unfold chartCandidates. cbn [columns]. rewrite Hthrow; [reflexivity|].
  apply filter_In. split.
  - now apply in_map.
  - unfold isNumericColumn. now rewrite Htype.
Qed.

(* ------------------------------------------------------------------ *)
(** ** The insights panel

    [InsightsPanel] splits the insights it is given into three lists and
    shows two counts of the profile. *)

(** [insights.filter(i => i.type === 'business')] *)
Definition businessInsights (insights : list AIInsight) : list AIInsight :=
  filter (fun i => match insight_type i with BusinessInsight => true | _ => false end)
    insights.

(** [insights.filter(i => i.type !== 'business')] *)
Definition technicalInsights (insights : list AIInsight) : list AIInsight :=
  filter (fun i => negb match insight_type i with
                        | BusinessInsight => true | _ => false end)
    insights.

(** [insights.filter(i => i.actionable)] *)
Definition actionableInsights (insights : list AIInsight) : list AIInsight :=
  filter actionable insights.

(** [dataProfile.correlations.filter(c => c.strength === 'strong').length] *)
Definition strongCorrelations (p : DataProfile) : nat :=
  List.length (filter (fun c => match strength c with Strong => true | _ => false end)
                 (correlations p)).

Definition isCorrelationInsight (i : AIInsight) : bool :=
  match insight_type i with CorrelationInsight => true | _ => false end.

Definition isHigh (i : AIInsight) : bool :=
  match severity i with High => true | _ => false end.

Lemma filter_all {A} (f : A -> bool) (l : list A) :
  Forall (fun x => f x = true) l -> filter f l = l.
Proof. induction 1 as [|x l Hx Hl IH]; simpl; [|rewrite Hx, IH]; auto. Qed.

Lemma filter_split_length {A} (f : A -> bool) (l : list A) :
  List.length (filter f l) + List.length (filter (fun x => negb (f x)) l)
  = List.length l.
Proof.
  induction l as [|x l IH]; [reflexivity|]. simpl.
  destruct (f x); simpl; lia.
Qed.

Ltac insight_shape :=
  repeat destruct_if;
  repeat first
    [ apply Forall_nil
    | apply Forall_cons;
      [ split; [reflexivity|];
        unfold isHigh; cbn [severity insight_type];
        first [intros _; reflexivity | discriminate]
      | ] ].

Lemma ruleBasedInsights_shape (rows : list Row) (p : DataProfile) :
  Forall (fun i => actionable i = true
                   /\ (isHigh i = true -> insight_type i = QualityInsight))
    (ruleBasedInsights rows p).
Proof.
  unfold ruleBasedInsights. cbv zeta.
  apply Forall_app; split; [|apply Forall_app; split; [|apply Forall_app; split]].
  - insight_shape.
  - insight_shape.
  - apply Forall_flat_map_all. intro col.
    destruct (stats col); [|constructor].
    apply Forall_app; split; insight_shape.
  - apply Forall_forall. intros i Hi.
    apply in_map_iff in Hi as [corr [<- _]]. split; [reflexivity|discriminate].
Qed.

Lemma generateBusinessInsights_shape (p : DataProfile) (reply : Narrative) :
  Forall (fun i => actionable i = true /\ isHigh i = false
                   /\ isCorrelationInsight i = false)
    (generateBusinessInsights p reply).
Proof.
  unfold generateBusinessInsights. cbv zeta. apply Forall_firstn.
  destruct reply as [|text].
  - unfold fallbackInsights. cbv zeta.
    apply Forall_app; split; destruct_if;
      repeat first [apply Forall_nil | apply Forall_cons; [now repeat split|]].
  - apply Forall_flat_map_all. intro line. unfold parseNarrativeLine.
    destruct (matchesNumbered line); [|constructor].
    destruct (matchBracket line);
      [constructor; [now repeat split|constructor]|].
    destruct (indexOf 58 line); [|constructor].
    destruct_if;
      repeat first [apply Forall_nil | apply Forall_cons; [now repeat split|]].
Qed.

Lemma ruleBasedInsights_high (rows : list Row) (p : DataProfile) :
  countIf isHigh (ruleBasedInsights rows p) <= 2.
Proof.
  unfold ruleBasedInsights. cbv zeta. rewrite !countIf_app.
  match goal with
  | |- ?a + (?b + (?c + ?d)) <= 2 =>
      assert (Ha : a <= 1); [|assert (Hb : b <= 1);
        [|assert (Hc : c = 0); [|assert (Hd : d = 0); [|lia]]]]
  end.
  - destruct_if; [|unfold countIf; simpl; lia].
    etransitivity; [apply countIf_le_length|]. simpl. lia.
  - destruct_if; [|unfold countIf; simpl; lia].
    etransitivity; [apply countIf_le_length|]. simpl. lia.
  - apply countIf_none. apply Forall_flat_map_all. intro col.
    destruct (stats col); [|constructor].
    apply Forall_app; split; repeat destruct_if;
      repeat first [apply Forall_nil | apply Forall_cons; [reflexivity|]].
  - apply countIf_none. apply Forall_forall. intros i Hi.
    apply in_map_iff in Hi as [corr [<- _]]. reflexivity.
Qed.

Lemma ruleBasedInsights_correlations (rows : list Row) (p : DataProfile) :
  countIf isCorrelationInsight (ruleBasedInsights rows p) = strongCorrelations p.
Proof.
  unfold ruleBasedInsights, strongCorrelations. cbv zeta. rewrite !countIf_app.
  match goal with
  | |- ?a + (?b + (?c + ?d)) = ?n =>
      assert (Ha : a = 0); [|assert (Hb : b = 0);
        [|assert (Hc : c = 0); [|assert (Hd : d = n); [|lia]]]]
  end.
  - apply countIf_none. destruct_if; repeat constructor.
  - apply countIf_none. destruct_if; repeat constructor.
  - apply countIf_none. apply Forall_flat_map_all. intro col.
    destruct (stats col); [|constructor].
    apply Forall_app; split; destruct_if; repeat constructor.
  - unfold countIf. rewrite filter_all, length_map; [reflexivity|].
    apply Forall_forall. intros i Hi.
    apply in_map_iff in Hi as [corr [<- _]]. reflexivity.
Qed.

(** What the panel shows of the insights of a dataset with a row: every
    insight is actionable, so its list of actionable insights is the whole
    list; the business and the technical insights share the list out; the
    insights on correlations are as many as the strong correlations the
    panel counts; and an insight of high severity is one of at most two
    data-quality insights. *)
Theorem generateAIInsights_on_panel (e : Engine) (reply : Narrative) :
  data e <> [] ->
  exists p e' insights,
    generateAIInsights e reply = (Ok insights, e')
    /\ profile e' = Some p
    /\ actionableInsights insights = insights
    /\ List.length (businessInsights insights)
       + List.length (technicalInsights insights) = List.length insights
    /\ countIf isCorrelationInsight insights = strongCorrelations p
    /\ countIf isHigh insights <= 2
    /\ Forall (fun i => isHigh i = true -> insight_type i = QualityInsight)
         insights.
Proof.
  intro Hne.
  destruct (ensureProfile_ok e Hne) as [p [e' [Hprof [Hp Hd]]]].
  exists p, e'. eexists.
  unfold generateAIInsights. rewrite Hprof. cbn [bind].
  split; [reflexivity|]. split; [exact Hp|].
  set (all := ruleBasedInsights (data e') p ++ generateBusinessInsights p reply).
  assert (Hperm : Permutation (sortBySeverity all) all) by apply Array_sort_perm.
  assert (Hall : Forall (fun i => actionable i = true
                   /\ (isHigh i = true -> insight_type i = QualityInsight)) all).
  { apply Forall_app. split; [apply ruleBasedInsights_shape|].
    eapply Forall_impl; [|apply generateBusinessInsights_shape].
    intros i (Ha & Hh & _). split; [exact Ha|congruence]. }
  assert (Hsorted : Forall (fun i => actionable i = true
                   /\ (isHigh i = true -> insight_type i = QualityInsight))
                      (sortBySeverity all)).
  { eapply Permutation_Forall; [symmetry; exact Hperm|exact Hall]. }
  split; [|split; [|split; [|split]]].
  - apply filter_all. eapply Forall_impl; [|exact Hsorted]. now intros i [Ha _].
  - apply filter_split_length.
  - rewrite (Permutation_countIf _ Hperm). unfold all.
    rewrite countIf_app, ruleBasedInsights_correlations.
    rewrite countIf_none; [lia|].
    eapply Forall_impl; [|apply generateBusinessInsights_shape].
    now intros i (_ & _ & Hc).
  - rewrite (Permutation_countIf _ Hperm). unfold all.
    rewrite countIf_app.
    pose proof (ruleBasedInsights_high (data e') p).
    rewrite (@countIf_none _ isHigh (generateBusinessInsights p reply)); [lia|].
    eapply Forall_impl; [|apply generateBusinessInsights_shape].
    now intros i (_ & Hh & _).
  - eapply Forall_impl; [|exact Hsorted]. now intros i [_ Hq].
Qed.

(* ------------------------------------------------------------------ *)
(** ** What a recommended chart holds *)

(** The data of a chart is of the kind its type draws, a line has two
    points or more, a heatmap has a cell, and the chart names one column
    (histogram, bar, pie) or two. *)
Definition chartFits (chart : ChartRecommendation) : Prop :=
  match chart_type chart, chart_data chart with
  | Histogram, HistogramData _ => List.length (chart_columns chart) = 1
  | Bar, CategoryData _ => List.length (chart_columns chart) = 1
  | Pie, CategoryData _ => List.length (chart_columns chart) = 1
  | Line, LineData points =>
      2 <= List.length points /\ List.length (chart_columns chart) = 2
  | Scatter, ScatterData _ => List.length (chart_columns chart) = 2
  | Heatmap, HeatmapData cells =>
      1 <= List.length cells /\ List.length (chart_columns chart) = 2
  | Box, BoxData _ => List.length (chart_columns chart) = 2
  | _, _ => False
  end.

Definition chartOf (p : DataProfile) (chart : ChartRecommendation) : Prop :=
  chartFits chart
  /\ forall c, In c (chart_columns chart) -> In c (map name (columns p)).

Lemma named_one (p : DataProfile) (col : DataColumn) :
  In col (columns p) ->
  forall c, In c [name col] -> In c (map name (columns p)).
Proof. intros H c [<-|[]]. now apply in_map. Qed.

Lemma named_two (p : DataProfile) (colA colB : DataColumn) :
  In colA (columns p) -> In colB (columns p) ->
  forall c, In c [name colA; name colB] -> In c (map name (columns p)).
Proof. intros HA HB c [<-|[<-|[]]]; now apply in_map. Qed.

Lemma histogramCharts_chartOf (rows : list Row) (p : DataProfile)
  (cols : list DataColumn) :
  incl cols (columns p) ->
  forall recs0 recs,
    histogramCharts rows cols recs0 = Ok recs ->
    Forall (chartOf p) recs0 -> Forall (chartOf p) recs.
Proof.
  unfold histogramCharts.
  induction cols as [|col rest IH]; intros Hincl recs0 recs H H0; simpl in H.
  - now injection H as <-.
  - assert (Hrest : incl rest (columns p)).
    { intros x Hx. apply Hincl. now right. }
    destruct (stats col).
    + destruct (createHistogram rows (name col)) as [bins|err];
        simpl in H; [|discriminate].
      apply (IH Hrest _ _ H). apply Forall_app. split; [assumption|].
      constructor; [|constructor]. split; [reflexivity|].
      apply named_one, Hincl. now left.
    + simpl in H. exact (IH Hrest _ _ H H0).
Qed.

Lemma Forall_flat_map_in {A B} (P : B -> Prop) (f : A -> list B) (l : list A) :
  (forall x, In x l -> Forall P (f x)) -> Forall P (flat_map f l).
Proof.
  intro H. induction l as [|x l IH]; simpl; [constructor|].
  apply Forall_app. split; [apply H; now left|].
  apply IH. intros y Hy. apply H. now right.
Qed.

Lemma chartCandidates_chartOf (rows : list Row) (p : DataProfile)
  (candidates : list ChartRecommendation) :
  chartCandidates rows p = Ok candidates -> Forall (chartOf p) candidates.
Proof.
  unfold chartCandidates. cbv zeta.
  set (numericCols := filter isNumericColumn (columns p)).
  set (categoricalCols := filter isCategoricalColumn (columns p)).
  set (datetimeCols := filter isDatetimeColumn (columns p)).
  assert (Hnum : incl numericCols (columns p)).
  { intros x Hx. now apply filter_In in Hx. }
  assert (Hcat : incl categoricalCols (columns p)).
  { intros x Hx. now apply filter_In in Hx. }
  assert (Hdate : incl datetimeCols (columns p)).
  { intros x Hx. now apply filter_In in Hx. }
  assert (Hnum2 : incl (firstn 2 numericCols) (columns p)).
  { intros x Hx. apply Hnum. eapply In_firstn; eassumption. }
  assert (Hcat2 : incl (firstn 2 categoricalCols) (columns p)).
  { intros x Hx. apply Hcat. eapply In_firstn; eassumption. }
  destruct (histogramCharts rows numericCols []) as [hist|err] eqn:Hh;
    simpl; [|discriminate].
  intro H. injection H as <-.
  apply Forall_app; split;
    [exact (@histogramCharts_chartOf rows p numericCols Hnum _ _ Hh (Forall_nil _))|].
  apply Forall_app; split; [|apply Forall_app; split;
    [|apply Forall_app; split; [|apply Forall_app; split]]].
  - apply Forall_flat_map_in. intros col Hcol.
    destruct (distribution col); [|constructor].
    constructor; [split; [reflexivity|now apply named_one, Hcat]|].
    destruct (Nat.leb (uniqueValues col) 8); [|constructor].
    constructor; [|constructor].
    split; [reflexivity|now apply named_one, Hcat].
  - apply Forall_flat_map_in. intros dateCol HdateCol.
    apply Forall_flat_map_in. intros numCol HnumCol. cbv zeta.
    destruct (Nat.ltb 1 (List.length (createTimeSeries rows (name dateCol)
                                        (name numCol)))) eqn:Hlen;
      [|constructor].
    apply Nat.ltb_lt in Hlen.
    constructor; [|constructor]. split.
    + unfold chartFits. cbn [chart_type chart_data chart_columns List.length].
      split; [lia|reflexivity].
    + apply named_two; [now apply Hdate|now apply Hnum].
  - apply Forall_flat_map_in. intros [c1 c2] Hpair.
    apply In_pairs in Hpair as [H1 H2]. cbn [fst snd].
    destruct (findCorrelation p c1 c2) as [corr|]; [|constructor].
    destruct_if; [|constructor].
    constructor; [|constructor]. split; [reflexivity|].
    apply named_two; [now apply Hnum|now apply Hnum].
  - apply Forall_flat_map_in. intros catCol HcatCol.
    apply Forall_flat_map_in. intros numCol HnumCol. cbv zeta.
    destruct (Nat.ltb 0 (List.length (createHeatmap rows (name catCol)
                                        (name numCol)))) eqn:Hlen;
      [|constructor].
    apply Nat.ltb_lt in Hlen.
    constructor; [|constructor]. split.
    + unfold chartFits. cbn [chart_type chart_data chart_columns List.length].
      split; [lia|reflexivity].
    + apply named_two; [now apply Hcat2|now apply Hnum2].
  - apply Forall_flat_map_in. intros catCol HcatCol.
    apply Forall_flat_map_in. intros numCol HnumCol.
    destruct_if; [|constructor].
    constructor; [|constructor]. split; [reflexivity|].
    apply named_two; [now apply Hcat2|now apply Hnum2].
Qed.

(** Every chart that is recommended names columns of the profile, one
    for a histogram, a bar or a pie chart and two for the others, and its
    data is of the kind its type draws: bins for a histogram, category
    counts for a bar or a pie chart, two points or more for a line, points
    for a scatter plot, at least one cell for a heatmap, boxes for a box
    plot.  No area chart and no treemap is recommended. *)
Theorem generateChartRecommendations_charts
  (e e' : Engine) (recs : list ChartRecommendation) :
  generateChartRecommendations e = (Ok recs, e') ->
  exists p, profile e' = Some p /\ Forall (chartOf p) recs.
Proof.
  unfold generateChartRecommendations.
  destruct (ensureProfile e) as [r e1] eqn:Hens. intro H.
  injection H as Hr <-.
  destruct r as [p|err]; simpl in Hr; [|discriminate].
  destruct (chartCandidates (data e1) p) as [candidates|err] eqn:Hc;
    simpl in Hr; [|discriminate].
  injection Hr as <-.
  exists p. split.
  - unfold ensureProfile in Hens. destruct (profile e) as [p0|] eqn:Hp.
    + injection Hens as <- <-. exact Hp.
    + unfold profileData in Hens. destruct (data e); [discriminate|].
      cbv zeta in Hens. injection Hens as <- <-. reflexivity.
  - apply chartCandidates_chartOf in Hc. rewrite Forall_forall in *.
    intros chart Hin. apply Hc. unfold topRecommendations in Hin.
    apply In_firstn in Hin.
    eapply Permutation_in; [apply Array_sort_perm|exact Hin].
Qed.

End DataAnalysisEngine.

(** C3 fails as stated: of the five values 0, 1, 0, 1, 7 exactly 80% are
    boolean-like, so the rule "at least 80%" names the column boolean;
    the engine names it numeric. *)
Lemma detectColumnType_at_80_percent :
  detectColumnType sample_StringToNumber sample_NumberToString
    sample_Date_parse values_80_percent = Numeric
  /\ inferType sample_StringToNumber sample_NumberToString sample_Date_parse
       atLeast80 values_80_percent = Boolean.
Proof. split; vm_compute; reflexivity. Qed.

(** C5 fails as stated: two rows that are the same mapping written in two
    key orders are a repeat for an order-independent comparison, and none
    for the engine. *)
Lemma findDuplicateRows_key_order :
  findDuplicateRows rows_reordered = 0 /\ repeatsByMapping rows_reordered = 1.
Proof. split; reflexivity. Qed.

(** ** The engine run on the sample rows *)

(** C1 at a sample: the column [a] of three cells 5. *)
Lemma createHistogram_constant_sample :
  createHistogram sample_StringToNumber rows_constant "a"
  = Throw (TypeError "Cannot read properties of undefined").
Proof.
  apply (@createHistogram_constant_column_throws sample_StringToNumber
           rows_constant "a" (inject_Z 5)).
  split; [discriminate|].
  intros row [<-|[<-|[<-|[]]]]; reflexivity.
Defined.

(** C2 at a sample: the skewness of the column [a] of three cells 5. *)
Lemma calculateSkewness_constant_sample :
  calculateSkewness sample_StringToNumber rows_constant "a" = NaN.
Proof.
  apply (@calculateSkewness_constant_column_is_NaN sample_StringToNumber
           rows_constant "a" 5).
  - split; [discriminate|].
    intros row [<-|[<-|[<-|[]]]]; reflexivity.
  - apply Z.leb_le. reflexivity.
Defined.

(** C9 at a sample: the statistics of 5, 1, 3, 2. *)
Lemma calculateStatistics_ordered_sample :
  let s := calculateStatistics [of_Z 5; of_Z 1; of_Z 3; of_Z 2] in
  optLe (stat_min s) (stat_q1 s) = true
  /\ optLe (stat_q1 s) (stat_median s) = true
  /\ optLe (stat_median s) (stat_q3 s) = true
  /\ optLe (stat_q3 s) (stat_max s) = true.
Proof.
  apply (proj1 (@calculateStatistics_ordered sample_StringToNumber
                  sample_NumberToString sample_Date_parse)
           [of_Z 5; of_Z 1; of_Z 3; of_Z 2]).
  - discriminate.
  - repeat constructor.
Defined.

(** C6 at two samples.  On the constant column the whole chart
    generation throws, so there are no bins to sum.  On the column 1, 2,
    3, 4, [null] the bins hold five values, one more than the four
    non-null numeric values of the column: the [null] cell is counted as
    the number 0. *)
Theorem createHistogram_counts_diverge :
  fst (generateChartRecommendations sample_StringToNumber
         sample_NumberToString sample_Date_parse (newEngine rows_constant))
  = Throw (TypeError "Cannot read properties of undefined")
  /\ (exists bins,
        createHistogram sample_StringToNumber rows_with_null "a" = Ok bins
        /\ binTotal bins = 5
        /\ List.length (presentNumbersOf sample_StringToNumber rows_with_null "a")
           = 4).
Proof.
  split; [vm_compute; reflexivity|].
  eexists. split; [vm_compute; reflexivity|].
  split; vm_compute; reflexivity.
Qed.

(** C4 at a sample: two numeric columns, the first cell of [a] is [null].
    With the nulls filtered the pairs are (2,1), (3,2) and the
    correlation is 1; the engine keeps the [null] as 0, pairs (0,1),
    (2,2), (3,4), and reports 13/14. *)
Theorem calculateCorrelations_keeps_null :
  (exists p e,
     profileData sample_StringToNumber sample_NumberToString sample_Date_parse
       (newEngine rows_null_pair) = (Ok p, e)
     /\ correlations p
        = [ {| col1 := "a"; col2 := "b";
               correlation := Fin (13 # 14); strength := Strong |} ])
  /\ pearsonCorrelation
       (presentNumbersOf sample_StringToNumber rows_null_pair "a")
       (presentNumbersOf sample_StringToNumber rows_null_pair "b")
     = Fin 1.
Proof.
  split; [|vm_compute; reflexivity].
  eexists. eexists. split; [vm_compute; reflexivity|].
  vm_compute. reflexivity.
Qed.


(** C7 at a sample: the collaborator throws on [rows_mixed]. *)
Lemma generateAIInsights_sample :
  exists insights e',
    generateAIInsights sample_StringToNumber sample_NumberToString
      sample_Date_parse (newEngine rows_mixed) NarrativeFails
    = (Ok insights, e')
    /\ countIf isBusiness insights <= 5.
Proof.
  destruct (@generateAIInsights_survives_collaborator sample_StringToNumber
              sample_NumberToString sample_Date_parse
              (newEngine rows_mixed) NarrativeFails ltac:(discriminate))
    as [p [e' [insights [Hgen [_ [_ [Hfive _]]]]]]].
  exists insights, e'. split; assumption.
Defined.

(** C7 fails as stated, twice.  An empty reply is no exception: on
    [rows_with_null], which has a numeric column, the reply [""] adds no
    business insight at all, fallback or other.  And on the empty dataset
    insight generation throws. *)
Lemma generateAIInsights_empty_reply :
  (exists insights p e',
     generateAIInsights sample_StringToNumber sample_NumberToString
       sample_Date_parse (newEngine rows_with_null) (NarrativeText "")
     = (Ok insights, e')
     /\ profile e' = Some p
     /\ existsb isNumericColumn (columns p) = true
     /\ countIf isBusiness insights = 0)
  /\ fst (generateAIInsights sample_StringToNumber sample_NumberToString
            sample_Date_parse (newEngine []) NarrativeFails)
     = Throw (Error "No data to analyze").
Proof.
  split; [|reflexivity].
  eexists. eexists. eexists.
  split; [vm_compute; reflexivity|].
  split; [reflexivity|]. split; vm_compute; reflexivity.
Qed.

(** C10 at a sample: the field [extra] of the second record. *)
Lemma profileData_schema_sample :
  exists p p',
    fst (profileData sample_StringToNumber sample_NumberToString
           sample_Date_parse (newEngine rows_later_field)) = Ok p
    /\ fst (profileData sample_StringToNumber sample_NumberToString
              sample_Date_parse (newEngine rows_without_later_field)) = Ok p'
    /\ map name (columns p) = ["a"]
    /\ columns p' = columns p
    /\ fst (generateChartRecommendations sample_StringToNumber
              sample_NumberToString sample_Date_parse
              (newEngine rows_without_later_field))
       = fst (generateChartRecommendations sample_StringToNumber
                sample_NumberToString sample_Date_parse
                (newEngine rows_later_field)).
Proof.
  destruct (@profileData_schema_of_first_record sample_StringToNumber
              sample_NumberToString sample_Date_parse
              [("a", vint 1)] [("a", vint 1)]
              [ [("a", vint 2); ("extra", vint 9)]; [("a", vint 3)] ]
              [ [("a", vint 2)]; [("a", vint 3)] ]
              eq_refl)
    as [p [p' [Hp [Hp' [Hnames [_ [Hcols [_ [_ [_ [_ Hcharts]]]]]]]]]]].
  - repeat constructor; intros k [<-|[]]; reflexivity.
  - exists p, p'. repeat split; assumption.
Defined.

(* ------------------------------------------------------------------ *)
(** ** The further properties at samples *)

(** The histogram of [rows_with_null]: its counts add up to the five
    numbers of the column. *)
Lemma createHistogram_returned_bins_sample :
  exists bins,
    createHistogram sample_StringToNumber rows_with_null "a" = Ok bins
    /\ binTotal bins
       = List.length (numbersOf sample_StringToNumber rows_with_null "a")
    /\ List.length bins <= 20.
Proof.
  eexists. split; [vm_compute; reflexivity|].
  match goal with
  | |- binTotal ?bins = _ /\ _ =>
      exact (@createHistogram_returned_bins sample_StringToNumber
               rows_with_null "a" bins ltac:(vm_compute; reflexivity))
  end.
Defined.

(** The column of [rows_with_null], 0 to 4: a histogram is returned. *)
Lemma createHistogram_with_spread_sample :
  exists bins,
    createHistogram sample_StringToNumber rows_with_null "a" = Ok bins
    /\ binTotal bins
       = List.length (numbersOf sample_StringToNumber rows_with_null "a")
    /\ 1 <= List.length bins <= 20.
Proof.
  apply (@createHistogram_with_spread sample_StringToNumber rows_with_null "a").
  - repeat constructor.
  - apply Z.leb_le. reflexivity.
  - vm_compute. reflexivity.
Defined.

(** The engine without rows. *)
Lemma empty_dataset_throws_sample :
  generateChartRecommendations sample_StringToNumber sample_NumberToString
    sample_Date_parse (newEngine [])
  = (Throw (Error "No data to analyze"), newEngine []).
Proof.
  exact (proj1 (proj2 (@empty_dataset_throws sample_StringToNumber
                         sample_NumberToString sample_Date_parse
                         (newEngine []) NarrativeFails eq_refl eq_refl))).
Defined.

(** The second call for the recommendations of [rows_mixed]. *)
Lemma profile_is_cached_sample :
  generateChartRecommendations sample_StringToNumber sample_NumberToString
    sample_Date_parse
    (snd (generateChartRecommendations sample_StringToNumber
            sample_NumberToString sample_Date_parse (newEngine rows_mixed)))
  = (fst (generateChartRecommendations sample_StringToNumber
            sample_NumberToString sample_Date_parse (newEngine rows_mixed)),
     snd (generateChartRecommendations sample_StringToNumber
            sample_NumberToString sample_Date_parse (newEngine rows_mixed))).
Proof.
  pose proof (@profile_is_cached sample_StringToNumber sample_NumberToString
                sample_Date_parse (newEngine rows_mixed)
                ltac:(discriminate)) as H.
  cbv zeta in H. exact (proj1 (proj2 (proj2 H))).
Defined.

(** Four rows that all hold the word [x]. *)
Lemma detectColumnType_repeated_sample :
  detectColumnType sample_StringToNumber sample_NumberToString
    sample_Date_parse (repeat (VStr "x") 4) = Categorical.
Proof.
  apply (@detectColumnType_repeated_value sample_StringToNumber
           sample_NumberToString sample_Date_parse (VStr "x") 4);
    reflexivity.
Defined.

(** The boxes of [n] by [c] in [rows_mixed]. *)
Lemma createBoxPlot_boxes_sample :
  NoDup (map box_category
           (createBoxPlot sample_StringToNumber sample_NumberToString
              rows_mixed "c" "n")).
Proof.
  assert (Hfin : Forall (fun v => moderate v = true)
                   (numbersOf sample_StringToNumber rows_mixed "n")).
  { repeat constructor. }
  assert (Hkeys : forall row, In row rows_mixed ->
            ordinaryKey (categoryOf sample_NumberToString row "c") = true).
  { intros row [<-|[<-|[<-|[<-|[<-|[<-|[]]]]]]]; reflexivity. }
  pose proof (@createBoxPlot_boxes sample_StringToNumber sample_NumberToString
                rows_mixed "c" "n" Hkeys Hfin) as H.
  cbv zeta in H. exact (proj1 H).
Defined.

(** The extremes of 3, 1, 2. *)
Lemma calculateStatistics_extremes_sample :
  exists lo hi,
    stat_min (calculateStatistics [of_Z 3; of_Z 1; of_Z 2]) = Some lo
    /\ stat_max (calculateStatistics [of_Z 3; of_Z 1; of_Z 2]) = Some hi
    /\ In lo [of_Z 3; of_Z 1; of_Z 2] /\ In hi [of_Z 3; of_Z 1; of_Z 2].
Proof.
  assert (Hfin : Forall finite [of_Z 3; of_Z 1; of_Z 2]).
  { repeat constructor. }
  destruct (@calculateStatistics_extremes [of_Z 3; of_Z 1; of_Z 2]
              ltac:(discriminate) Hfin)
    as (lo & hi & Hlo & Hhi & Inlo & Inhi & _).
  exists lo, hi. repeat split; assumption.
Defined.

(** The time series of [rows_dated] is in ascending order of time. *)
Lemma createTimeSeries_points_sample :
  StronglySorted (fun a b => (point_date a <=? point_date b)%num = true)
    (createTimeSeries sample_StringToNumber sample_Date_parse
       rows_dated "t" "v").
Proof.
  assert (Hdates : forall row, In row rows_dated ->
            truthy (getField row "t") && truthy (getField row "v") = true ->
            finite (Date_getTime sample_StringToNumber sample_Date_parse
                      (getField row "t"))).
  { intros row [<-|[<-|[<-|[]]]] _; reflexivity. }
  pose proof (@createTimeSeries_points sample_StringToNumber sample_Date_parse
                rows_dated "t" "v" Hdates) as H.
  cbv zeta in H. exact (proj1 (proj2 H)).
Defined.

(** The constant column of [rows_constant]: no recommendation at all. *)
Lemma generateChartRecommendations_constant_sample :
  fst (generateChartRecommendations sample_StringToNumber
         sample_NumberToString sample_Date_parse (newEngine rows_constant))
  = Throw (TypeError "Cannot read properties of undefined").
Proof.
  apply (@generateChartRecommendations_constant_column sample_StringToNumber
           sample_NumberToString sample_Date_parse
           [("a", vint 5)] [ [("a", vint 5)]; [("a", vint 5)] ] "a"
           (inject_Z 5)).
  - intros row [<-|[<-|[<-|[]]]]; reflexivity.
  - reflexivity.
Defined.

(** The insights of [rows_mixed] when the collaborator throws. *)
Lemma generateAIInsights_on_panel_sample :
  exists insights e',
    generateAIInsights sample_StringToNumber sample_NumberToString
      sample_Date_parse (newEngine rows_mixed) NarrativeFails
    = (Ok insights, e')
    /\ actionableInsights insights = insights
    /\ countIf isHigh insights <= 2.
Proof.
  destruct (@generateAIInsights_on_panel sample_StringToNumber
              sample_NumberToString sample_Date_parse
              (newEngine rows_mixed) NarrativeFails ltac:(discriminate))
    as (p & e' & insights & Hgen & _ & Hact & _ & _ & Hhigh & _).
  exists insights, e'. repeat split; assumption.
Defined.

(** The charts of [rows_mixed]. *)
Lemma generateChartRecommendations_charts_sample :
  exists recs e',
    generateChartRecommendations sample_StringToNumber sample_NumberToString
      sample_Date_parse (newEngine rows_mixed) = (Ok recs, e')
    /\ exists p, profile e' = Some p /\ Forall (chartOf p) recs.
Proof.
  eexists. eexists. split; [vm_compute; reflexivity|].
  match goal with
  | |- exists p, profile ?e' = Some p /\ Forall _ ?recs =>
      exact (@generateChartRecommendations_charts sample_StringToNumber
               sample_NumberToString sample_Date_parse
               (newEngine rows_mixed) e' recs ltac:(vm_compute; reflexivity))
  end.
Defined.

(** The heatmap of [n] by [c] in [rows_mixed]: its counts add up to the
    six rows. *)
Lemma createHeatmap_cells_sample :
  list_sum (map cell_count
              (createHeatmap sample_StringToNumber sample_NumberToString
                 rows_mixed "c" "n")) = 6.
Proof.
  assert (Hkeys : forall row, In row rows_mixed ->
            ordinaryKey (categoryOf sample_NumberToString row "c") = true).
  { intros row [<-|[<-|[<-|[<-|[<-|[<-|[]]]]]]]; reflexivity. }
  pose proof (@createHeatmap_cells sample_StringToNumber sample_NumberToString
                rows_mixed "c" "n" Hkeys) as H.
  cbv zeta in H. exact (proj2 (proj2 (proj2 H))).
Defined.

(** The distribution of the words x, y, x. *)
Lemma calculateDistribution_counts_sample :
  list_sum (map snd (calculateDistribution sample_NumberToString
                       [VStr "x"; VStr "y"; VStr "x"])) = 3.
Proof.
  assert (Hkeys : forall v, In v [VStr "x"; VStr "y"; VStr "x"] ->
            ordinaryKey (ToString sample_NumberToString v) = true).
  { intros v [<-|[<-|[<-|[]]]]; reflexivity. }
  pose proof (@calculateDistribution_counts sample_NumberToString
                [VStr "x"; VStr "y"; VStr "x"] Hkeys) as H.
  cbv zeta in H. exact (proj2 (proj2 (proj2 H))).
Defined.
